(** * FinancyControl: the statement-parsing core of [app.py]

    A shallow embedding of the parsing pipeline of [src/app.py]
    (locale parsers, merchant normaliser, table-row and text-line parsers,
    fallback orchestrator) and of what surrounds it (reports, query
    builder, storing, upload), together with the properties checked against
    it.

    Conventions of the embedding.

    - A Python [str] is a list of Unicode code points ([N]).  The character
      data used by [str.upper], [unicodedata.normalize("NFD", _)],
      [unicodedata.combining], the regex classes [\d] and [\s],
      [str.isspace], [int()] and [float()] is that of Unicode 14.0, the
      version that CPython 3.11 carries, for every code point.
    - A Python [float] is an IEEE-754 binary64 value, a [spec_float] used at
      precision 53 and maximal exponent 1024.
    - A [ValueError] that the source catches is an [option]; exceptions that
      the source lets escape are carried by the [Run] monad.
    - The database and the web framework are not part of the embedding:
      what the program asks of them is recorded in order, and what they
      answer is an argument. *)

From Stdlib Require Import ZArith NArith List Ascii String Bool Lia.
From Stdlib Require Import Floats.SpecFloat.
From stdpp Require Import base option list gmap strings sorting.

Set Default Proof Using "Type".

(* ===================================================================== *)
(** * Text: Python [str] over code points                                 *)
(* ===================================================================== *)

Abbreviation str := (list N).

(** The code point of an ASCII character, and ASCII literals as [str]. *)
Definition ch (a : ascii) : N := N_of_ascii a.

Definition lit (s : string) : str := map N_of_ascii (list_ascii_of_string s).

Section Characters.
Local Open Scope N_scope.

(** [str.isspace] on one character; also the regex class [\s]. *)
Definition isspace (c : N) : bool :=
  ((9 <=? c) && (c <=? 13)) || ((28 <=? c) && (c <=? 32))
  || (c =? 0x85) || (c =? 0xA0) || (c =? 0x1680)
  || ((0x2000 <=? c) && (c <=? 0x200A))
  || (c =? 0x2028) || (c =? 0x2029) || (c =? 0x202F)
  || (c =? 0x205F) || (c =? 0x3000).

(** The C-locale [isspace] that [float()] uses once its argument is
    transliterated to ASCII. *)
Definition c_isspace (c : N) : bool :=
  ((9 <=? c) && (c <=? 13)) || (c =? 32).

(** The digits of the C parser that [float()] runs on its transliterated
    argument. *)
Definition c_isdigit (c : N) : bool := (48 <=? c) && (c <=? 57).

(** The digit zero of every set of decimal digits other than the ASCII one
    (general category Nd); the digits of a set are the ten code points from
    its zero on, in order. *)
Definition decimal_zeros : list (N) :=
  [
    1632; 1776; 1984; 2406; 2534; 2662; 2790; 2918; 3046; 3174; 3302; 3430;
    3558; 3664; 3792; 3872; 4160; 4240; 6112; 6160; 6470; 6608; 6784; 6800;
    6992; 7088; 7232; 7248; 42528; 43216; 43264; 43472; 43504; 43600; 44016;
    65296; 66720; 68912; 69734; 69872; 69942; 70096; 70384; 70736; 70864;
    71248; 71360; 71472; 71904; 72016; 72784; 73040; 73120; 92768; 92864;
    93008; 120782; 120792; 120802; 120812; 120822; 123200; 123632; 125264;
    130032 ].

(** The zero of the set of decimal digits that [c] belongs to. *)
Definition digit_zero (c : N) : option N :=
  if c <? 1632 then (if (48 <=? c) && (c <=? 57) then Some 48 else None)
  else List.find (fun z => (z <=? c) && (c <=? z + 9)) decimal_zeros.

(** The regex class [\d] of a [str] pattern: the decimal digits of every
    script. *)
Definition isdigit (c : N) : bool :=
  match digit_zero c with
  | Some _ => true
  | None => false
  end.

(** The value of a decimal digit, as [int()] and [float()] read it. *)
Definition digit_value (c : N) : N :=
  match digit_zero c with
  | Some z => c - z
  | None => 0
  end.

(** The entry of a character in a table. *)
Definition lookup_cp {A} (c : N) (table : list (N * A)) : option A :=
  snd <$> List.find (fun entry => fst entry =? c) table.

(** The characters from U+00B5 on that [str.upper] changes, each with what
    it becomes. *)
Definition upper_table : list (N * list N) :=
  [
    (181, [924]); (223, [83; 83]); (224, [192]); (225, [193]); (226, [194]);
    (227, [195]); (228, [196]); (229, [197]); (230, [198]); (231, [199]);
    (232, [200]); (233, [201]); (234, [202]); (235, [203]); (236, [204]);
    (237, [205]); (238, [206]); (239, [207]); (240, [208]); (241, [209]);
    (242, [210]); (243, [211]); (244, [212]); (245, [213]); (246, [214]);
    (248, [216]); (249, [217]); (250, [218]); (251, [219]); (252, [220]);
    (253, [221]); (254, [222]); (255, [376]); (257, [256]); (259, [258]);
    (261, [260]); (263, [262]); (265, [264]); (267, [266]); (269, [268]);
    (271, [270]); (273, [272]); (275, [274]); (277, [276]); (279, [278]);
    (281, [280]); (283, [282]); (285, [284]); (287, [286]); (289, [288]);
    (291, [290]); (293, [292]); (295, [294]); (297, [296]); (299, [298]);
    (301, [300]); (303, [302]); (305, [73]); (307, [306]); (309, [308]);
    (311, [310]); (314, [313]); (316, [315]); (318, [317]); (320, [319]);
    (322, [321]); (324, [323]); (326, [325]); (328, [327]); (329, [700; 78]);
    (331, [330]); (333, [332]); (335, [334]); (337, [336]); (339, [338]);
    (341, [340]); (343, [342]); (345, [344]); (347, [346]); (349, [348]);
    (351, [350]); (353, [352]); (355, [354]); (357, [356]); (359, [358]);
    (361, [360]); (363, [362]); (365, [364]); (367, [366]); (369, [368]);
    (371, [370]); (373, [372]); (375, [374]); (378, [377]); (380, [379]);
    (382, [381]); (383, [83]); (384, [579]); (387, [386]); (389, [388]);
    (392, [391]); (396, [395]); (402, [401]); (405, [502]); (409, [408]);
    (410, [573]); (414, [544]); (417, [416]); (419, [418]); (421, [420]);
    (424, [423]); (429, [428]); (432, [431]); (436, [435]); (438, [437]);
    (441, [440]); (445, [444]); (447, [503]); (453, [452]); (454, [452]);
    (456, [455]); (457, [455]); (459, [458]); (460, [458]); (462, [461]);
    (464, [463]); (466, [465]); (468, [467]); (470, [469]); (472, [471]);
    (474, [473]); (476, [475]); (477, [398]); (479, [478]); (481, [480]);
    (483, [482]); (485, [484]); (487, [486]); (489, [488]); (491, [490]);
    (493, [492]); (495, [494]); (496, [74; 780]); (498, [497]); (499, [497]);
    (501, [500]); (505, [504]); (507, [506]); (509, [508]); (511, [510]);
    (513, [512]); (515, [514]); (517, [516]); (519, [518]); (521, [520]);
    (523, [522]); (525, [524]); (527, [526]); (529, [528]); (531, [530]);
    (533, [532]); (535, [534]); (537, [536]); (539, [538]); (541, [540]);
    (543, [542]); (547, [546]); (549, [548]); (551, [550]); (553, [552]);
    (555, [554]); (557, [556]); (559, [558]); (561, [560]); (563, [562]);
    (572, [571]); (575, [11390]); (576, [11391]); (578, [577]); (583, [582]);
    (585, [584]); (587, [586]); (589, [588]); (591, [590]); (592, [11375]);
    (593, [11373]); (594, [11376]); (595, [385]); (596, [390]); (598, [393]);
    (599, [394]); (601, [399]); (603, [400]); (604, [42923]); (608, [403]);
    (609, [42924]); (611, [404]); (613, [42893]); (614, [42922]);
    (616, [407]); (617, [406]); (618, [42926]); (619, [11362]);
    (620, [42925]); (623, [412]); (625, [11374]); (626, [413]); (629, [415]);
    (637, [11364]); (640, [422]); (642, [42949]); (643, [425]);
    (647, [42929]); (648, [430]); (649, [580]); (650, [433]); (651, [434]);
    (652, [581]); (658, [439]); (669, [42930]); (670, [42928]); (837, [921]);
    (881, [880]); (883, [882]); (887, [886]); (891, [1021]); (892, [1022]);
    (893, [1023]); (912, [921; 776; 769]); (940, [902]); (941, [904]);
    (942, [905]); (943, [906]); (944, [933; 776; 769]); (945, [913]);
    (946, [914]); (947, [915]); (948, [916]); (949, [917]); (950, [918]);
    (951, [919]); (952, [920]); (953, [921]); (954, [922]); (955, [923]);
    (956, [924]); (957, [925]); (958, [926]); (959, [927]); (960, [928]) ]
  ++
  [
    (961, [929]); (962, [931]); (963, [931]); (964, [932]); (965, [933]);
    (966, [934]); (967, [935]); (968, [936]); (969, [937]); (970, [938]);
    (971, [939]); (972, [908]); (973, [910]); (974, [911]); (976, [914]);
    (977, [920]); (981, [934]); (982, [928]); (983, [975]); (985, [984]);
    (987, [986]); (989, [988]); (991, [990]); (993, [992]); (995, [994]);
    (997, [996]); (999, [998]); (1001, [1000]); (1003, [1002]);
    (1005, [1004]); (1007, [1006]); (1008, [922]); (1009, [929]);
    (1010, [1017]); (1011, [895]); (1013, [917]); (1016, [1015]);
    (1019, [1018]); (1072, [1040]); (1073, [1041]); (1074, [1042]);
    (1075, [1043]); (1076, [1044]); (1077, [1045]); (1078, [1046]);
    (1079, [1047]); (1080, [1048]); (1081, [1049]); (1082, [1050]);
    (1083, [1051]); (1084, [1052]); (1085, [1053]); (1086, [1054]);
    (1087, [1055]); (1088, [1056]); (1089, [1057]); (1090, [1058]);
    (1091, [1059]); (1092, [1060]); (1093, [1061]); (1094, [1062]);
    (1095, [1063]); (1096, [1064]); (1097, [1065]); (1098, [1066]);
    (1099, [1067]); (1100, [1068]); (1101, [1069]); (1102, [1070]);
    (1103, [1071]); (1104, [1024]); (1105, [1025]); (1106, [1026]);
    (1107, [1027]); (1108, [1028]); (1109, [1029]); (1110, [1030]);
    (1111, [1031]); (1112, [1032]); (1113, [1033]); (1114, [1034]);
    (1115, [1035]); (1116, [1036]); (1117, [1037]); (1118, [1038]);
    (1119, [1039]); (1121, [1120]); (1123, [1122]); (1125, [1124]);
    (1127, [1126]); (1129, [1128]); (1131, [1130]); (1133, [1132]);
    (1135, [1134]); (1137, [1136]); (1139, [1138]); (1141, [1140]);
    (1143, [1142]); (1145, [1144]); (1147, [1146]); (1149, [1148]);
    (1151, [1150]); (1153, [1152]); (1163, [1162]); (1165, [1164]);
    (1167, [1166]); (1169, [1168]); (1171, [1170]); (1173, [1172]);
    (1175, [1174]); (1177, [1176]); (1179, [1178]); (1181, [1180]);
    (1183, [1182]); (1185, [1184]); (1187, [1186]); (1189, [1188]);
    (1191, [1190]); (1193, [1192]); (1195, [1194]); (1197, [1196]);
    (1199, [1198]); (1201, [1200]); (1203, [1202]); (1205, [1204]);
    (1207, [1206]); (1209, [1208]); (1211, [1210]); (1213, [1212]);
    (1215, [1214]); (1218, [1217]); (1220, [1219]); (1222, [1221]);
    (1224, [1223]); (1226, [1225]); (1228, [1227]); (1230, [1229]);
    (1231, [1216]); (1233, [1232]); (1235, [1234]); (1237, [1236]);
    (1239, [1238]); (1241, [1240]); (1243, [1242]); (1245, [1244]);
    (1247, [1246]); (1249, [1248]); (1251, [1250]); (1253, [1252]);
    (1255, [1254]); (1257, [1256]); (1259, [1258]); (1261, [1260]);
    (1263, [1262]); (1265, [1264]); (1267, [1266]); (1269, [1268]);
    (1271, [1270]); (1273, [1272]); (1275, [1274]); (1277, [1276]);
    (1279, [1278]); (1281, [1280]); (1283, [1282]); (1285, [1284]);
    (1287, [1286]); (1289, [1288]); (1291, [1290]); (1293, [1292]);
    (1295, [1294]); (1297, [1296]); (1299, [1298]); (1301, [1300]);
    (1303, [1302]); (1305, [1304]); (1307, [1306]); (1309, [1308]);
    (1311, [1310]); (1313, [1312]); (1315, [1314]); (1317, [1316]);
    (1319, [1318]); (1321, [1320]); (1323, [1322]); (1325, [1324]);
    (1327, [1326]); (1377, [1329]); (1378, [1330]); (1379, [1331]);
    (1380, [1332]); (1381, [1333]); (1382, [1334]); (1383, [1335]);
    (1384, [1336]); (1385, [1337]); (1386, [1338]); (1387, [1339]);
    (1388, [1340]); (1389, [1341]); (1390, [1342]); (1391, [1343]);
    (1392, [1344]); (1393, [1345]); (1394, [1346]); (1395, [1347]);
    (1396, [1348]); (1397, [1349]); (1398, [1350]); (1399, [1351]);
    (1400, [1352]); (1401, [1353]); (1402, [1354]); (1403, [1355]);
    (1404, [1356]); (1405, [1357]); (1406, [1358]); (1407, [1359]);
    (1408, [1360]); (1409, [1361]); (1410, [1362]); (1411, [1363]);
    (1412, [1364]); (1413, [1365]); (1414, [1366]); (1415, [1333; 1362]);
    (4304, [7312]); (4305, [7313]); (4306, [7314]); (4307, [7315]);
    (4308, [7316]); (4309, [7317]); (4310, [7318]); (4311, [7319]);
    (4312, [7320]); (4313, [7321]); (4314, [7322]); (4315, [7323]);
    (4316, [7324]); (4317, [7325]); (4318, [7326]); (4319, [7327]);
    (4320, [7328]); (4321, [7329]); (4322, [7330]); (4323, [7331]);
    (4324, [7332]); (4325, [7333]); (4326, [7334]); (4327, [7335]);
    (4328, [7336]) ]
  ++
  [
    (4329, [7337]); (4330, [7338]); (4331, [7339]); (4332, [7340]);
    (4333, [7341]); (4334, [7342]); (4335, [7343]); (4336, [7344]);
    (4337, [7345]); (4338, [7346]); (4339, [7347]); (4340, [7348]);
    (4341, [7349]); (4342, [7350]); (4343, [7351]); (4344, [7352]);
    (4345, [7353]); (4346, [7354]); (4349, [7357]); (4350, [7358]);
    (4351, [7359]); (5112, [5104]); (5113, [5105]); (5114, [5106]);
    (5115, [5107]); (5116, [5108]); (5117, [5109]); (7296, [1042]);
    (7297, [1044]); (7298, [1054]); (7299, [1057]); (7300, [1058]);
    (7301, [1058]); (7302, [1066]); (7303, [1122]); (7304, [42570]);
    (7545, [42877]); (7549, [11363]); (7566, [42950]); (7681, [7680]);
    (7683, [7682]); (7685, [7684]); (7687, [7686]); (7689, [7688]);
    (7691, [7690]); (7693, [7692]); (7695, [7694]); (7697, [7696]);
    (7699, [7698]); (7701, [7700]); (7703, [7702]); (7705, [7704]);
    (7707, [7706]); (7709, [7708]); (7711, [7710]); (7713, [7712]);
    (7715, [7714]); (7717, [7716]); (7719, [7718]); (7721, [7720]);
    (7723, [7722]); (7725, [7724]); (7727, [7726]); (7729, [7728]);
    (7731, [7730]); (7733, [7732]); (7735, [7734]); (7737, [7736]);
    (7739, [7738]); (7741, [7740]); (7743, [7742]); (7745, [7744]);
    (7747, [7746]); (7749, [7748]); (7751, [7750]); (7753, [7752]);
    (7755, [7754]); (7757, [7756]); (7759, [7758]); (7761, [7760]);
    (7763, [7762]); (7765, [7764]); (7767, [7766]); (7769, [7768]);
    (7771, [7770]); (7773, [7772]); (7775, [7774]); (7777, [7776]);
    (7779, [7778]); (7781, [7780]); (7783, [7782]); (7785, [7784]);
    (7787, [7786]); (7789, [7788]); (7791, [7790]); (7793, [7792]);
    (7795, [7794]); (7797, [7796]); (7799, [7798]); (7801, [7800]);
    (7803, [7802]); (7805, [7804]); (7807, [7806]); (7809, [7808]);
    (7811, [7810]); (7813, [7812]); (7815, [7814]); (7817, [7816]);
    (7819, [7818]); (7821, [7820]); (7823, [7822]); (7825, [7824]);
    (7827, [7826]); (7829, [7828]); (7830, [72; 817]); (7831, [84; 776]);
    (7832, [87; 778]); (7833, [89; 778]); (7834, [65; 702]); (7835, [7776]);
    (7841, [7840]); (7843, [7842]); (7845, [7844]); (7847, [7846]);
    (7849, [7848]); (7851, [7850]); (7853, [7852]); (7855, [7854]);
    (7857, [7856]); (7859, [7858]); (7861, [7860]); (7863, [7862]);
    (7865, [7864]); (7867, [7866]); (7869, [7868]); (7871, [7870]);
    (7873, [7872]); (7875, [7874]); (7877, [7876]); (7879, [7878]);
    (7881, [7880]); (7883, [7882]); (7885, [7884]); (7887, [7886]);
    (7889, [7888]); (7891, [7890]); (7893, [7892]); (7895, [7894]);
    (7897, [7896]); (7899, [7898]); (7901, [7900]); (7903, [7902]);
    (7905, [7904]); (7907, [7906]); (7909, [7908]); (7911, [7910]);
    (7913, [7912]); (7915, [7914]); (7917, [7916]); (7919, [7918]);
    (7921, [7920]); (7923, [7922]); (7925, [7924]); (7927, [7926]);
    (7929, [7928]); (7931, [7930]); (7933, [7932]); (7935, [7934]);
    (7936, [7944]); (7937, [7945]); (7938, [7946]); (7939, [7947]);
    (7940, [7948]); (7941, [7949]); (7942, [7950]); (7943, [7951]);
    (7952, [7960]); (7953, [7961]); (7954, [7962]); (7955, [7963]);
    (7956, [7964]); (7957, [7965]); (7968, [7976]); (7969, [7977]);
    (7970, [7978]); (7971, [7979]); (7972, [7980]); (7973, [7981]);
    (7974, [7982]); (7975, [7983]); (7984, [7992]); (7985, [7993]);
    (7986, [7994]); (7987, [7995]); (7988, [7996]); (7989, [7997]);
    (7990, [7998]); (7991, [7999]); (8000, [8008]); (8001, [8009]);
    (8002, [8010]); (8003, [8011]); (8004, [8012]); (8005, [8013]);
    (8016, [933; 787]); (8017, [8025]); (8018, [933; 787; 768]);
    (8019, [8027]); (8020, [933; 787; 769]); (8021, [8029]);
    (8022, [933; 787; 834]); (8023, [8031]); (8032, [8040]); (8033, [8041]);
    (8034, [8042]); (8035, [8043]); (8036, [8044]); (8037, [8045]);
    (8038, [8046]); (8039, [8047]); (8048, [8122]); (8049, [8123]);
    (8050, [8136]); (8051, [8137]); (8052, [8138]); (8053, [8139]);
    (8054, [8154]); (8055, [8155]); (8056, [8184]); (8057, [8185]);
    (8058, [8170]); (8059, [8171]); (8060, [8186]); (8061, [8187]);
    (8064, [7944; 921]); (8065, [7945; 921]); (8066, [7946; 921]);
    (8067, [7947; 921]); (8068, [7948; 921]); (8069, [7949; 921]);
    (8070, [7950; 921]); (8071, [7951; 921]); (8072, [7944; 921]);
    (8073, [7945; 921]); (8074, [7946; 921]); (8075, [7947; 921]);
    (8076, [7948; 921]); (8077, [7949; 921]); (8078, [7950; 921]);
    (8079, [7951; 921]) ]
  ++
  [
    (8080, [7976; 921]); (8081, [7977; 921]); (8082, [7978; 921]);
    (8083, [7979; 921]); (8084, [7980; 921]); (8085, [7981; 921]);
    (8086, [7982; 921]); (8087, [7983; 921]); (8088, [7976; 921]);
    (8089, [7977; 921]); (8090, [7978; 921]); (8091, [7979; 921]);
    (8092, [7980; 921]); (8093, [7981; 921]); (8094, [7982; 921]);
    (8095, [7983; 921]); (8096, [8040; 921]); (8097, [8041; 921]);
    (8098, [8042; 921]); (8099, [8043; 921]); (8100, [8044; 921]);
    (8101, [8045; 921]); (8102, [8046; 921]); (8103, [8047; 921]);
    (8104, [8040; 921]); (8105, [8041; 921]); (8106, [8042; 921]);
    (8107, [8043; 921]); (8108, [8044; 921]); (8109, [8045; 921]);
    (8110, [8046; 921]); (8111, [8047; 921]); (8112, [8120]); (8113, [8121]);
    (8114, [8122; 921]); (8115, [913; 921]); (8116, [902; 921]);
    (8118, [913; 834]); (8119, [913; 834; 921]); (8124, [913; 921]);
    (8126, [921]); (8130, [8138; 921]); (8131, [919; 921]);
    (8132, [905; 921]); (8134, [919; 834]); (8135, [919; 834; 921]);
    (8140, [919; 921]); (8144, [8152]); (8145, [8153]);
    (8146, [921; 776; 768]); (8147, [921; 776; 769]); (8150, [921; 834]);
    (8151, [921; 776; 834]); (8160, [8168]); (8161, [8169]);
    (8162, [933; 776; 768]); (8163, [933; 776; 769]); (8164, [929; 787]);
    (8165, [8172]); (8166, [933; 834]); (8167, [933; 776; 834]);
    (8178, [8186; 921]); (8179, [937; 921]); (8180, [911; 921]);
    (8182, [937; 834]); (8183, [937; 834; 921]); (8188, [937; 921]);
    (8526, [8498]); (8560, [8544]); (8561, [8545]); (8562, [8546]);
    (8563, [8547]); (8564, [8548]); (8565, [8549]); (8566, [8550]);
    (8567, [8551]); (8568, [8552]); (8569, [8553]); (8570, [8554]);
    (8571, [8555]); (8572, [8556]); (8573, [8557]); (8574, [8558]);
    (8575, [8559]); (8580, [8579]); (9424, [9398]); (9425, [9399]);
    (9426, [9400]); (9427, [9401]); (9428, [9402]); (9429, [9403]);
    (9430, [9404]); (9431, [9405]); (9432, [9406]); (9433, [9407]);
    (9434, [9408]); (9435, [9409]); (9436, [9410]); (9437, [9411]);
    (9438, [9412]); (9439, [9413]); (9440, [9414]); (9441, [9415]);
    (9442, [9416]); (9443, [9417]); (9444, [9418]); (9445, [9419]);
    (9446, [9420]); (9447, [9421]); (9448, [9422]); (9449, [9423]);
    (11312, [11264]); (11313, [11265]); (11314, [11266]); (11315, [11267]);
    (11316, [11268]); (11317, [11269]); (11318, [11270]); (11319, [11271]);
    (11320, [11272]); (11321, [11273]); (11322, [11274]); (11323, [11275]);
    (11324, [11276]); (11325, [11277]); (11326, [11278]); (11327, [11279]);
    (11328, [11280]); (11329, [11281]); (11330, [11282]); (11331, [11283]);
    (11332, [11284]); (11333, [11285]); (11334, [11286]); (11335, [11287]);
    (11336, [11288]); (11337, [11289]); (11338, [11290]); (11339, [11291]);
    (11340, [11292]); (11341, [11293]); (11342, [11294]); (11343, [11295]);
    (11344, [11296]); (11345, [11297]); (11346, [11298]); (11347, [11299]);
    (11348, [11300]); (11349, [11301]); (11350, [11302]); (11351, [11303]);
    (11352, [11304]); (11353, [11305]); (11354, [11306]); (11355, [11307]);
    (11356, [11308]); (11357, [11309]); (11358, [11310]); (11359, [11311]);
    (11361, [11360]); (11365, [570]); (11366, [574]); (11368, [11367]);
    (11370, [11369]); (11372, [11371]); (11379, [11378]); (11382, [11381]);
    (11393, [11392]); (11395, [11394]); (11397, [11396]); (11399, [11398]);
    (11401, [11400]); (11403, [11402]); (11405, [11404]); (11407, [11406]);
    (11409, [11408]); (11411, [11410]); (11413, [11412]); (11415, [11414]);
    (11417, [11416]); (11419, [11418]); (11421, [11420]); (11423, [11422]);
    (11425, [11424]); (11427, [11426]); (11429, [11428]); (11431, [11430]);
    (11433, [11432]); (11435, [11434]); (11437, [11436]); (11439, [11438]);
    (11441, [11440]); (11443, [11442]); (11445, [11444]); (11447, [11446]);
    (11449, [11448]); (11451, [11450]); (11453, [11452]); (11455, [11454]);
    (11457, [11456]); (11459, [11458]); (11461, [11460]); (11463, [11462]);
    (11465, [11464]); (11467, [11466]); (11469, [11468]); (11471, [11470]);
    (11473, [11472]); (11475, [11474]); (11477, [11476]); (11479, [11478]);
    (11481, [11480]); (11483, [11482]); (11485, [11484]); (11487, [11486]);
    (11489, [11488]); (11491, [11490]); (11500, [11499]); (11502, [11501]);
    (11507, [11506]); (11520, [4256]); (11521, [4257]); (11522, [4258]);
    (11523, [4259]); (11524, [4260]); (11525, [4261]); (11526, [4262]);
    (11527, [4263]); (11528, [4264]); (11529, [4265]); (11530, [4266]);
    (11531, [4267]); (11532, [4268]); (11533, [4269]); (11534, [4270]);
    (11535, [4271]); (11536, [4272]); (11537, [4273]); (11538, [4274]);
    (11539, [4275]); (11540, [4276]); (11541, [4277]); (11542, [4278]);
    (11543, [4279]); (11544, [4280]); (11545, [4281]); (11546, [4282]);
    (11547, [4283]); (11548, [4284]); (11549, [4285]) ]
  ++
  [
    (11550, [4286]); (11551, [4287]); (11552, [4288]); (11553, [4289]);
    (11554, [4290]); (11555, [4291]); (11556, [4292]); (11557, [4293]);
    (11559, [4295]); (11565, [4301]); (42561, [42560]); (42563, [42562]);
    (42565, [42564]); (42567, [42566]); (42569, [42568]); (42571, [42570]);
    (42573, [42572]); (42575, [42574]); (42577, [42576]); (42579, [42578]);
    (42581, [42580]); (42583, [42582]); (42585, [42584]); (42587, [42586]);
    (42589, [42588]); (42591, [42590]); (42593, [42592]); (42595, [42594]);
    (42597, [42596]); (42599, [42598]); (42601, [42600]); (42603, [42602]);
    (42605, [42604]); (42625, [42624]); (42627, [42626]); (42629, [42628]);
    (42631, [42630]); (42633, [42632]); (42635, [42634]); (42637, [42636]);
    (42639, [42638]); (42641, [42640]); (42643, [42642]); (42645, [42644]);
    (42647, [42646]); (42649, [42648]); (42651, [42650]); (42787, [42786]);
    (42789, [42788]); (42791, [42790]); (42793, [42792]); (42795, [42794]);
    (42797, [42796]); (42799, [42798]); (42803, [42802]); (42805, [42804]);
    (42807, [42806]); (42809, [42808]); (42811, [42810]); (42813, [42812]);
    (42815, [42814]); (42817, [42816]); (42819, [42818]); (42821, [42820]);
    (42823, [42822]); (42825, [42824]); (42827, [42826]); (42829, [42828]);
    (42831, [42830]); (42833, [42832]); (42835, [42834]); (42837, [42836]);
    (42839, [42838]); (42841, [42840]); (42843, [42842]); (42845, [42844]);
    (42847, [42846]); (42849, [42848]); (42851, [42850]); (42853, [42852]);
    (42855, [42854]); (42857, [42856]); (42859, [42858]); (42861, [42860]);
    (42863, [42862]); (42874, [42873]); (42876, [42875]); (42879, [42878]);
    (42881, [42880]); (42883, [42882]); (42885, [42884]); (42887, [42886]);
    (42892, [42891]); (42897, [42896]); (42899, [42898]); (42900, [42948]);
    (42903, [42902]); (42905, [42904]); (42907, [42906]); (42909, [42908]);
    (42911, [42910]); (42913, [42912]); (42915, [42914]); (42917, [42916]);
    (42919, [42918]); (42921, [42920]); (42933, [42932]); (42935, [42934]);
    (42937, [42936]); (42939, [42938]); (42941, [42940]); (42943, [42942]);
    (42945, [42944]); (42947, [42946]); (42952, [42951]); (42954, [42953]);
    (42961, [42960]); (42967, [42966]); (42969, [42968]); (42998, [42997]);
    (43859, [42931]); (43888, [5024]); (43889, [5025]); (43890, [5026]);
    (43891, [5027]); (43892, [5028]); (43893, [5029]); (43894, [5030]);
    (43895, [5031]); (43896, [5032]); (43897, [5033]); (43898, [5034]);
    (43899, [5035]); (43900, [5036]); (43901, [5037]); (43902, [5038]);
    (43903, [5039]); (43904, [5040]); (43905, [5041]); (43906, [5042]);
    (43907, [5043]); (43908, [5044]); (43909, [5045]); (43910, [5046]);
    (43911, [5047]); (43912, [5048]); (43913, [5049]); (43914, [5050]);
    (43915, [5051]); (43916, [5052]); (43917, [5053]); (43918, [5054]);
    (43919, [5055]); (43920, [5056]); (43921, [5057]); (43922, [5058]);
    (43923, [5059]); (43924, [5060]); (43925, [5061]); (43926, [5062]);
    (43927, [5063]); (43928, [5064]); (43929, [5065]); (43930, [5066]);
    (43931, [5067]); (43932, [5068]); (43933, [5069]); (43934, [5070]);
    (43935, [5071]); (43936, [5072]); (43937, [5073]); (43938, [5074]);
    (43939, [5075]); (43940, [5076]); (43941, [5077]); (43942, [5078]);
    (43943, [5079]); (43944, [5080]); (43945, [5081]); (43946, [5082]);
    (43947, [5083]); (43948, [5084]); (43949, [5085]); (43950, [5086]);
    (43951, [5087]); (43952, [5088]); (43953, [5089]); (43954, [5090]);
    (43955, [5091]); (43956, [5092]); (43957, [5093]); (43958, [5094]);
    (43959, [5095]); (43960, [5096]); (43961, [5097]); (43962, [5098]);
    (43963, [5099]); (43964, [5100]); (43965, [5101]); (43966, [5102]);
    (43967, [5103]); (64256, [70; 70]); (64257, [70; 73]); (64258, [70; 76]);
    (64259, [70; 70; 73]); (64260, [70; 70; 76]); (64261, [83; 84]);
    (64262, [83; 84]); (64275, [1348; 1350]); (64276, [1348; 1333]);
    (64277, [1348; 1339]); (64278, [1358; 1350]); (64279, [1348; 1341]);
    (65345, [65313]); (65346, [65314]); (65347, [65315]); (65348, [65316]);
    (65349, [65317]); (65350, [65318]); (65351, [65319]); (65352, [65320]);
    (65353, [65321]); (65354, [65322]); (65355, [65323]); (65356, [65324]);
    (65357, [65325]); (65358, [65326]); (65359, [65327]); (65360, [65328]);
    (65361, [65329]); (65362, [65330]); (65363, [65331]); (65364, [65332]);
    (65365, [65333]); (65366, [65334]); (65367, [65335]); (65368, [65336]);
    (65369, [65337]); (65370, [65338]); (66600, [66560]); (66601, [66561]);
    (66602, [66562]); (66603, [66563]); (66604, [66564]); (66605, [66565]);
    (66606, [66566]); (66607, [66567]); (66608, [66568]); (66609, [66569]);
    (66610, [66570]) ]
  ++
  [
    (66611, [66571]); (66612, [66572]); (66613, [66573]); (66614, [66574]);
    (66615, [66575]); (66616, [66576]); (66617, [66577]); (66618, [66578]);
    (66619, [66579]); (66620, [66580]); (66621, [66581]); (66622, [66582]);
    (66623, [66583]); (66624, [66584]); (66625, [66585]); (66626, [66586]);
    (66627, [66587]); (66628, [66588]); (66629, [66589]); (66630, [66590]);
    (66631, [66591]); (66632, [66592]); (66633, [66593]); (66634, [66594]);
    (66635, [66595]); (66636, [66596]); (66637, [66597]); (66638, [66598]);
    (66639, [66599]); (66776, [66736]); (66777, [66737]); (66778, [66738]);
    (66779, [66739]); (66780, [66740]); (66781, [66741]); (66782, [66742]);
    (66783, [66743]); (66784, [66744]); (66785, [66745]); (66786, [66746]);
    (66787, [66747]); (66788, [66748]); (66789, [66749]); (66790, [66750]);
    (66791, [66751]); (66792, [66752]); (66793, [66753]); (66794, [66754]);
    (66795, [66755]); (66796, [66756]); (66797, [66757]); (66798, [66758]);
    (66799, [66759]); (66800, [66760]); (66801, [66761]); (66802, [66762]);
    (66803, [66763]); (66804, [66764]); (66805, [66765]); (66806, [66766]);
    (66807, [66767]); (66808, [66768]); (66809, [66769]); (66810, [66770]);
    (66811, [66771]); (66967, [66928]); (66968, [66929]); (66969, [66930]);
    (66970, [66931]); (66971, [66932]); (66972, [66933]); (66973, [66934]);
    (66974, [66935]); (66975, [66936]); (66976, [66937]); (66977, [66938]);
    (66979, [66940]); (66980, [66941]); (66981, [66942]); (66982, [66943]);
    (66983, [66944]); (66984, [66945]); (66985, [66946]); (66986, [66947]);
    (66987, [66948]); (66988, [66949]); (66989, [66950]); (66990, [66951]);
    (66991, [66952]); (66992, [66953]); (66993, [66954]); (66995, [66956]);
    (66996, [66957]); (66997, [66958]); (66998, [66959]); (66999, [66960]);
    (67000, [66961]); (67001, [66962]); (67003, [66964]); (67004, [66965]);
    (68800, [68736]); (68801, [68737]); (68802, [68738]); (68803, [68739]);
    (68804, [68740]); (68805, [68741]); (68806, [68742]); (68807, [68743]);
    (68808, [68744]); (68809, [68745]); (68810, [68746]); (68811, [68747]);
    (68812, [68748]); (68813, [68749]); (68814, [68750]); (68815, [68751]);
    (68816, [68752]); (68817, [68753]); (68818, [68754]); (68819, [68755]);
    (68820, [68756]); (68821, [68757]); (68822, [68758]); (68823, [68759]);
    (68824, [68760]); (68825, [68761]); (68826, [68762]); (68827, [68763]);
    (68828, [68764]); (68829, [68765]); (68830, [68766]); (68831, [68767]);
    (68832, [68768]); (68833, [68769]); (68834, [68770]); (68835, [68771]);
    (68836, [68772]); (68837, [68773]); (68838, [68774]); (68839, [68775]);
    (68840, [68776]); (68841, [68777]); (68842, [68778]); (68843, [68779]);
    (68844, [68780]); (68845, [68781]); (68846, [68782]); (68847, [68783]);
    (68848, [68784]); (68849, [68785]); (68850, [68786]); (71872, [71840]);
    (71873, [71841]); (71874, [71842]); (71875, [71843]); (71876, [71844]);
    (71877, [71845]); (71878, [71846]); (71879, [71847]); (71880, [71848]);
    (71881, [71849]); (71882, [71850]); (71883, [71851]); (71884, [71852]);
    (71885, [71853]); (71886, [71854]); (71887, [71855]); (71888, [71856]);
    (71889, [71857]); (71890, [71858]); (71891, [71859]); (71892, [71860]);
    (71893, [71861]); (71894, [71862]); (71895, [71863]); (71896, [71864]);
    (71897, [71865]); (71898, [71866]); (71899, [71867]); (71900, [71868]);
    (71901, [71869]); (71902, [71870]); (71903, [71871]); (93792, [93760]);
    (93793, [93761]); (93794, [93762]); (93795, [93763]); (93796, [93764]);
    (93797, [93765]); (93798, [93766]); (93799, [93767]); (93800, [93768]);
    (93801, [93769]); (93802, [93770]); (93803, [93771]); (93804, [93772]);
    (93805, [93773]); (93806, [93774]); (93807, [93775]); (93808, [93776]);
    (93809, [93777]); (93810, [93778]); (93811, [93779]); (93812, [93780]);
    (93813, [93781]); (93814, [93782]); (93815, [93783]); (93816, [93784]);
    (93817, [93785]); (93818, [93786]); (93819, [93787]); (93820, [93788]);
    (93821, [93789]); (93822, [93790]); (93823, [93791]); (125218, [125184]);
    (125219, [125185]); (125220, [125186]); (125221, [125187]);
    (125222, [125188]); (125223, [125189]); (125224, [125190]);
    (125225, [125191]); (125226, [125192]); (125227, [125193]);
    (125228, [125194]); (125229, [125195]); (125230, [125196]);
    (125231, [125197]); (125232, [125198]); (125233, [125199]);
    (125234, [125200]); (125235, [125201]); (125236, [125202]);
    (125237, [125203]); (125238, [125204]); (125239, [125205]);
    (125240, [125206]); (125241, [125207]); (125242, [125208]);
    (125243, [125209]); (125244, [125210]); (125245, [125211]);
    (125246, [125212]); (125247, [125213]); (125248, [125214]);
    (125249, [125215]); (125250, [125216]); (125251, [125217]) ].

(** [str.upper] on one character (full case mapping: [ß] gives [SS]). *)
Definition upper_cp (c : N) : list N :=
  if c <? 0xB5 then (if (97 <=? c) && (c <=? 122) then [c - 32] else [c])
  else
    match lookup_cp c upper_table with
    | Some u => u
    | None => [c]
    end.

(** The ranges of the characters whose [unicodedata.combining] is not
    zero. *)
Definition combining_ranges : list (N * N) :=
  [
    (768, 846); (848, 879); (1155, 1159); (1425, 1469); (1471, 1471);
    (1473, 1474); (1476, 1477); (1479, 1479); (1552, 1562); (1611, 1631);
    (1648, 1648); (1750, 1756); (1759, 1764); (1767, 1768); (1770, 1773);
    (1809, 1809); (1840, 1866); (2027, 2035); (2045, 2045); (2070, 2073);
    (2075, 2083); (2085, 2087); (2089, 2093); (2137, 2139); (2200, 2207);
    (2250, 2273); (2275, 2303); (2364, 2364); (2381, 2381); (2385, 2388);
    (2492, 2492); (2509, 2509); (2558, 2558); (2620, 2620); (2637, 2637);
    (2748, 2748); (2765, 2765); (2876, 2876); (2893, 2893); (3021, 3021);
    (3132, 3132); (3149, 3149); (3157, 3158); (3260, 3260); (3277, 3277);
    (3387, 3388); (3405, 3405); (3530, 3530); (3640, 3642); (3656, 3659);
    (3768, 3770); (3784, 3787); (3864, 3865); (3893, 3893); (3895, 3895);
    (3897, 3897); (3953, 3954); (3956, 3956); (3962, 3965); (3968, 3968);
    (3970, 3972); (3974, 3975); (4038, 4038); (4151, 4151); (4153, 4154);
    (4237, 4237); (4957, 4959); (5908, 5909); (5940, 5940); (6098, 6098);
    (6109, 6109); (6313, 6313); (6457, 6459); (6679, 6680); (6752, 6752);
    (6773, 6780); (6783, 6783); (6832, 6845); (6847, 6862); (6964, 6964);
    (6980, 6980); (7019, 7027); (7082, 7083); (7142, 7142); (7154, 7155);
    (7223, 7223); (7376, 7378); (7380, 7392); (7394, 7400); (7405, 7405);
    (7412, 7412); (7416, 7417); (7616, 7679); (8400, 8412); (8417, 8417);
    (8421, 8432); (11503, 11505); (11647, 11647); (11744, 11775);
    (12330, 12335); (12441, 12442); (42607, 42607); (42612, 42621);
    (42654, 42655); (42736, 42737); (43014, 43014); (43052, 43052);
    (43204, 43204); (43232, 43249); (43307, 43309); (43347, 43347);
    (43443, 43443); (43456, 43456); (43696, 43696); (43698, 43700);
    (43703, 43704); (43710, 43711); (43713, 43713); (43766, 43766);
    (44013, 44013); (64286, 64286); (65056, 65071); (66045, 66045);
    (66272, 66272); (66422, 66426); (68109, 68109); (68111, 68111);
    (68152, 68154); (68159, 68159); (68325, 68326); (68900, 68903);
    (69291, 69292); (69446, 69456); (69506, 69509); (69702, 69702);
    (69744, 69744); (69759, 69759); (69817, 69818); (69888, 69890);
    (69939, 69940); (70003, 70003); (70080, 70080); (70090, 70090);
    (70197, 70198); (70377, 70378); (70459, 70460); (70477, 70477);
    (70502, 70508); (70512, 70516); (70722, 70722); (70726, 70726);
    (70750, 70750); (70850, 70851); (71103, 71104); (71231, 71231);
    (71350, 71351); (71467, 71467); (71737, 71738); (71997, 71998);
    (72003, 72003); (72160, 72160); (72244, 72244); (72263, 72263);
    (72345, 72345); (72767, 72767); (73026, 73026); (73028, 73029);
    (73111, 73111); (92912, 92916); (92976, 92982); (94192, 94193);
    (113822, 113822); (119141, 119145); (119149, 119154); (119163, 119170);
    (119173, 119179); (119210, 119213); (119362, 119364); (122880, 122886);
    (122888, 122904); (122907, 122913); (122915, 122916); (122918, 122922);
    (123184, 123190); (123566, 123566); (123628, 123631); (125136, 125142);
    (125252, 125258) ].

(** [unicodedata.combining(c)] is not zero. *)
Definition is_combining (c : N) : bool :=
  existsb (fun r => (fst r <=? c) && (c <=? snd r)) combining_ranges.

(** The characters, Hangul syllables apart, whose canonical decomposition
    is not themselves, each with the characters of its full decomposition
    that are not combining. *)
Definition decomposition_table : list (N * list N) :=
  [
    (192, [65]); (193, [65]); (194, [65]); (195, [65]); (196, [65]);
    (197, [65]); (199, [67]); (200, [69]); (201, [69]); (202, [69]);
    (203, [69]); (204, [73]); (205, [73]); (206, [73]); (207, [73]);
    (209, [78]); (210, [79]); (211, [79]); (212, [79]); (213, [79]);
    (214, [79]); (217, [85]); (218, [85]); (219, [85]); (220, [85]);
    (221, [89]); (224, [97]); (225, [97]); (226, [97]); (227, [97]);
    (228, [97]); (229, [97]); (231, [99]); (232, [101]); (233, [101]);
    (234, [101]); (235, [101]); (236, [105]); (237, [105]); (238, [105]);
    (239, [105]); (241, [110]); (242, [111]); (243, [111]); (244, [111]);
    (245, [111]); (246, [111]); (249, [117]); (250, [117]); (251, [117]);
    (252, [117]); (253, [121]); (255, [121]); (256, [65]); (257, [97]);
    (258, [65]); (259, [97]); (260, [65]); (261, [97]); (262, [67]);
    (263, [99]); (264, [67]); (265, [99]); (266, [67]); (267, [99]);
    (268, [67]); (269, [99]); (270, [68]); (271, [100]); (274, [69]);
    (275, [101]); (276, [69]); (277, [101]); (278, [69]); (279, [101]);
    (280, [69]); (281, [101]); (282, [69]); (283, [101]); (284, [71]);
    (285, [103]); (286, [71]); (287, [103]); (288, [71]); (289, [103]);
    (290, [71]); (291, [103]); (292, [72]); (293, [104]); (296, [73]);
    (297, [105]); (298, [73]); (299, [105]); (300, [73]); (301, [105]);
    (302, [73]); (303, [105]); (304, [73]); (308, [74]); (309, [106]);
    (310, [75]); (311, [107]); (313, [76]); (314, [108]); (315, [76]);
    (316, [108]); (317, [76]); (318, [108]); (323, [78]); (324, [110]);
    (325, [78]); (326, [110]); (327, [78]); (328, [110]); (332, [79]);
    (333, [111]); (334, [79]); (335, [111]); (336, [79]); (337, [111]);
    (340, [82]); (341, [114]); (342, [82]); (343, [114]); (344, [82]);
    (345, [114]); (346, [83]); (347, [115]); (348, [83]); (349, [115]);
    (350, [83]); (351, [115]); (352, [83]); (353, [115]); (354, [84]);
    (355, [116]); (356, [84]); (357, [116]); (360, [85]); (361, [117]);
    (362, [85]); (363, [117]); (364, [85]); (365, [117]); (366, [85]);
    (367, [117]); (368, [85]); (369, [117]); (370, [85]); (371, [117]);
    (372, [87]); (373, [119]); (374, [89]); (375, [121]); (376, [89]);
    (377, [90]); (378, [122]); (379, [90]); (380, [122]); (381, [90]);
    (382, [122]); (416, [79]); (417, [111]); (431, [85]); (432, [117]);
    (461, [65]); (462, [97]); (463, [73]); (464, [105]); (465, [79]);
    (466, [111]); (467, [85]); (468, [117]); (469, [85]); (470, [117]);
    (471, [85]); (472, [117]); (473, [85]); (474, [117]); (475, [85]);
    (476, [117]); (478, [65]); (479, [97]); (480, [65]); (481, [97]);
    (482, [198]); (483, [230]); (486, [71]); (487, [103]); (488, [75]);
    (489, [107]); (490, [79]); (491, [111]); (492, [79]); (493, [111]);
    (494, [439]); (495, [658]); (496, [106]); (500, [71]); (501, [103]);
    (504, [78]); (505, [110]); (506, [65]); (507, [97]); (508, [198]);
    (509, [230]); (510, [216]); (511, [248]); (512, [65]); (513, [97]);
    (514, [65]); (515, [97]); (516, [69]); (517, [101]); (518, [69]);
    (519, [101]); (520, [73]); (521, [105]); (522, [73]); (523, [105]);
    (524, [79]); (525, [111]); (526, [79]); (527, [111]); (528, [82]);
    (529, [114]); (530, [82]); (531, [114]); (532, [85]); (533, [117]);
    (534, [85]); (535, [117]); (536, [83]); (537, [115]); (538, [84]);
    (539, [116]); (542, [72]); (543, [104]); (550, [65]); (551, [97]);
    (552, [69]); (553, [101]); (554, [79]); (555, [111]); (556, [79]);
    (557, [111]); (558, [79]); (559, [111]); (560, [79]); (561, [111]) ]
  ++
  [
    (562, [89]); (563, [121]); (884, [697]); (894, [59]); (901, [168]);
    (902, [913]); (903, [183]); (904, [917]); (905, [919]); (906, [921]);
    (908, [927]); (910, [933]); (911, [937]); (912, [953]); (938, [921]);
    (939, [933]); (940, [945]); (941, [949]); (942, [951]); (943, [953]);
    (944, [965]); (970, [953]); (971, [965]); (972, [959]); (973, [965]);
    (974, [969]); (979, [978]); (980, [978]); (1024, [1045]); (1025, [1045]);
    (1027, [1043]); (1031, [1030]); (1036, [1050]); (1037, [1048]);
    (1038, [1059]); (1049, [1048]); (1081, [1080]); (1104, [1077]);
    (1105, [1077]); (1107, [1075]); (1111, [1110]); (1116, [1082]);
    (1117, [1080]); (1118, [1091]); (1142, [1140]); (1143, [1141]);
    (1217, [1046]); (1218, [1078]); (1232, [1040]); (1233, [1072]);
    (1234, [1040]); (1235, [1072]); (1238, [1045]); (1239, [1077]);
    (1242, [1240]); (1243, [1241]); (1244, [1046]); (1245, [1078]);
    (1246, [1047]); (1247, [1079]); (1250, [1048]); (1251, [1080]);
    (1252, [1048]); (1253, [1080]); (1254, [1054]); (1255, [1086]);
    (1258, [1256]); (1259, [1257]); (1260, [1069]); (1261, [1101]);
    (1262, [1059]); (1263, [1091]); (1264, [1059]); (1265, [1091]);
    (1266, [1059]); (1267, [1091]); (1268, [1063]); (1269, [1095]);
    (1272, [1067]); (1273, [1099]); (1570, [1575]); (1571, [1575]);
    (1572, [1608]); (1573, [1575]); (1574, [1610]); (1728, [1749]);
    (1730, [1729]); (1747, [1746]); (2345, [2344]); (2353, [2352]);
    (2356, [2355]); (2392, [2325]); (2393, [2326]); (2394, [2327]);
    (2395, [2332]); (2396, [2337]); (2397, [2338]); (2398, [2347]);
    (2399, [2351]); (2507, [2503; 2494]); (2508, [2503; 2519]);
    (2524, [2465]); (2525, [2466]); (2527, [2479]); (2611, [2610]);
    (2614, [2616]); (2649, [2582]); (2650, [2583]); (2651, [2588]);
    (2654, [2603]); (2888, [2887; 2902]); (2891, [2887; 2878]);
    (2892, [2887; 2903]); (2908, [2849]); (2909, [2850]);
    (2964, [2962; 3031]); (3018, [3014; 3006]); (3019, [3015; 3006]);
    (3020, [3014; 3031]); (3144, [3142]); (3264, [3263; 3285]);
    (3271, [3270; 3285]); (3272, [3270; 3286]); (3274, [3270; 3266]);
    (3275, [3270; 3266; 3285]); (3402, [3398; 3390]); (3403, [3399; 3390]);
    (3404, [3398; 3415]); (3546, [3545]); (3548, [3545; 3535]);
    (3549, [3545; 3535]); (3550, [3545; 3551]); (3907, [3906; 4023]);
    (3917, [3916; 4023]); (3922, [3921; 4023]); (3927, [3926; 4023]);
    (3932, [3931; 4023]); (3945, [3904; 4021]); (3955, []); (3957, []);
    (3958, [4018]); (3960, [4019]); (3969, []); (3987, [3986; 4023]);
    (3997, [3996; 4023]); (4002, [4001; 4023]); (4007, [4006; 4023]);
    (4012, [4011; 4023]); (4025, [3984; 4021]); (4134, [4133; 4142]);
    (6918, [6917; 6965]); (6920, [6919; 6965]); (6922, [6921; 6965]);
    (6924, [6923; 6965]); (6926, [6925; 6965]); (6930, [6929; 6965]);
    (6971, [6970; 6965]); (6973, [6972; 6965]); (6976, [6974; 6965]);
    (6977, [6975; 6965]); (6979, [6978; 6965]); (7680, [65]); (7681, [97]);
    (7682, [66]); (7683, [98]); (7684, [66]); (7685, [98]); (7686, [66]);
    (7687, [98]); (7688, [67]); (7689, [99]); (7690, [68]); (7691, [100]);
    (7692, [68]); (7693, [100]); (7694, [68]); (7695, [100]); (7696, [68]);
    (7697, [100]); (7698, [68]); (7699, [100]); (7700, [69]); (7701, [101]);
    (7702, [69]); (7703, [101]); (7704, [69]); (7705, [101]); (7706, [69]);
    (7707, [101]); (7708, [69]); (7709, [101]); (7710, [70]); (7711, [102]);
    (7712, [71]); (7713, [103]); (7714, [72]); (7715, [104]); (7716, [72]);
    (7717, [104]); (7718, [72]); (7719, [104]); (7720, [72]); (7721, [104]);
    (7722, [72]); (7723, [104]); (7724, [73]); (7725, [105]); (7726, [73]);
    (7727, [105]); (7728, [75]); (7729, [107]); (7730, [75]); (7731, [107]);
    (7732, [75]); (7733, [107]); (7734, [76]); (7735, [108]); (7736, [76]);
    (7737, [108]); (7738, [76]); (7739, [108]); (7740, [76]); (7741, [108]);
    (7742, [77]); (7743, [109]); (7744, [77]); (7745, [109]); (7746, [77]);
    (7747, [109]); (7748, [78]); (7749, [110]); (7750, [78]); (7751, [110]);
    (7752, [78]); (7753, [110]); (7754, [78]); (7755, [110]); (7756, [79]);
    (7757, [111]); (7758, [79]); (7759, [111]); (7760, [79]); (7761, [111]);
    (7762, [79]); (7763, [111]); (7764, [80]); (7765, [112]); (7766, [80]);
    (7767, [112]); (7768, [82]) ]
  ++
  [
    (7769, [114]); (7770, [82]); (7771, [114]); (7772, [82]); (7773, [114]);
    (7774, [82]); (7775, [114]); (7776, [83]); (7777, [115]); (7778, [83]);
    (7779, [115]); (7780, [83]); (7781, [115]); (7782, [83]); (7783, [115]);
    (7784, [83]); (7785, [115]); (7786, [84]); (7787, [116]); (7788, [84]);
    (7789, [116]); (7790, [84]); (7791, [116]); (7792, [84]); (7793, [116]);
    (7794, [85]); (7795, [117]); (7796, [85]); (7797, [117]); (7798, [85]);
    (7799, [117]); (7800, [85]); (7801, [117]); (7802, [85]); (7803, [117]);
    (7804, [86]); (7805, [118]); (7806, [86]); (7807, [118]); (7808, [87]);
    (7809, [119]); (7810, [87]); (7811, [119]); (7812, [87]); (7813, [119]);
    (7814, [87]); (7815, [119]); (7816, [87]); (7817, [119]); (7818, [88]);
    (7819, [120]); (7820, [88]); (7821, [120]); (7822, [89]); (7823, [121]);
    (7824, [90]); (7825, [122]); (7826, [90]); (7827, [122]); (7828, [90]);
    (7829, [122]); (7830, [104]); (7831, [116]); (7832, [119]); (7833, [121]);
    (7835, [383]); (7840, [65]); (7841, [97]); (7842, [65]); (7843, [97]);
    (7844, [65]); (7845, [97]); (7846, [65]); (7847, [97]); (7848, [65]);
    (7849, [97]); (7850, [65]); (7851, [97]); (7852, [65]); (7853, [97]);
    (7854, [65]); (7855, [97]); (7856, [65]); (7857, [97]); (7858, [65]);
    (7859, [97]); (7860, [65]); (7861, [97]); (7862, [65]); (7863, [97]);
    (7864, [69]); (7865, [101]); (7866, [69]); (7867, [101]); (7868, [69]);
    (7869, [101]); (7870, [69]); (7871, [101]); (7872, [69]); (7873, [101]);
    (7874, [69]); (7875, [101]); (7876, [69]); (7877, [101]); (7878, [69]);
    (7879, [101]); (7880, [73]); (7881, [105]); (7882, [73]); (7883, [105]);
    (7884, [79]); (7885, [111]); (7886, [79]); (7887, [111]); (7888, [79]);
    (7889, [111]); (7890, [79]); (7891, [111]); (7892, [79]); (7893, [111]);
    (7894, [79]); (7895, [111]); (7896, [79]); (7897, [111]); (7898, [79]);
    (7899, [111]); (7900, [79]); (7901, [111]); (7902, [79]); (7903, [111]);
    (7904, [79]); (7905, [111]); (7906, [79]); (7907, [111]); (7908, [85]);
    (7909, [117]); (7910, [85]); (7911, [117]); (7912, [85]); (7913, [117]);
    (7914, [85]); (7915, [117]); (7916, [85]); (7917, [117]); (7918, [85]);
    (7919, [117]); (7920, [85]); (7921, [117]); (7922, [89]); (7923, [121]);
    (7924, [89]); (7925, [121]); (7926, [89]); (7927, [121]); (7928, [89]);
    (7929, [121]); (7936, [945]); (7937, [945]); (7938, [945]); (7939, [945]);
    (7940, [945]); (7941, [945]); (7942, [945]); (7943, [945]); (7944, [913]);
    (7945, [913]); (7946, [913]); (7947, [913]); (7948, [913]); (7949, [913]);
    (7950, [913]); (7951, [913]); (7952, [949]); (7953, [949]); (7954, [949]);
    (7955, [949]); (7956, [949]); (7957, [949]); (7960, [917]); (7961, [917]);
    (7962, [917]); (7963, [917]); (7964, [917]); (7965, [917]); (7968, [951]);
    (7969, [951]); (7970, [951]); (7971, [951]); (7972, [951]); (7973, [951]);
    (7974, [951]); (7975, [951]); (7976, [919]); (7977, [919]); (7978, [919]);
    (7979, [919]); (7980, [919]); (7981, [919]); (7982, [919]); (7983, [919]);
    (7984, [953]); (7985, [953]); (7986, [953]); (7987, [953]); (7988, [953]);
    (7989, [953]); (7990, [953]); (7991, [953]); (7992, [921]); (7993, [921]);
    (7994, [921]); (7995, [921]); (7996, [921]); (7997, [921]); (7998, [921]);
    (7999, [921]); (8000, [959]); (8001, [959]); (8002, [959]); (8003, [959]);
    (8004, [959]); (8005, [959]); (8008, [927]); (8009, [927]); (8010, [927]);
    (8011, [927]); (8012, [927]); (8013, [927]); (8016, [965]); (8017, [965]);
    (8018, [965]); (8019, [965]); (8020, [965]); (8021, [965]); (8022, [965]);
    (8023, [965]); (8025, [933]); (8027, [933]); (8029, [933]); (8031, [933]);
    (8032, [969]); (8033, [969]); (8034, [969]); (8035, [969]); (8036, [969]);
    (8037, [969]); (8038, [969]); (8039, [969]); (8040, [937]); (8041, [937]) ]
  ++
  [
    (8042, [937]); (8043, [937]); (8044, [937]); (8045, [937]); (8046, [937]);
    (8047, [937]); (8048, [945]); (8049, [945]); (8050, [949]); (8051, [949]);
    (8052, [951]); (8053, [951]); (8054, [953]); (8055, [953]); (8056, [959]);
    (8057, [959]); (8058, [965]); (8059, [965]); (8060, [969]); (8061, [969]);
    (8064, [945]); (8065, [945]); (8066, [945]); (8067, [945]); (8068, [945]);
    (8069, [945]); (8070, [945]); (8071, [945]); (8072, [913]); (8073, [913]);
    (8074, [913]); (8075, [913]); (8076, [913]); (8077, [913]); (8078, [913]);
    (8079, [913]); (8080, [951]); (8081, [951]); (8082, [951]); (8083, [951]);
    (8084, [951]); (8085, [951]); (8086, [951]); (8087, [951]); (8088, [919]);
    (8089, [919]); (8090, [919]); (8091, [919]); (8092, [919]); (8093, [919]);
    (8094, [919]); (8095, [919]); (8096, [969]); (8097, [969]); (8098, [969]);
    (8099, [969]); (8100, [969]); (8101, [969]); (8102, [969]); (8103, [969]);
    (8104, [937]); (8105, [937]); (8106, [937]); (8107, [937]); (8108, [937]);
    (8109, [937]); (8110, [937]); (8111, [937]); (8112, [945]); (8113, [945]);
    (8114, [945]); (8115, [945]); (8116, [945]); (8118, [945]); (8119, [945]);
    (8120, [913]); (8121, [913]); (8122, [913]); (8123, [913]); (8124, [913]);
    (8126, [953]); (8129, [168]); (8130, [951]); (8131, [951]); (8132, [951]);
    (8134, [951]); (8135, [951]); (8136, [917]); (8137, [917]); (8138, [919]);
    (8139, [919]); (8140, [919]); (8141, [8127]); (8142, [8127]);
    (8143, [8127]); (8144, [953]); (8145, [953]); (8146, [953]);
    (8147, [953]); (8150, [953]); (8151, [953]); (8152, [921]); (8153, [921]);
    (8154, [921]); (8155, [921]); (8157, [8190]); (8158, [8190]);
    (8159, [8190]); (8160, [965]); (8161, [965]); (8162, [965]);
    (8163, [965]); (8164, [961]); (8165, [961]); (8166, [965]); (8167, [965]);
    (8168, [933]); (8169, [933]); (8170, [933]); (8171, [933]); (8172, [929]);
    (8173, [168]); (8174, [168]); (8175, [96]); (8178, [969]); (8179, [969]);
    (8180, [969]); (8182, [969]); (8183, [969]); (8184, [927]); (8185, [927]);
    (8186, [937]); (8187, [937]); (8188, [937]); (8189, [180]);
    (8192, [8194]); (8193, [8195]); (8486, [937]); (8490, [75]); (8491, [65]);
    (8602, [8592]); (8603, [8594]); (8622, [8596]); (8653, [8656]);
    (8654, [8660]); (8655, [8658]); (8708, [8707]); (8713, [8712]);
    (8716, [8715]); (8740, [8739]); (8742, [8741]); (8769, [8764]);
    (8772, [8771]); (8775, [8773]); (8777, [8776]); (8800, [61]);
    (8802, [8801]); (8813, [8781]); (8814, [60]); (8815, [62]);
    (8816, [8804]); (8817, [8805]); (8820, [8818]); (8821, [8819]);
    (8824, [8822]); (8825, [8823]); (8832, [8826]); (8833, [8827]);
    (8836, [8834]); (8837, [8835]); (8840, [8838]); (8841, [8839]);
    (8876, [8866]); (8877, [8872]); (8878, [8873]); (8879, [8875]);
    (8928, [8828]); (8929, [8829]); (8930, [8849]); (8931, [8850]);
    (8938, [8882]); (8939, [8883]); (8940, [8884]); (8941, [8885]);
    (9001, [12296]); (9002, [12297]); (10972, [10973]); (12364, [12363]);
    (12366, [12365]); (12368, [12367]); (12370, [12369]); (12372, [12371]);
    (12374, [12373]); (12376, [12375]); (12378, [12377]); (12380, [12379]);
    (12382, [12381]); (12384, [12383]); (12386, [12385]); (12389, [12388]);
    (12391, [12390]); (12393, [12392]); (12400, [12399]); (12401, [12399]);
    (12403, [12402]); (12404, [12402]); (12406, [12405]); (12407, [12405]);
    (12409, [12408]); (12410, [12408]); (12412, [12411]); (12413, [12411]);
    (12436, [12358]); (12446, [12445]); (12460, [12459]); (12462, [12461]);
    (12464, [12463]); (12466, [12465]); (12468, [12467]); (12470, [12469]);
    (12472, [12471]); (12474, [12473]); (12476, [12475]); (12478, [12477]);
    (12480, [12479]); (12482, [12481]); (12485, [12484]); (12487, [12486]);
    (12489, [12488]); (12496, [12495]); (12497, [12495]); (12499, [12498]);
    (12500, [12498]); (12502, [12501]); (12503, [12501]); (12505, [12504]);
    (12506, [12504]); (12508, [12507]); (12509, [12507]); (12532, [12454]);
    (12535, [12527]); (12536, [12528]); (12537, [12529]); (12538, [12530]);
    (12542, [12541]); (63744, [35912]); (63745, [26356]); (63746, [36554]);
    (63747, [36040]); (63748, [28369]) ]
  ++
  [
    (63749, [20018]); (63750, [21477]); (63751, [40860]); (63752, [40860]);
    (63753, [22865]); (63754, [37329]); (63755, [21895]); (63756, [22856]);
    (63757, [25078]); (63758, [30313]); (63759, [32645]); (63760, [34367]);
    (63761, [34746]); (63762, [35064]); (63763, [37007]); (63764, [27138]);
    (63765, [27931]); (63766, [28889]); (63767, [29662]); (63768, [33853]);
    (63769, [37226]); (63770, [39409]); (63771, [20098]); (63772, [21365]);
    (63773, [27396]); (63774, [29211]); (63775, [34349]); (63776, [40478]);
    (63777, [23888]); (63778, [28651]); (63779, [34253]); (63780, [35172]);
    (63781, [25289]); (63782, [33240]); (63783, [34847]); (63784, [24266]);
    (63785, [26391]); (63786, [28010]); (63787, [29436]); (63788, [37070]);
    (63789, [20358]); (63790, [20919]); (63791, [21214]); (63792, [25796]);
    (63793, [27347]); (63794, [29200]); (63795, [30439]); (63796, [32769]);
    (63797, [34310]); (63798, [34396]); (63799, [36335]); (63800, [38706]);
    (63801, [39791]); (63802, [40442]); (63803, [30860]); (63804, [31103]);
    (63805, [32160]); (63806, [33737]); (63807, [37636]); (63808, [40575]);
    (63809, [35542]); (63810, [22751]); (63811, [24324]); (63812, [31840]);
    (63813, [32894]); (63814, [29282]); (63815, [30922]); (63816, [36034]);
    (63817, [38647]); (63818, [22744]); (63819, [23650]); (63820, [27155]);
    (63821, [28122]); (63822, [28431]); (63823, [32047]); (63824, [32311]);
    (63825, [38475]); (63826, [21202]); (63827, [32907]); (63828, [20956]);
    (63829, [20940]); (63830, [31260]); (63831, [32190]); (63832, [33777]);
    (63833, [38517]); (63834, [35712]); (63835, [25295]); (63836, [27138]);
    (63837, [35582]); (63838, [20025]); (63839, [23527]); (63840, [24594]);
    (63841, [29575]); (63842, [30064]); (63843, [21271]); (63844, [30971]);
    (63845, [20415]); (63846, [24489]); (63847, [19981]); (63848, [27852]);
    (63849, [25976]); (63850, [32034]); (63851, [21443]); (63852, [22622]);
    (63853, [30465]); (63854, [33865]); (63855, [35498]); (63856, [27578]);
    (63857, [36784]); (63858, [27784]); (63859, [25342]); (63860, [33509]);
    (63861, [25504]); (63862, [30053]); (63863, [20142]); (63864, [20841]);
    (63865, [20937]); (63866, [26753]); (63867, [31975]); (63868, [33391]);
    (63869, [35538]); (63870, [37327]); (63871, [21237]); (63872, [21570]);
    (63873, [22899]); (63874, [24300]); (63875, [26053]); (63876, [28670]);
    (63877, [31018]); (63878, [38317]); (63879, [39530]); (63880, [40599]);
    (63881, [40654]); (63882, [21147]); (63883, [26310]); (63884, [27511]);
    (63885, [36706]); (63886, [24180]); (63887, [24976]); (63888, [25088]);
    (63889, [25754]); (63890, [28451]); (63891, [29001]); (63892, [29833]);
    (63893, [31178]); (63894, [32244]); (63895, [32879]); (63896, [36646]);
    (63897, [34030]); (63898, [36899]); (63899, [37706]); (63900, [21015]);
    (63901, [21155]); (63902, [21693]); (63903, [28872]); (63904, [35010]);
    (63905, [35498]); (63906, [24265]); (63907, [24565]); (63908, [25467]);
    (63909, [27566]); (63910, [31806]); (63911, [29557]); (63912, [20196]);
    (63913, [22265]); (63914, [23527]); (63915, [23994]); (63916, [24604]);
    (63917, [29618]); (63918, [29801]); (63919, [32666]); (63920, [32838]);
    (63921, [37428]); (63922, [38646]); (63923, [38728]); (63924, [38936]);
    (63925, [20363]); (63926, [31150]); (63927, [37300]); (63928, [38584]);
    (63929, [24801]); (63930, [20102]); (63931, [20698]); (63932, [23534]);
    (63933, [23615]); (63934, [26009]); (63935, [27138]); (63936, [29134]);
    (63937, [30274]); (63938, [34044]); (63939, [36988]); (63940, [40845]);
    (63941, [26248]); (63942, [38446]); (63943, [21129]); (63944, [26491]);
    (63945, [26611]); (63946, [27969]); (63947, [28316]); (63948, [29705]);
    (63949, [30041]); (63950, [30827]); (63951, [32016]); (63952, [39006]);
    (63953, [20845]); (63954, [25134]); (63955, [38520]); (63956, [20523]);
    (63957, [23833]); (63958, [28138]); (63959, [36650]); (63960, [24459]);
    (63961, [24900]); (63962, [26647]); (63963, [29575]); (63964, [38534]);
    (63965, [21033]); (63966, [21519]); (63967, [23653]); (63968, [26131]);
    (63969, [26446]); (63970, [26792]); (63971, [27877]); (63972, [29702]);
    (63973, [30178]); (63974, [32633]); (63975, [35023]); (63976, [35041]);
    (63977, [37324]); (63978, [38626]); (63979, [21311]); (63980, [28346]);
    (63981, [21533]); (63982, [29136]); (63983, [29848]); (63984, [34298]);
    (63985, [38563]); (63986, [40023]); (63987, [40607]); (63988, [26519]);
    (63989, [28107]); (63990, [33256]); (63991, [31435]); (63992, [31520]);
    (63993, [31890]); (63994, [29376]); (63995, [28825]); (63996, [35672]);
    (63997, [20160]); (63998, [33590]) ]
  ++
  [
    (63999, [21050]); (64000, [20999]); (64001, [24230]); (64002, [25299]);
    (64003, [31958]); (64004, [23429]); (64005, [27934]); (64006, [26292]);
    (64007, [36667]); (64008, [34892]); (64009, [38477]); (64010, [35211]);
    (64011, [24275]); (64012, [20800]); (64013, [21952]); (64016, [22618]);
    (64018, [26228]); (64021, [20958]); (64022, [29482]); (64023, [30410]);
    (64024, [31036]); (64025, [31070]); (64026, [31077]); (64027, [31119]);
    (64028, [38742]); (64029, [31934]); (64030, [32701]); (64032, [34322]);
    (64034, [35576]); (64037, [36920]); (64038, [37117]); (64042, [39151]);
    (64043, [39164]); (64044, [39208]); (64045, [40372]); (64046, [37086]);
    (64047, [38583]); (64048, [20398]); (64049, [20711]); (64050, [20813]);
    (64051, [21193]); (64052, [21220]); (64053, [21329]); (64054, [21917]);
    (64055, [22022]); (64056, [22120]); (64057, [22592]); (64058, [22696]);
    (64059, [23652]); (64060, [23662]); (64061, [24724]); (64062, [24936]);
    (64063, [24974]); (64064, [25074]); (64065, [25935]); (64066, [26082]);
    (64067, [26257]); (64068, [26757]); (64069, [28023]); (64070, [28186]);
    (64071, [28450]); (64072, [29038]); (64073, [29227]); (64074, [29730]);
    (64075, [30865]); (64076, [31038]); (64077, [31049]); (64078, [31048]);
    (64079, [31056]); (64080, [31062]); (64081, [31069]); (64082, [31117]);
    (64083, [31118]); (64084, [31296]); (64085, [31361]); (64086, [31680]);
    (64087, [32244]); (64088, [32265]); (64089, [32321]); (64090, [32626]);
    (64091, [32773]); (64092, [33261]); (64093, [33401]); (64094, [33401]);
    (64095, [33879]); (64096, [35088]); (64097, [35222]); (64098, [35585]);
    (64099, [35641]); (64100, [36051]); (64101, [36104]); (64102, [36790]);
    (64103, [36920]); (64104, [38627]); (64105, [38911]); (64106, [38971]);
    (64107, [24693]); (64108, [148206]); (64109, [33304]); (64112, [20006]);
    (64113, [20917]); (64114, [20840]); (64115, [20352]); (64116, [20805]);
    (64117, [20864]); (64118, [21191]); (64119, [21242]); (64120, [21917]);
    (64121, [21845]); (64122, [21913]); (64123, [21986]); (64124, [22618]);
    (64125, [22707]); (64126, [22852]); (64127, [22868]); (64128, [23138]);
    (64129, [23336]); (64130, [24274]); (64131, [24281]); (64132, [24425]);
    (64133, [24493]); (64134, [24792]); (64135, [24910]); (64136, [24840]);
    (64137, [24974]); (64138, [24928]); (64139, [25074]); (64140, [25140]);
    (64141, [25540]); (64142, [25628]); (64143, [25682]); (64144, [25942]);
    (64145, [26228]); (64146, [26391]); (64147, [26395]); (64148, [26454]);
    (64149, [27513]); (64150, [27578]); (64151, [27969]); (64152, [28379]);
    (64153, [28363]); (64154, [28450]); (64155, [28702]); (64156, [29038]);
    (64157, [30631]); (64158, [29237]); (64159, [29359]); (64160, [29482]);
    (64161, [29809]); (64162, [29958]); (64163, [30011]); (64164, [30237]);
    (64165, [30239]); (64166, [30410]); (64167, [30427]); (64168, [30452]);
    (64169, [30538]); (64170, [30528]); (64171, [30924]); (64172, [31409]);
    (64173, [31680]); (64174, [31867]); (64175, [32091]); (64176, [32244]);
    (64177, [32574]); (64178, [32773]); (64179, [33618]); (64180, [33775]);
    (64181, [34681]); (64182, [35137]); (64183, [35206]); (64184, [35222]);
    (64185, [35519]); (64186, [35576]); (64187, [35531]); (64188, [35585]);
    (64189, [35582]); (64190, [35565]); (64191, [35641]); (64192, [35722]);
    (64193, [36104]); (64194, [36664]); (64195, [36978]); (64196, [37273]);
    (64197, [37494]); (64198, [38524]); (64199, [38627]); (64200, [38742]);
    (64201, [38875]); (64202, [38911]); (64203, [38923]); (64204, [38971]);
    (64205, [39698]); (64206, [40860]); (64207, [141386]); (64208, [141380]);
    (64209, [144341]); (64210, [15261]); (64211, [16408]); (64212, [16441]);
    (64213, [152137]); (64214, [154832]); (64215, [163539]); (64216, [40771]);
    (64217, [40846]); (64285, [1497]); (64287, [1522]); (64298, [1513]);
    (64299, [1513]); (64300, [1513]); (64301, [1513]); (64302, [1488]);
    (64303, [1488]); (64304, [1488]); (64305, [1489]); (64306, [1490]);
    (64307, [1491]); (64308, [1492]); (64309, [1493]); (64310, [1494]);
    (64312, [1496]); (64313, [1497]); (64314, [1498]); (64315, [1499]);
    (64316, [1500]); (64318, [1502]); (64320, [1504]); (64321, [1505]);
    (64323, [1507]); (64324, [1508]); (64326, [1510]); (64327, [1511]);
    (64328, [1512]); (64329, [1513]); (64330, [1514]); (64331, [1493]);
    (64332, [1489]); (64333, [1499]); (64334, [1508]); (69786, [69785]);
    (69788, [69787]); (69803, [69797]); (69934, [69937; 69927]);
    (69935, [69938; 69927]); (70475, [70471; 70462]); (70476, [70471; 70487]);
    (70843, [70841; 70842]); (70844, [70841; 70832]); (70846, [70841; 70845]);
    (71098, [71096; 71087]) ]
  ++
  [
    (71099, [71097; 71087]); (71992, [71989; 71984]); (119134, [119127]);
    (119135, [119128]); (119136, [119128]); (119137, [119128]);
    (119138, [119128]); (119139, [119128]); (119140, [119128]);
    (119227, [119225]); (119228, [119226]); (119229, [119225]);
    (119230, [119226]); (119231, [119225]); (119232, [119226]);
    (194560, [20029]); (194561, [20024]); (194562, [20033]);
    (194563, [131362]); (194564, [20320]); (194565, [20398]);
    (194566, [20411]); (194567, [20482]); (194568, [20602]);
    (194569, [20633]); (194570, [20711]); (194571, [20687]);
    (194572, [13470]); (194573, [132666]); (194574, [20813]);
    (194575, [20820]); (194576, [20836]); (194577, [20855]);
    (194578, [132380]); (194579, [13497]); (194580, [20839]);
    (194581, [20877]); (194582, [132427]); (194583, [20887]);
    (194584, [20900]); (194585, [20172]); (194586, [20908]);
    (194587, [20917]); (194588, [168415]); (194589, [20981]);
    (194590, [20995]); (194591, [13535]); (194592, [21051]);
    (194593, [21062]); (194594, [21106]); (194595, [21111]);
    (194596, [13589]); (194597, [21191]); (194598, [21193]);
    (194599, [21220]); (194600, [21242]); (194601, [21253]);
    (194602, [21254]); (194603, [21271]); (194604, [21321]);
    (194605, [21329]); (194606, [21338]); (194607, [21363]);
    (194608, [21373]); (194609, [21375]); (194610, [21375]);
    (194611, [21375]); (194612, [133676]); (194613, [28784]);
    (194614, [21450]); (194615, [21471]); (194616, [133987]);
    (194617, [21483]); (194618, [21489]); (194619, [21510]);
    (194620, [21662]); (194621, [21560]); (194622, [21576]);
    (194623, [21608]); (194624, [21666]); (194625, [21750]);
    (194626, [21776]); (194627, [21843]); (194628, [21859]);
    (194629, [21892]); (194630, [21892]); (194631, [21913]);
    (194632, [21931]); (194633, [21939]); (194634, [21954]);
    (194635, [22294]); (194636, [22022]); (194637, [22295]);
    (194638, [22097]); (194639, [22132]); (194640, [20999]);
    (194641, [22766]); (194642, [22478]); (194643, [22516]);
    (194644, [22541]); (194645, [22411]); (194646, [22578]);
    (194647, [22577]); (194648, [22700]); (194649, [136420]);
    (194650, [22770]); (194651, [22775]); (194652, [22790]);
    (194653, [22810]); (194654, [22818]); (194655, [22882]);
    (194656, [136872]); (194657, [136938]); (194658, [23020]);
    (194659, [23067]); (194660, [23079]); (194661, [23000]);
    (194662, [23142]); (194663, [14062]); (194664, [14076]);
    (194665, [23304]); (194666, [23358]); (194667, [23358]);
    (194668, [137672]); (194669, [23491]); (194670, [23512]);
    (194671, [23527]); (194672, [23539]); (194673, [138008]);
    (194674, [23551]); (194675, [23558]); (194676, [24403]);
    (194677, [23586]); (194678, [14209]); (194679, [23648]);
    (194680, [23662]); (194681, [23744]); (194682, [23693]);
    (194683, [138724]); (194684, [23875]); (194685, [138726]);
    (194686, [23918]); (194687, [23915]); (194688, [23932]);
    (194689, [24033]); (194690, [24034]); (194691, [14383]);
    (194692, [24061]); (194693, [24104]); (194694, [24125]);
    (194695, [24169]); (194696, [14434]); (194697, [139651]);
    (194698, [14460]); (194699, [24240]); (194700, [24243]);
    (194701, [24246]); (194702, [24266]); (194703, [172946]);
    (194704, [24318]); (194705, [140081]); (194706, [140081]);
    (194707, [33281]); (194708, [24354]); (194709, [24354]);
    (194710, [14535]); (194711, [144056]); (194712, [156122]);
    (194713, [24418]); (194714, [24427]); (194715, [14563]);
    (194716, [24474]); (194717, [24525]); (194718, [24535]);
    (194719, [24569]); (194720, [24705]); (194721, [14650]);
    (194722, [14620]); (194723, [24724]); (194724, [141012]);
    (194725, [24775]); (194726, [24904]); (194727, [24908]);
    (194728, [24910]); (194729, [24908]); (194730, [24954]);
    (194731, [24974]); (194732, [25010]); (194733, [24996]);
    (194734, [25007]); (194735, [25054]); (194736, [25074]);
    (194737, [25078]); (194738, [25104]); (194739, [25115]);
    (194740, [25181]); (194741, [25265]); (194742, [25300]);
    (194743, [25424]); (194744, [142092]); (194745, [25405]);
    (194746, [25340]); (194747, [25448]); (194748, [25475]);
    (194749, [25572]); (194750, [142321]); (194751, [25634]);
    (194752, [25541]); (194753, [25513]); (194754, [14894]);
    (194755, [25705]); (194756, [25726]); (194757, [25757]);
    (194758, [25719]); (194759, [14956]); (194760, [25935]);
    (194761, [25964]); (194762, [143370]); (194763, [26083]);
    (194764, [26360]); (194765, [26185]); (194766, [15129]);
    (194767, [26257]); (194768, [15112]); (194769, [15076]);
    (194770, [20882]); (194771, [20885]); (194772, [26368]);
    (194773, [26268]); (194774, [32941]); (194775, [17369]);
    (194776, [26391]); (194777, [26395]); (194778, [26401]);
    (194779, [26462]); (194780, [26451]); (194781, [144323]);
    (194782, [15177]); (194783, [26618]); (194784, [26501]);
    (194785, [26706]); (194786, [26757]); (194787, [144493]);
    (194788, [26766]); (194789, [26655]); (194790, [26900]);
    (194791, [15261]); (194792, [26946]); (194793, [27043]); (194794, [27114]) ]
  ++
  [
    (194795, [27304]); (194796, [145059]); (194797, [27355]);
    (194798, [15384]); (194799, [27425]); (194800, [145575]);
    (194801, [27476]); (194802, [15438]); (194803, [27506]);
    (194804, [27551]); (194805, [27578]); (194806, [27579]);
    (194807, [146061]); (194808, [138507]); (194809, [146170]);
    (194810, [27726]); (194811, [146620]); (194812, [27839]);
    (194813, [27853]); (194814, [27751]); (194815, [27926]);
    (194816, [27966]); (194817, [28023]); (194818, [27969]);
    (194819, [28009]); (194820, [28024]); (194821, [28037]);
    (194822, [146718]); (194823, [27956]); (194824, [28207]);
    (194825, [28270]); (194826, [15667]); (194827, [28363]);
    (194828, [28359]); (194829, [147153]); (194830, [28153]);
    (194831, [28526]); (194832, [147294]); (194833, [147342]);
    (194834, [28614]); (194835, [28729]); (194836, [28702]);
    (194837, [28699]); (194838, [15766]); (194839, [28746]);
    (194840, [28797]); (194841, [28791]); (194842, [28845]);
    (194843, [132389]); (194844, [28997]); (194845, [148067]);
    (194846, [29084]); (194847, [148395]); (194848, [29224]);
    (194849, [29237]); (194850, [29264]); (194851, [149000]);
    (194852, [29312]); (194853, [29333]); (194854, [149301]);
    (194855, [149524]); (194856, [29562]); (194857, [29579]);
    (194858, [16044]); (194859, [29605]); (194860, [16056]);
    (194861, [16056]); (194862, [29767]); (194863, [29788]);
    (194864, [29809]); (194865, [29829]); (194866, [29898]);
    (194867, [16155]); (194868, [29988]); (194869, [150582]);
    (194870, [30014]); (194871, [150674]); (194872, [30064]);
    (194873, [139679]); (194874, [30224]); (194875, [151457]);
    (194876, [151480]); (194877, [151620]); (194878, [16380]);
    (194879, [16392]); (194880, [30452]); (194881, [151795]);
    (194882, [151794]); (194883, [151833]); (194884, [151859]);
    (194885, [30494]); (194886, [30495]); (194887, [30495]);
    (194888, [30538]); (194889, [16441]); (194890, [30603]);
    (194891, [16454]); (194892, [16534]); (194893, [152605]);
    (194894, [30798]); (194895, [30860]); (194896, [30924]);
    (194897, [16611]); (194898, [153126]); (194899, [31062]);
    (194900, [153242]); (194901, [153285]); (194902, [31119]);
    (194903, [31211]); (194904, [16687]); (194905, [31296]);
    (194906, [31306]); (194907, [31311]); (194908, [153980]);
    (194909, [154279]); (194910, [154279]); (194911, [31470]);
    (194912, [16898]); (194913, [154539]); (194914, [31686]);
    (194915, [31689]); (194916, [16935]); (194917, [154752]);
    (194918, [31954]); (194919, [17056]); (194920, [31976]);
    (194921, [31971]); (194922, [32000]); (194923, [155526]);
    (194924, [32099]); (194925, [17153]); (194926, [32199]);
    (194927, [32258]); (194928, [32325]); (194929, [17204]);
    (194930, [156200]); (194931, [156231]); (194932, [17241]);
    (194933, [156377]); (194934, [32634]); (194935, [156478]);
    (194936, [32661]); (194937, [32762]); (194938, [32773]);
    (194939, [156890]); (194940, [156963]); (194941, [32864]);
    (194942, [157096]); (194943, [32880]); (194944, [144223]);
    (194945, [17365]); (194946, [32946]); (194947, [33027]);
    (194948, [17419]); (194949, [33086]); (194950, [23221]);
    (194951, [157607]); (194952, [157621]); (194953, [144275]);
    (194954, [144284]); (194955, [33281]); (194956, [33284]);
    (194957, [36766]); (194958, [17515]); (194959, [33425]);
    (194960, [33419]); (194961, [33437]); (194962, [21171]);
    (194963, [33457]); (194964, [33459]); (194965, [33469]);
    (194966, [33510]); (194967, [158524]); (194968, [33509]);
    (194969, [33565]); (194970, [33635]); (194971, [33709]);
    (194972, [33571]); (194973, [33725]); (194974, [33767]);
    (194975, [33879]); (194976, [33619]); (194977, [33738]);
    (194978, [33740]); (194979, [33756]); (194980, [158774]);
    (194981, [159083]); (194982, [158933]); (194983, [17707]);
    (194984, [34033]); (194985, [34035]); (194986, [34070]);
    (194987, [160714]); (194988, [34148]); (194989, [159532]);
    (194990, [17757]); (194991, [17761]); (194992, [159665]);
    (194993, [159954]); (194994, [17771]); (194995, [34384]);
    (194996, [34396]); (194997, [34407]); (194998, [34409]);
    (194999, [34473]); (195000, [34440]); (195001, [34574]);
    (195002, [34530]); (195003, [34681]); (195004, [34600]);
    (195005, [34667]); (195006, [34694]); (195007, [17879]);
    (195008, [34785]); (195009, [34817]); (195010, [17913]);
    (195011, [34912]); (195012, [34915]); (195013, [161383]);
    (195014, [35031]); (195015, [35038]); (195016, [17973]);
    (195017, [35066]); (195018, [13499]); (195019, [161966]);
    (195020, [162150]); (195021, [18110]); (195022, [18119]);
    (195023, [35488]); (195024, [35565]); (195025, [35722]);
    (195026, [35925]); (195027, [162984]); (195028, [36011]);
    (195029, [36033]); (195030, [36123]); (195031, [36215]);
    (195032, [163631]); (195033, [133124]); (195034, [36299]);
    (195035, [36284]); (195036, [36336]); (195037, [133342]);
    (195038, [36564]); (195039, [36664]); (195040, [165330]);
    (195041, [165357]); (195042, [37012]); (195043, [37105]);
    (195044, [37137]) ]
  ++
  [
    (195045, [165678]); (195046, [37147]); (195047, [37432]);
    (195048, [37591]); (195049, [37592]); (195050, [37500]);
    (195051, [37881]); (195052, [37909]); (195053, [166906]);
    (195054, [38283]); (195055, [18837]); (195056, [38327]);
    (195057, [167287]); (195058, [18918]); (195059, [38595]);
    (195060, [23986]); (195061, [38691]); (195062, [168261]);
    (195063, [168474]); (195064, [19054]); (195065, [19062]);
    (195066, [38880]); (195067, [168970]); (195068, [19122]);
    (195069, [169110]); (195070, [38923]); (195071, [38923]);
    (195072, [38953]); (195073, [169398]); (195074, [39138]);
    (195075, [19251]); (195076, [39209]); (195077, [39335]);
    (195078, [39362]); (195079, [39422]); (195080, [19406]);
    (195081, [170800]); (195082, [39698]); (195083, [40000]);
    (195084, [40189]); (195085, [19662]); (195086, [19693]);
    (195087, [40295]); (195088, [172238]); (195089, [19704]);
    (195090, [172293]); (195091, [172558]); (195092, [172689]);
    (195093, [40635]); (195094, [19798]); (195095, [40697]);
    (195096, [40702]); (195097, [40709]); (195098, [40719]);
    (195099, [40726]); (195100, [40763]); (195101, [173568]) ].

(** The decomposition of a Hangul syllable into its two or three jamo, none
    of which is combining. *)
Definition hangul_jamo (c : N) : list N :=
  let s := c - 0xAC00 in
  [0x1100 + s / 588; 0x1161 + (s mod 588) / 28]
  ++ (if s mod 28 =? 0 then [] else [0x11A7 + s mod 28]).

(** One character after canonical decomposition with the combining marks
    removed: the base letter of an accented letter, nothing for a combining
    mark. *)
Definition strip_accents_cp (c : N) : list N :=
  if c <? 0xC0 then [c]
  else if (0xAC00 <=? c) && (c <=? 0xD7A3) then hangul_jamo c
  else if is_combining c then []
  else
    match lookup_cp c decomposition_table with
    | Some d => d
    | None => [c]
    end.
End Characters.

(** [s.upper()] *)
Definition upper (s : str) : str := flat_map upper_cp s.

(** [strip_accents(text)]: NFD-normalise, then drop every combining mark.
    Canonical reordering only permutes combining marks, so the result is
    the concatenation of the stripped decompositions. *)
Definition strip_accents (text : str) : str := flat_map strip_accents_cp text.

Fixpoint dropwhile (p : N -> bool) (s : str) : str :=
  match s with
  | [] => []
  | c :: s' => if p c then dropwhile p s' else s
  end.

Definition lstrip_by (p : N -> bool) (s : str) : str := dropwhile p s.
Definition rstrip_by (p : N -> bool) (s : str) : str :=
  rev (dropwhile p (rev s)).
Definition strip_by (p : N -> bool) (s : str) : str :=
  rstrip_by p (lstrip_by p s).

(** [s.strip()] *)
Definition strip (s : str) : str := strip_by isspace s.

Definition mem_chars (chars : str) (c : N) : bool := existsb (N.eqb c) chars.

(** [s.strip(chars)] *)
Definition strip_chars (chars : str) (s : str) : str :=
  strip_by (mem_chars chars) s.

(** [re.sub(r"\s+", " ", s)]: every maximal run of whitespace becomes one
    space.  [in_run] tells that the previous character was whitespace. *)
Fixpoint sub_ws_from (in_run : bool) (s : str) : str :=
  match s with
  | [] => []
  | c :: s' =>
      if isspace c
      then (if in_run then sub_ws_from true s' else 32%N :: sub_ws_from true s')
      else c :: sub_ws_from false s'
  end.

Definition sub_ws (s : str) : str := sub_ws_from false s.

(** [s.startswith(prefix)] *)
Fixpoint startswith (s prefix : str) : bool :=
  match prefix, s with
  | [], _ => true
  | _ :: _, [] => false
  | p :: prefix', c :: s' => N.eqb c p && startswith s' prefix'
  end.

(** [sub in s] *)
Fixpoint contains (sub s : str) : bool :=
  startswith s sub ||
  match s with
  | [] => false
  | _ :: s' => contains sub s'
  end.

(** [s[a:b]] for non-negative indices. *)
Definition slice (a b : nat) (s : str) : str := take (b - a) (drop a s).

(** [s.replace(old, new)]: non-overlapping occurrences, left to right.
    [skip] counts the characters of an occurrence still to be passed. *)
Fixpoint replace_from (old new : str) (skip : nat) (s : str) : str :=
  match s with
  | [] => []
  | c :: s' =>
      match skip with
      | S k => replace_from old new k s'
      | O =>
          if startswith s old
          then new ++ replace_from old new (length old - 1) s'
          else c :: replace_from old new 0 s'
      end
  end.

Definition replace (old new s : str) : str :=
  match old with
  | [] => new ++ flat_map (fun c => c :: new) s
  | _ :: _ => replace_from old new 0 s
  end.

(** [sep.join(parts)] *)
Fixpoint join (sep : str) (parts : list str) : str :=
  match parts with
  | [] => []
  | [p] => p
  | p :: ps => p ++ sep ++ join sep ps
  end.

(** [s.splitlines()]: the line boundaries of [str.splitlines]; a CR LF pair
    is one boundary and a final boundary opens no empty line. *)
Definition is_linebreak (c : N) : bool :=
  ((10 <=? c) && (c <=? 13))%N || ((28 <=? c) && (c <=? 30))%N
  || (c =? 0x85)%N || (c =? 0x2028)%N || (c =? 0x2029)%N.

Fixpoint splitlines_from (cur : str) (s : str) : list str :=
  match s with
  | [] => match cur with [] => [] | _ :: _ => [rev cur] end
  | c :: s' =>
      if is_linebreak c then
        match s' with
        | c' :: s'' =>
            if (c =? 13)%N && (c' =? 10)%N
            then rev cur :: splitlines_from [] s''
            else rev cur :: splitlines_from [] s'
        | [] => [rev cur]
        end
      else splitlines_from (c :: cur) s'
  end.

Definition splitlines (s : str) : list str := splitlines_from [] s.

(* ===================================================================== *)
(** * Regular expressions: the fragment of [re] the parsers use           *)
(* ===================================================================== *)

(** Backtracking semantics of Python's [re]: alternatives are tried left to
    right, repetitions are greedy, and the first way through the pattern that
    succeeds is the match.  [Rep r lo hi] is [r{lo,hi}], with [hi = None] for
    an unbounded repetition ([*] is [Rep r 0 None], [+] is [Rep r 1 None]);
    [Grp] is a capturing group. *)
Inductive regex : Type :=
  | Eps
  | Chr (c : N)
  | Cls (p : N -> bool)
  | Cat (r1 r2 : regex)
  | Alt (r1 r2 : regex)
  | Rep (r : regex) (lo : nat) (hi : option nat)
  | Grp (r : regex).

Definition Seq (rs : list regex) : regex := foldr Cat Eps rs.
Definition Alts (rs : list regex) : regex :=
  match rs with
  | [] => Eps
  | r :: rs' => foldl Alt r rs'
  end.

Definition orelse {A} (x y : option A) : option A :=
  match x with
  | Some a => Some a
  | None => y
  end.

(** [rmatch r s caps k]: match [r] at the head of [s], then hand the rest of
    the input and the groups captured so far to the continuation [k]; when
    [k] fails the matcher backtracks.  An iteration of an unbounded
    repetition has to consume input, which is what the [re] engine enforces
    as well. *)
Fixpoint rmatch {A} (r : regex) (s : str) (caps : list str)
    (k : str -> list str -> option A) {struct r} : option A :=
  match r with
  | Eps => k s caps
  | Chr c =>
      match s with
      | x :: s' => if N.eqb x c then k s' caps else None
      | [] => None
      end
  | Cls p =>
      match s with
      | x :: s' => if p x then k s' caps else None
      | [] => None
      end
  | Cat r1 r2 => rmatch r1 s caps (fun s' caps' => rmatch r2 s' caps' k)
  | Alt r1 r2 => orelse (rmatch r1 s caps k) (rmatch r2 s caps k)
  | Grp r1 =>
      rmatch r1 s caps
        (fun s' caps' => k s' (caps' ++ [take (length s - length s') s]))
  | Rep r1 lo hi =>
      (fix iterate (fuel : nat) (lo : nat) (s : str) (caps : list str)
         {struct fuel} : option A :=
         let stop := match lo with O => k s caps | S _ => None end in
         match fuel with
         | O => stop
         | S fuel' =>
             orelse
               (rmatch r1 s caps
                  (fun s' caps' =>
                     match hi with
                     | Some _ => iterate fuel' (pred lo) s' caps'
                     | None =>
                         if (length s' <? length s)%nat
                         then iterate fuel' (pred lo) s' caps'
                         else None
                     end))
               stop
         end)
        (match hi with Some h => h | None => lo + length s end) lo s caps
  end.

(** [re.match(r, s)]: where the match ends, and the captured groups. *)
Definition re_match (r : regex) (s : str) : option (nat * list str) :=
  rmatch r s [] (fun rest caps => Some ((length s - length rest)%nat, caps)).

(** [r.finditer(s)] as the list of [(start, end)] spans, for a pattern that
    matches no empty string.  [skip] counts the characters of the last match
    still to be passed. *)
Fixpoint finditer_from (r : regex) (pos skip : nat) (s : str)
    : list (nat * nat) :=
  match s with
  | [] => []
  | _ :: s' =>
      match skip with
      | S k => finditer_from r (S pos) k s'
      | O =>
          match re_match r s with
          | Some (S len, _) =>
              (pos, (pos + S len)%nat) :: finditer_from r (S pos) len s'
          | _ => finditer_from r (S pos) 0 s'
          end
      end
  end.

Definition finditer (r : regex) (s : str) : list (nat * nat) :=
  finditer_from r 0 0 s.

Definition re_digit : regex := Cls isdigit.
Definition re_space : regex := Cls isspace.
(** [.] without DOTALL: any character but a line feed. *)
Definition re_dot : regex := Cls (fun c => negb (N.eqb c 10)).
Definition re_range (lo hi : ascii) : regex :=
  Cls (fun c => (ch lo <=? c)%N && (c <=? ch hi)%N).

(* ===================================================================== *)
(** * Floats: binary64 and the [float()] constructor                      *)
(* ===================================================================== *)

Abbreviation float := spec_float.

Definition prec : Z := 53.
Definition emax : Z := 1024.

(** [-x], [abs(x)] and [x > y] on floats; a comparison with NaN is false. *)
Definition float_neg (x : float) : float := SFopp x.
Definition float_abs (x : float) : float := SFabs x.
Definition float_gt (x y : float) : bool := SFltb y x.
Definition float_zero : float := S754_zero false.

(** The binary64 value nearest to [n * 10^k] (ties to even), with the sign
    [neg]; it overflows to an infinity and underflows to a zero. *)
Definition decimal_to_float (neg : bool) (n : N) (k : Z) : float :=
  match n with
  | N0 => S754_zero neg
  | Npos m =>
      match k with
      | Z0 => binary_round prec emax neg m 0
      | Zpos p => binary_round prec emax neg (m * 10 ^ p)%positive 0
      | Zneg p =>
          SFdiv prec emax (S754_finite neg m 0)
                (S754_finite false (10 ^ p)%positive 0)
      end
  end.

Fixpoint takewhile (p : N -> bool) (s : str) : str :=
  match s with
  | [] => []
  | c :: s' => if p c then c :: takewhile p s' else []
  end.

(** The value of a string of decimal digits. *)
Definition digits_to_N (ds : str) : N :=
  foldl (fun acc c => (acc * 10 + digit_value c)%N) 0%N ds.

(** [float()] first makes its argument ASCII: from U+007F on, a whitespace
    character becomes a space and a decimal digit the ASCII digit of its
    value; at any other character the text is cut and ends in [?]. *)
Fixpoint float_transliterate (s : str) : str :=
  match s with
  | [] => []
  | c :: s' =>
      if (c <? 127)%N then c :: float_transliterate s'
      else if isspace c then 32%N :: float_transliterate s'
      else if isdigit c then (48 + digit_value c)%N :: float_transliterate s'
      else [63%N]
  end.

(** Underscores may only stand between two digits; they are removed.
    [prev] is the previous character, NUL at the start. *)
Fixpoint strip_underscores (prev : N) (s : str) : option str :=
  match s with
  | [] => if N.eqb prev (ch "_") then None else Some []
  | c :: s' =>
      if N.eqb c (ch "_")
      then (if c_isdigit prev then strip_underscores c s' else None)
      else if N.eqb prev (ch "_") && negb (c_isdigit c) then None
      else cons c <$> strip_underscores c s'
  end.

Definition ascii_lower (c : N) : N :=
  if (65 <=? c)%N && (c <=? 90)%N then (c + 32)%N else c.

Definition split_sign (s : str) : bool * str :=
  match s with
  | c :: s' =>
      if N.eqb c (ch "-") then (true, s')
      else if N.eqb c (ch "+") then (false, s')
      else (false, s)
  | [] => (false, s)
  end.

(** The optional exponent, which has to reach the end of the input. *)
Definition parse_exponent (s : str) : option Z :=
  match s with
  | [] => Some 0%Z
  | c :: s1 =>
      if N.eqb (ascii_lower c) (ch "e") then
        let '(neg, ds) := split_sign s1 in
        match ds with
        | [] => None
        | _ :: _ =>
            if forallb c_isdigit ds
            then Some (if neg then (- Z.of_N (digits_to_N ds))%Z
                       else Z.of_N (digits_to_N ds))
            else None
        end
      else None
  end.

(** An unsigned decimal numeral [digits [. digits] [e [sign] digits]] with
    at least one digit in the mantissa: its digits as a number and the power
    of ten that scales them. *)
Definition parse_decimal (s : str) : option (N * Z) :=
  let ip := takewhile c_isdigit s in
  let r1 := dropwhile c_isdigit s in
  let '(fp, r2) :=
    match r1 with
    | c :: r =>
        if N.eqb c (ch ".")
        then (takewhile c_isdigit r, dropwhile c_isdigit r)
        else ([], r1)
    | [] => ([], r1)
    end in
  match ip ++ fp with
  | [] => None
  | _ :: _ =>
      e ← parse_exponent r2;
      Some (digits_to_N (ip ++ fp), (e - Z.of_nat (length fp))%Z)
  end.

(** [float(s)] for a [str] argument; [None] is the [ValueError]. *)
Definition py_float (s : str) : option float :=
  let s1 := strip_by c_isspace (float_transliterate s) in
  s2 ← strip_underscores 0%N s1;
  let '(neg, s3) := split_sign s2 in
  let low := map ascii_lower s3 in
  if bool_decide (low = lit "inf") || bool_decide (low = lit "infinity")
  then Some (S754_infinity neg)
  else if bool_decide (low = lit "nan") then Some S754_nan
  else '(n, k) ← parse_decimal s3; Some (decimal_to_float neg n k).

(* ===================================================================== *)
(** * Dates: [datetime.strptime]                                          *)
(* ===================================================================== *)

(** A [datetime] without time zone. *)
Record datetime : Type := mk_datetime {
  year : Z; month : Z; day : Z;
  hour : Z; minute : Z; second : Z; microsecond : Z
}.

Definition is_leap (y : Z) : bool :=
  ((y mod 4 =? 0) && (negb (y mod 100 =? 0) || (y mod 400 =? 0)))%Z.

Definition days_in_month (y m : Z) : Z :=
  if (m =? 2)%Z then (if is_leap y then 29 else 28)
  else if ((m =? 4) || (m =? 6) || (m =? 9) || (m =? 11))%Z then 30
  else 31.

(** The range check of the [date(year, month, day)] constructor. *)
Definition valid_date (y m d : Z) : bool :=
  ((1 <=? y) && (y <=? 9999) && (1 <=? m) && (m <=? 12)
   && (1 <=? d) && (d <=? days_in_month y m))%Z.

(** The directives of a [strptime] format the program uses, and literal
    characters. *)
Inductive fmt_item : Type :=
  | Dir_d | Dir_m | Dir_Y | Dir_y
  | Fmt_lit (c : N).

(** The regular expression [_strptime] compiles for each directive. *)
Definition directive_regex (it : fmt_item) : regex :=
  match it with
  | Dir_d =>
      (* 3[0-1]|[1-2]\d|0[1-9]|[1-9]| [1-9] *)
      Grp (Alts [Cat (Chr (ch "3")) (re_range "0" "1");
                 Cat (re_range "1" "2") re_digit;
                 Cat (Chr (ch "0")) (re_range "1" "9");
                 re_range "1" "9";
                 Cat (Chr (ch " ")) (re_range "1" "9")])
  | Dir_m =>
      (* 1[0-2]|0[1-9]|[1-9] *)
      Grp (Alts [Cat (Chr (ch "1")) (re_range "0" "2");
                 Cat (Chr (ch "0")) (re_range "1" "9");
                 re_range "1" "9"])
  | Dir_Y => Grp (Rep re_digit 4 (Some 4))
  | Dir_y => Grp (Rep re_digit 2 (Some 2))
  | Fmt_lit c => Chr c
  end.

Definition is_directive (it : fmt_item) : bool :=
  match it with Fmt_lit _ => false | _ => true end.

(** [int(s)] for a captured group: digits, possibly after a blank. *)
Definition py_int (s : str) : Z := Z.of_N (digits_to_N (strip s)).

(** The fields a directive sets from its captured text; [None] for the year
    means that no year directive was seen. *)
Definition set_field (acc : option Z * Z * Z) (it_cap : fmt_item * str)
    : option Z * Z * Z :=
  let '(y, m, d) := acc in
  let '(it, cap) := it_cap in
  match it with
  | Dir_y =>
      let v := py_int cap in
      (Some (if (v <=? 68)%Z then (v + 2000)%Z else (v + 1900)%Z), m, d)
  | Dir_Y => (Some (py_int cap), m, d)
  | Dir_m => (y, py_int cap, d)
  | Dir_d => (y, m, py_int cap)
  | Fmt_lit _ => acc
  end.

(** [datetime.strptime(data_string, format)]; [None] is the [ValueError]
    raised when the text does not match, when unconverted data remains, or
    when the day does not exist in the month. *)
Definition strptime (data_string : str) (format : list fmt_item)
    : option datetime :=
  match re_match (Seq (map directive_regex format)) data_string with
  | None => None
  | Some (stop, caps) =>
      if negb (length data_string =? stop)%nat then None
      else
        let '(y, m, d) :=
          foldl set_field (None, 1%Z, 1%Z)
                (zip (filter (fun it => is_directive it = true) format) caps) in
        let y := default 1900%Z y in
        if valid_date y m d
        then Some (mk_datetime y m d 0 0 0 0)
        else None
  end.

(** ["%d/%m/%Y"] and ["%d/%m/%y"] *)
Definition fmt_dmY : list fmt_item :=
  [Dir_d; Fmt_lit (ch "/"); Dir_m; Fmt_lit (ch "/"); Dir_Y].
Definition fmt_dmy : list fmt_item :=
  [Dir_d; Fmt_lit (ch "/"); Dir_m; Fmt_lit (ch "/"); Dir_y].

(* ===================================================================== *)
(** * The program: locale parsers and merchant normaliser                 *)
(* ===================================================================== *)

(** The two values of [Transaction.txn_type], ["credit"] and ["debit"]. *)
Inductive txn_kind : Type := Credit | Debit.

Record Transaction : Type := mk_Transaction {
  date : datetime;
  description_full : str;
  merchant_normalized : str;
  txn_type : txn_kind;
  amount : float;
  category : option str
}.

Definition NORMALIZATION_PREFIXES : list str :=
  [ lit "PIX ENVIADO";
    lit "PIX RECEBIDO";
    lit "PAGAMENTO DE BOLETO";
    lit "PAGAMENTO BOLETO";
    lit "PAGTO BOLETO";
    lit "CREDITO DE SALARIO";
    lit "DEBITO AUT.";
    lit "COMPRA CARTAO" ].

(** [normalize_merchant] (app.py, lines 105-112). *)
Definition normalize_merchant (description : str) : str :=
  let text := strip (sub_ws description) in
  let upper := upper text in
  match List.find (fun prefix => startswith upper prefix)
                  NORMALIZATION_PREFIXES with
  | Some prefix =>
      let trimmed := strip_chars (lit " -:/") (drop (length prefix) upper) in
      sub_ws trimmed
  | None => sub_ws upper
  end.

(** [parse_brl_amount] (app.py, lines 115-129); [None] is also the caught
    [ValueError] of [float()]. *)
Definition parse_brl_amount (raw : str) : option float :=
  match raw with
  | [] => None
  | _ :: _ =>
      let txt := strip raw in
      let txt := strip (replace (lit "R$") [] txt) in
      let is_negative := contains (lit "-") txt in
      let txt := replace (lit "-") [] txt in
      let txt := replace (lit ",") (lit ".") (replace (lit ".") [] txt) in
      match py_float txt with
      | None => None
      | Some value => Some (if is_negative then float_neg value else value)
      end
  end.

(** The loop of [parse_date] over its formats: the first that parses wins. *)
Fixpoint try_formats (raw : str) (formats : list (list fmt_item))
    : option datetime :=
  match formats with
  | [] => None
  | fmt :: rest =>
      match strptime raw fmt with
      | Some d => Some d
      | None => try_formats raw rest
      end
  end.

(** [parse_date] (app.py, lines 132-139). *)
Definition parse_date (raw : str) : option datetime :=
  try_formats (strip raw) [fmt_dmY; fmt_dmy].

(* ===================================================================== *)
(** * The program: transaction synthesis                                  *)
(* ===================================================================== *)

(** What a consumed row or line provides: date, [description_full],
    merchant, and the parsed credit and debit. *)
Record row_fields : Type := mk_row_fields {
  rf_date : datetime;
  rf_description_full : str;
  rf_merchant : str;
  rf_credit : option float;
  rf_debit : option float
}.

(** The two guarded [transactions.append] at the end of both loop bodies:
    the debit first, with [abs(debit)] as amount; then the credit, with
    [credit] itself as amount. *)
Definition emit_transactions (f : row_fields) : list Transaction :=
  (match rf_debit f with
   | Some debit =>
       if float_gt (float_abs debit) float_zero
       then [mk_Transaction (rf_date f) (rf_description_full f)
               (rf_merchant f) Debit (float_abs debit) None]
       else []
   | None => []
   end)
  ++
  (match rf_credit f with
   | Some credit =>
       if float_gt (float_abs credit) float_zero
       then [mk_Transaction (rf_date f) (rf_description_full f)
               (rf_merchant f) Credit credit None]
       else []
   | None => []
   end).

(** From the parsed pieces to the fields, shared by both parsers: the row
    is skipped when neither amount parsed. *)
Definition make_fields (date : datetime) (description_raw : str)
    (credit debit : option float) : option row_fields :=
  match credit, debit with
  | None, None => None
  | _, _ =>
      let description_full := strip (sub_ws description_raw) in
      let merchant := normalize_merchant description_full in
      Some (mk_row_fields date description_full merchant credit debit)
  end.

(** ** Table rows *)

Definition is_header_row (row : list str) : bool :=
  let header_join := join (lit " ") (map upper row) in
  let header_norm := strip_accents header_join in
  contains (lit "DATA") header_norm
  && contains (lit "DESCRI") header_norm
  && contains (lit "CREDITO") header_norm.

(** The first loop: the index of the first header row, from [idx] on. *)
Fixpoint find_header_from (idx : nat) (tables : list (list str))
    : option nat :=
  match tables with
  | [] => None
  | row :: rest =>
      if is_header_row row then Some idx else find_header_from (S idx) rest
  end.

(** The [if]/[elif] chain on one header cell: the key it is stored under. *)
Definition column_role (col : str) : option string :=
  let col_norm := strip_accents (upper col) in
  if contains (lit "DATA") col_norm then Some "date"%string
  else if contains (lit "DESCRI") col_norm then Some "description"%string
  else if contains (lit "CREDITO") col_norm then Some "credit"%string
  else if contains (lit "DEBITO") col_norm then Some "debit"%string
  else None.

Definition assign_column (col_map : gmap string nat) (i : nat) (col : str)
    : gmap string nat :=
  match column_role col with
  | Some key => <[key := i]> col_map
  | None => col_map
  end.

(** The second loop: [col_map] after the cells from index [i] on. *)
Fixpoint build_col_map_from (col_map : gmap string nat) (i : nat)
    (header : list str) : gmap string nat :=
  match header with
  | [] => col_map
  | col :: rest => build_col_map_from (assign_column col_map i col) (S i) rest
  end.

Definition build_col_map (header : list str) : gmap string nat :=
  build_col_map_from ∅ 0 header.

(** [row[i]], with the empty string for a missing cell; the callers have
    checked that the row is long enough. *)
Definition cell (row : list str) (i : nat) : str := default [] (row !! i).

(** The body of the row loop up to the two [append]s; [None] is a
    [continue]. *)
Definition table_row_fields (header_len : nat)
    (i_date i_description i_credit i_debit : nat) (row : list str)
    : option row_fields :=
  if (length row <? header_len)%nat then None
  else
    let date_raw := cell row i_date in
    let description_raw := cell row i_description in
    let credit_raw := cell row i_credit in
    let debit_raw := cell row i_debit in
    match date_raw, description_raw with
    | [], _ | _, [] => None
    | _ :: _, _ :: _ =>
        match parse_date date_raw with
        | None => None
        | Some date =>
            make_fields date description_raw
              (parse_brl_amount credit_raw) (parse_brl_amount debit_raw)
        end
    end.

Definition transactions_of (fields : option row_fields) : list Transaction :=
  match fields with
  | Some f => emit_transactions f
  | None => []
  end.

(** [parse_transactions_from_tables] (app.py, lines 174-254).  An empty
    [tables] has no header row.  The four lookups succeed exactly when
    [required_cols] is a subset of the keys of [col_map]. *)
Definition parse_transactions_from_tables (tables : list (list str))
    : list Transaction :=
  match find_header_from 0 tables with
  | None => []
  | Some header_row_index =>
      let header := default [] (tables !! header_row_index) in
      let col_map := build_col_map header in
      match col_map !! "date"%string, col_map !! "description"%string,
            col_map !! "credit"%string, col_map !! "debit"%string with
      | Some i_date, Some i_description, Some i_credit, Some i_debit =>
          flat_map
            (fun row =>
               transactions_of
                 (table_row_fields (length header)
                    i_date i_description i_credit i_debit row))
            (drop (S header_row_index) tables)
      | _, _, _, _ => []
      end
  end.

(** ** Text lines *)

(** [-?\d{1,3}(?:\.\d{3})*,\d{2}] *)
Definition money_pattern : regex :=
  Seq [ Rep (Chr (ch "-")) 0 (Some 1);
        Rep re_digit 1 (Some 3);
        Rep (Seq [Chr (ch "."); Rep re_digit 3 (Some 3)]) 0 None;
        Chr (ch ",");
        Rep re_digit 2 (Some 2) ].

(** The pattern of [re.match] on a line: a first group [\d{2}/\d{2}/\d{4}],
    then [\s+], then a second group of any characters up to a line feed. *)
Definition date_line_pattern : regex :=
  Seq [ Grp (Seq [ Rep re_digit 2 (Some 2); Chr (ch "/");
                   Rep re_digit 2 (Some 2); Chr (ch "/");
                   Rep re_digit 4 (Some 4) ]);
        Rep re_space 1 None;
        Grp (Rep re_dot 0 None) ].

Definition CREDIT_KEYWORDS : list str :=
  [lit "CREDITO"; lit "PIX RECEBIDO"; lit "DEPOSITO"].

(** [values[-k]] for [1 <= k <= len(values)]. *)
Definition from_end (values : list str) (k : nat) : str :=
  default [] (values !! (length values - k)%nat).

(** [parse_brl_amount(x) if x else None] *)
Definition parse_if_present (x : str) : option float :=
  match x with
  | [] => None
  | _ :: _ => parse_brl_amount x
  end.

(** The body of the line loop up to the two [append]s; [None] is a
    [continue]. *)
Definition line_fields (line : str) : option row_fields :=
  let raw := strip line in
  match raw with
  | [] => None
  | _ :: _ =>
      match re_match date_line_pattern raw with
      | Some (_, [date_raw; rest]) =>
          match parse_date date_raw with
          | None => None
          | Some date =>
              let upper_norm_rest := strip_accents (upper rest) in
              if startswith upper_norm_rest (lit "DATA ") then None
              else
                let money_matches := finditer money_pattern raw in
                match money_matches with
                | [] | [_] => None
                | (first_money_start, _) :: _ :: _ =>
                    let description_raw :=
                      strip (slice (length date_raw) first_money_start raw) in
                    let money_values :=
                      map (fun m => slice (fst m) (snd m) raw) money_matches in
                    let '(credit_raw, debit_raw) :=
                      if (3 <=? length money_values)%nat
                      then (from_end money_values 3, from_end money_values 2)
                      else
                        let candidate := from_end money_values 2 in
                        let desc_upper :=
                          strip_accents (upper description_raw) in
                        if existsb (fun key => contains key desc_upper)
                                   CREDIT_KEYWORDS
                        then (candidate, [])
                        else ([], candidate) in
                    make_fields date description_raw
                      (parse_if_present credit_raw)
                      (parse_if_present debit_raw)
                end
          end
      | _ => None
      end
  end.

(** [parse_transactions_from_text_lines] (app.py, lines 257-336). *)
Definition parse_transactions_from_text_lines (lines : list str)
    : list Transaction :=
  flat_map (fun line => transactions_of (line_fields line)) lines.

(* ===================================================================== *)
(** * The program: extraction and the fallback pipeline                   *)
(* ===================================================================== *)

(** An exception raised by an extraction library ([pdfplumber],
    [pdf2image], [pytesseract]); the pipeline has no handler for it. *)
Inductive exn : Type := Raised (what : string).

(** The extractor invocations, in the order they happen. *)
Inductive event : Type :=
  | Call_extract_tables
  | Call_extract_text_lines
  | Call_extract_text_with_ocr.

(** Computations that log the extractors they invoke and either return or
    raise: the log so far and the outcome. *)
Definition Run (A : Type) : Type := list event * (exn + A).

#[global] Instance Run_ret : MRet Run := fun A a => ([], inr a).

#[global] Instance Run_bind : MBind Run := fun A B f m =>
  match m with
  | (log, inl e) => (log, inl e)
  | (log, inr a) => let '(log', r) := f a in (log ++ log', r)
  end.

Definition invoked (ev : event) : Run unit := ([ev], inr tt).
Definition lift {A} (r : exn + A) : Run A := ([], r).

(** A [for] loop that extends a list with what each iteration yields. *)
Fixpoint for_each {A B} (body : A -> Run (list B)) (xs : list A)
    : Run (list B) :=
  match xs with
  | [] => mret []
  | x :: xs' =>
      ys ← body x;
      zs ← for_each body xs';
      mret (ys ++ zs)
  end.

Section Extraction.
Context {page image : Type}.

(** What the program uses of [pdfplumber]: the pages of a document opened
    from bytes, and the two extractions of a page (both may give [None]). *)
Record pdf_library : Type := mk_pdf_library {
  pdfplumber_pages : list Byte.byte -> exn + list page;
  page_extract_tables : page -> exn + option (list (list (list (option str))));
  page_extract_text : page -> exn + option str
}.

(** What the program uses of [pdf2image] and [pytesseract]. *)
Record ocr_library : Type := mk_ocr_library {
  convert_from_bytes : list Byte.byte -> exn + list image;
  image_to_string : image -> exn + str
}.

(** The libraries at hand; [ocr] is [None] when the optional import
    failed. *)
Record runtime : Type := mk_runtime {
  pdfplumber : pdf_library;
  ocr : option ocr_library
}.

(** The rows of one table that are kept: non-empty, with a cell that is
    not [None]; a [None] cell becomes the empty string. *)
Definition kept_rows (table : list (list (option str))) : list (list str) :=
  flat_map
    (fun row =>
       match row with
       | [] => []
       | _ :: _ =>
           if existsb (fun c => bool_decide (is_Some c)) row
           then [map (default []) row]
           else []
       end)
    table.

(** [extract_tables_from_pdf] (app.py, lines 142-151). *)
Definition extract_tables_from_pdf (rt : runtime)
    (file_bytes : list Byte.byte) : Run (list (list str)) :=
  invoked Call_extract_tables;;
  pages ← lift (pdfplumber_pages (pdfplumber rt) file_bytes);
  for_each
    (fun page =>
       page_tables ← lift (page_extract_tables (pdfplumber rt) page);
       mret (flat_map kept_rows (default [] page_tables)))
    pages.

(** [extract_text_lines_from_pdf] (app.py, lines 154-160). *)
Definition extract_text_lines_from_pdf (rt : runtime)
    (file_bytes : list Byte.byte) : Run (list str) :=
  invoked Call_extract_text_lines;;
  pages ← lift (pdfplumber_pages (pdfplumber rt) file_bytes);
  for_each
    (fun page =>
       text ← lift (page_extract_text (pdfplumber rt) page);
       mret (splitlines (default [] text)))
    pages.

(** [extract_text_with_ocr] (app.py, lines 163-171). *)
Definition extract_text_with_ocr (rt : runtime)
    (file_bytes : list Byte.byte) : Run (list str) :=
  invoked Call_extract_text_with_ocr;;
  match ocr rt with
  | None => mret []
  | Some lib =>
      images ← lift (convert_from_bytes lib file_bytes);
      for_each
        (fun img =>
           text ← lift (image_to_string lib img);
           mret (splitlines text))
        images
  end.

(** [parse_transactions_from_pdf] (app.py, lines 339-353): three plain
    calls in sequence, each result tested for emptiness. *)
Definition parse_transactions_from_pdf (rt : runtime)
    (file_bytes : list Byte.byte) : Run (list Transaction) :=
  tables ← extract_tables_from_pdf rt file_bytes;
  let transactions := parse_transactions_from_tables tables in
  match transactions with
  | _ :: _ => mret transactions
  | [] =>
      lines ← extract_text_lines_from_pdf rt file_bytes;
      let transactions := parse_transactions_from_text_lines lines in
      match transactions with
      | _ :: _ => mret transactions
      | [] =>
          ocr_lines ← extract_text_with_ocr rt file_bytes;
          match ocr_lines with
          | [] => mret []
          | _ :: _ => mret (parse_transactions_from_text_lines ocr_lines)
          end
      end
  end.

(** The attempt that raises [e] when the pipeline runs, with the log the
    pipeline has at that point. *)
Inductive attempt_raises (rt : runtime) (file_bytes : list Byte.byte)
    (e : exn) : list event -> Prop :=
  | table_attempt_raises :
      extract_tables_from_pdf rt file_bytes
        = ([Call_extract_tables], inl e) ->
      attempt_raises rt file_bytes e [Call_extract_tables]
  | text_attempt_raises tables :
      extract_tables_from_pdf rt file_bytes
        = ([Call_extract_tables], inr tables) ->
      parse_transactions_from_tables tables = [] ->
      extract_text_lines_from_pdf rt file_bytes
        = ([Call_extract_text_lines], inl e) ->
      attempt_raises rt file_bytes e
        [Call_extract_tables; Call_extract_text_lines]
  | ocr_attempt_raises tables lines :
      extract_tables_from_pdf rt file_bytes
        = ([Call_extract_tables], inr tables) ->
      parse_transactions_from_tables tables = [] ->
      extract_text_lines_from_pdf rt file_bytes
        = ([Call_extract_text_lines], inr lines) ->
      parse_transactions_from_text_lines lines = [] ->
      extract_text_with_ocr rt file_bytes
        = ([Call_extract_text_with_ocr], inl e) ->
      attempt_raises rt file_bytes e
        [Call_extract_tables; Call_extract_text_lines;
         Call_extract_text_with_ocr].
End Extraction.

Arguments pdf_library : clear implicits.
Arguments ocr_library : clear implicits.
Arguments runtime : clear implicits.

(* ===================================================================== *)
(** * The program: reports                                                *)
(* ===================================================================== *)

(** A row of the [transactions] table as [sqlite3.Row] gives it, with the
    columns that [init_db] declares (app.py, lines 64-77).  The [REAL]
    column [amount] comes back as a [float], which [float()] returns
    unchanged; the nullable [category] is [None] or a [str]. *)
Record stored_row : Type := mk_stored_row {
  row_id : Z;
  row_date : str;
  row_description_full : str;
  row_merchant_normalized : str;
  row_txn_type : str;
  row_amount : float;
  row_category : option str;
  row_created_at : str
}.

(** [x + y], [x < y] and [x == y] on floats. *)
Definition float_add (x y : float) : float := SFadd prec emax x y.
Definition float_lt (x y : float) : bool := SFltb x y.
Definition float_eq (x y : float) : bool := SFeqb x y.

(** [row["txn_type"] == "debit"] and [row["txn_type"] == "credit"] *)
Definition is_debit (row : stored_row) : bool :=
  bool_decide (row_txn_type row = lit "debit").
Definition is_credit (row : stored_row) : bool :=
  bool_decide (row_txn_type row = lit "credit").

(** [aggregate_totals] (app.py, lines 427-435): the pair
    [(total_spent, total_received)]. *)
Definition aggregate_totals (rows : list stored_row) : float * float :=
  foldl
    (fun totals row =>
       let '(total_spent, total_received) := totals in
       if is_debit row
       then (float_add total_spent (row_amount row), total_received)
       else if is_credit row
       then (total_spent, float_add total_received (row_amount row))
       else totals)
    (float_zero, float_zero) rows.

(** A [dict] from [str] to [float] with its insertion order: [agg.get(k)],
    and [agg[k] = v], which keeps the place of a key already present and
    appends a new one. *)
Fixpoint dict_get (agg : list (str * float)) (k : str) : option float :=
  match agg with
  | [] => None
  | (k', v) :: rest => if bool_decide (k' = k) then Some v else dict_get rest k
  end.

Fixpoint dict_set (agg : list (str * float)) (k : str) (v : float)
    : list (str * float) :=
  match agg with
  | [] => [(k, v)]
  | (k', v') :: rest =>
      if bool_decide (k' = k) then (k', v) :: rest
      else (k', v') :: dict_set rest k v
  end.

(** The loop that [aggregate_by_merchant] and [aggregate_by_category] share:
    a row that is not a debit is skipped, another one adds its amount to the
    total of its key. *)
Definition add_debit (key : stored_row -> str) (agg : list (str * float))
    (row : stored_row) : list (str * float) :=
  if negb (is_debit row) then agg
  else
    dict_set agg (key row)
      (float_add (default float_zero (dict_get agg (key row)))
                 (row_amount row)).

Definition debit_totals (key : stored_row -> str) (rows : list stored_row)
    : list (str * float) :=
  foldl (add_debit key) [] rows.

(** A stable sort by insertion: [x] goes before the first element that is
    greater. *)
Fixpoint insert_sorted {A} (lt : A -> A -> bool) (x : A) (l : list A)
    : list A :=
  match l with
  | [] => [x]
  | y :: rest => if lt x y then x :: l else y :: insert_sorted lt x rest
  end.

Definition stable_sort {A} (lt : A -> A -> bool) (l : list A) : list A :=
  foldl (fun acc x => insert_sorted lt x acc) [] l.

(** [sorted(items, key=lambda x: x[1], reverse=True)].  Python reverses the
    list, sorts it stably in ascending order with [<] on the keys, and
    reverses the result.  When no total is a NaN, [<] orders the totals and
    every stable sort gives the list that Python's gives; with a NaN among
    them the result of Python's sort is not determined by stability, and
    the properties of the order below are stated without NaN. *)
Definition sorted_by_total_desc (items : list (str * float))
    : list (str * float) :=
  rev (stable_sort (fun a b => float_lt (snd a) (snd b)) (rev items)).

(** [aggregate_by_merchant] (app.py, lines 438-446). *)
Definition aggregate_by_merchant (rows : list stored_row)
    : list (str * float) :=
  sorted_by_total_desc (debit_totals row_merchant_normalized rows).

(** [row["category"] or "Outros"] *)
Definition category_or_outros (row : stored_row) : str :=
  match row_category row with
  | Some (c :: cs) => c :: cs
  | Some [] | None => lit "Outros"
  end.

(** [aggregate_by_category] (app.py, lines 449-457). *)
Definition aggregate_by_category (rows : list stored_row)
    : list (str * float) :=
  sorted_by_total_desc (debit_totals category_or_outros rows).

(* ===================================================================== *)
(** * The program: the transaction query                                  *)
(* ===================================================================== *)

(** The truth value of an [Optional[str]]: [None] and the empty string are
    false. *)
Definition truthy (x : option str) : bool :=
  match x with
  | Some (_ :: _) => true
  | Some [] | None => false
  end.

(** [txn_type in ("credit", "debit")] *)
Definition is_txn_type (txn_type : option str) : bool :=
  bool_decide (txn_type = Some (lit "credit"))
  || bool_decide (txn_type = Some (lit "debit")).

(** One [if] of the query builder: when the filter is in force, its clause
    is appended to the text and its value to the parameters. *)
Definition add_filter (active : bool) (clause : string) (value : str)
    (statement : str * list str) : str * list str :=
  if active
  then (fst statement ++ lit clause, snd statement ++ [value])
  else statement.

(** The statement that [query_transactions] builds (app.py, lines 400-419):
    the SQL text and the values bound to its placeholders. *)
Definition query_and_params
    (start_date end_date txn_type merchant category : option str)
    : str * list str :=
  let statement := (lit "SELECT * FROM transactions WHERE 1=1", []) in
  let statement :=
    add_filter (truthy start_date) " AND date >= ?"
               (default [] start_date) statement in
  let statement :=
    add_filter (truthy end_date) " AND date <= ?"
               (default [] end_date) statement in
  let statement :=
    add_filter (is_txn_type txn_type) " AND txn_type = ?"
               (default [] txn_type) statement in
  let statement :=
    add_filter (truthy merchant) " AND merchant_normalized LIKE ?"
               (lit "%" ++ default [] merchant ++ lit "%") statement in
  let statement :=
    add_filter (truthy category) " AND IFNULL(category, '') = ?"
               (default [] category) statement in
  (fst statement ++ lit " ORDER BY date ASC, id ASC", snd statement).

(** [query_transactions] (app.py, lines 390-424), over what the database
    answers to [execute] followed by [fetchall]. *)
Definition query_transactions {row : Type}
    (execute : str -> list str -> list row)
    (start_date end_date txn_type merchant category : option str)
    : list row :=
  let '(query, params) :=
    query_and_params start_date end_date txn_type merchant category in
  execute query params.

(** How [index] prepares each filter (app.py, lines 462-474): an absent
    argument becomes the empty string, and the empty string becomes [None]
    in the call of [query_transactions]. *)
Definition or_empty (x : option str) : str := default [] x.
Definition or_none (x : str) : option str :=
  match x with
  | [] => None
  | _ :: _ => Some x
  end.

(* ===================================================================== *)
(** * The program: storing and uploading                                  *)
(* ===================================================================== *)

(** [str(n)] for a natural number: its decimal digits. *)
Fixpoint uint_digits (d : Decimal.uint) : str :=
  match d with
  | Decimal.Nil => []
  | Decimal.D0 d => ch "0" :: uint_digits d
  | Decimal.D1 d => ch "1" :: uint_digits d
  | Decimal.D2 d => ch "2" :: uint_digits d
  | Decimal.D3 d => ch "3" :: uint_digits d
  | Decimal.D4 d => ch "4" :: uint_digits d
  | Decimal.D5 d => ch "5" :: uint_digits d
  | Decimal.D6 d => ch "6" :: uint_digits d
  | Decimal.D7 d => ch "7" :: uint_digits d
  | Decimal.D8 d => ch "8" :: uint_digits d
  | Decimal.D9 d => ch "9" :: uint_digits d
  end.

Definition str_of_N (n : N) : str := uint_digits (N.to_uint n).

(** The conversion [%0<width>d] of a number that is not negative: the
    digits, padded with zeros on the left up to [width]. *)
Definition zero_padded (width : nat) (n : Z) : str :=
  let digits := str_of_N (Z.to_N n) in
  replicate (width - length digits) (ch "0") ++ digits.

(** [d.date().isoformat()], which is [%04d-%02d-%02d] of the year, the
    month and the day. *)
Definition date_isoformat (d : datetime) : str :=
  zero_padded 4 (year d) ++ lit "-" ++ zero_padded 2 (month d)
  ++ lit "-" ++ zero_padded 2 (day d).

(** [a < b] on [str]: the order of the code points, which is also the order
    of the UTF-8 bytes by which SQLite compares [TEXT]. *)
Fixpoint str_ltb (a b : str) : bool :=
  match a, b with
  | _, [] => false
  | [], _ :: _ => true
  | x :: a', y :: b' => (x <? y)%N || ((x =? y)%N && str_ltb a' b')
  end.

(** The text a [Transaction] carries in [txn_type]. *)
Definition txn_type_name (k : txn_kind) : str :=
  match k with
  | Credit => lit "credit"
  | Debit => lit "debit"
  end.

(** A value bound to a placeholder. *)
Inductive sql_value : Type :=
  | Sql_null
  | Sql_text (s : str)
  | Sql_real (x : float).

(** What [save_transactions] asks of the database, in order. *)
Inductive db_call : Type :=
  | Db_connect
  | Db_select_merchant_category
  | Db_insert_transaction (params : list sql_value)
  | Db_commit
  | Db_close.

(** The dict comprehension over the fetched rows of [merchant_category]: a
    later row replaces an earlier one of the same merchant. *)
Definition known_categories (fetched : list (str * str)) : gmap str str :=
  foldl (fun known row => <[fst row := snd row]> known) ∅ fetched.

(** The tuple bound to the [INSERT] of one transaction. *)
Definition insert_params (known : gmap str str) (now : str)
    (txn : Transaction) : list sql_value :=
  [ Sql_text (date_isoformat (date txn));
    Sql_text (description_full txn);
    Sql_text (merchant_normalized txn);
    Sql_text (txn_type_name (txn_type txn));
    Sql_real (amount txn);
    match known !! merchant_normalized txn with
    | Some category => Sql_text category
    | None => Sql_null
    end;
    Sql_text now ].

(** [save_transactions] (app.py, lines 356-387), given the rows that the
    [SELECT] fetches and the text of [datetime.utcnow().isoformat()].  The
    database is taken to accept every statement. *)
Definition save_transactions (fetched : list (str * str)) (now : str)
    (transactions : list Transaction) : list db_call :=
  match transactions with
  | [] => []
  | _ :: _ =>
      let known := known_categories fetched in
      [Db_connect; Db_select_merchant_category]
      ++ foldl (fun calls txn =>
                  calls ++ [Db_insert_transaction (insert_params known now txn)])
               [] transactions
      ++ [Db_commit; Db_close]
  end.

(** [str.lower], character by character; exact on U+0000..U+00FF.  No
    character other than [P], [D] and [F] lowers to text with one of the
    characters of [.pdf], so the test that [upload] makes on a file name is
    the one below for every name. *)
Definition lower_cp (c : N) : N :=
  if ((65 <=? c) && (c <=? 90)
      || (192 <=? c) && (c <=? 222) && negb (c =? 215))%N
  then (c + 32)%N else c.

Definition lower (s : str) : str := map lower_cp s.

Definition endswith (s suffix : str) : bool := startswith (rev s) (rev suffix).

(** An uploaded file: its name and what [read()] gives. *)
Record FileStorage : Type := mk_FileStorage {
  filename : str;
  read : list Byte.byte
}.

(** What [upload] does before it answers with the redirect: the messages it
    flashes, each with its category, and its call of [save_transactions]. *)
Inductive effect : Type :=
  | Flash (message category : str)
  | Save_transactions (transactions : list Transaction).

Section Upload.
Context {page image : Type}.

(** One iteration of the loop over the files: what it does, and what it
    adds to [all_transactions].  The [except Exception] clause catches what
    the extraction libraries raise. *)
Definition upload_file (rt : runtime page image) (f : FileStorage)
    : list effect * list Transaction :=
  if negb (endswith (lower (filename f)) (lit ".pdf"))
  then
    ([Flash (lit "Arquivo ignorado (n" ++ [227%N] ++ lit "o " ++ [233%N]
             ++ lit " PDF): " ++ filename f)
            (lit "warning")], [])
  else
    match snd (parse_transactions_from_pdf rt (read f)) with
    | inl _ =>
        ([Flash (lit "Erro ao processar PDF: " ++ filename f) (lit "danger")],
         [])
    | inr [] =>
        ([Flash (lit "Nenhuma transa" ++ [231%N; 227%N]
                 ++ lit "o encontrada em: " ++ filename f)
                (lit "warning")], [])
    | inr (txn :: txns) => ([], txn :: txns)
    end.

(** [upload] (app.py, lines 537-565); [files] is [None] when the request has
    no [pdf_files] part. *)
Definition upload (rt : runtime page image) (files : option (list FileStorage))
    : list effect :=
  match files with
  | None => [Flash (lit "Nenhum arquivo enviado.") (lit "danger")]
  | Some files =>
      let '(effects, all_transactions) :=
        foldl (fun state f =>
                 let '(effects, txns) := upload_file rt f in
                 (fst state ++ effects, snd state ++ txns))
              ([], []) files in
      effects
      ++ match all_transactions with
         | _ :: _ =>
             [Save_transactions all_transactions;
              Flash (str_of_N (N.of_nat (length all_transactions))
                     ++ lit " transa" ++ [231%N; 245%N]
                     ++ lit "es importadas com sucesso.")
                    (lit "success")]
         | [] =>
             [Flash (lit "Nenhuma transa" ++ [231%N; 227%N]
                     ++ lit "o importada.")
                    (lit "warning")]
         end
  end.
End Upload.

(* ===================================================================== *)
(** * Notions used to state the properties                                *)
(* ===================================================================== *)

(** The rows and lines the loops consume (do not skip), in input order. *)
Definition consumed_lines (lines : list str) : list row_fields :=
  omap line_fields lines.

Definition consumed_table_rows (tables : list (list str)) : list row_fields :=
  match find_header_from 0 tables with
  | None => []
  | Some header_row_index =>
      let header := default [] (tables !! header_row_index) in
      let col_map := build_col_map header in
      match col_map !! "date"%string, col_map !! "description"%string,
            col_map !! "credit"%string, col_map !! "debit"%string with
      | Some i_date, Some i_description, Some i_credit, Some i_debit =>
          omap (table_row_fields (length header)
                  i_date i_description i_credit i_debit)
               (drop (S header_row_index) tables)
      | _, _, _, _ => []
      end
  end.

(** A parsed amount has a non-zero magnitude when it is a number (finite or
    infinite) other than zero; a NaN has no magnitude. *)
Definition nonzero_magnitude (v : float) : Prop :=
  match v with
  | S754_zero _ | S754_nan => False
  | S754_infinity _ | S754_finite _ _ _ => True
  end.

(** [x > 0] *)
Definition positive_amount (x : float) : Prop :=
  float_gt x float_zero = true.

(** The normal binary64 value [m * 2^e], with [e <= 0], is the one nearest
    to the decimal [n / 10^k]: it is less than half a unit in the last place
    away from it. *)
Definition nearest_to_decimal (m : positive) (e : Z) (n k : Z) : Prop :=
  (e <= 0 /\ 0 <= k
   /\ 2 ^ 52 <= Z.pos m < 2 ^ 53
   /\ 2 * Z.abs (Z.pos m * 10 ^ k - n * 2 ^ (- e)) < 10 ^ k)%Z.

(** The two lines of [run_smoke_test]. *)
Definition smoke_test_lines : list str :=
  [ lit "15/12/2025 CREDITO DE SALARIO ACME LTDA        000000    000000      1.350,00      0,00   1.350,00";
    lit "17/12/2025 PIX ENVIADO STRIPE BRASIL SOLUCOES DE 000000  000000      0,00      119,90  -2.636,87" ].

(** A statement line whose credit column holds a negative value. *)
Definition reversal_line : str :=
  lit "15/12/2025 ESTORNO COMPRA -100,00 0,00 1.250,00".

(** A table whose only data row holds a negative value in the credit
    column. *)
Definition reversal_table : list (list str) :=
  [ [lit "Data"; lit "Descricao"; lit "Credito"; lit "Debito"];
    [lit "15/12/2025"; lit "ESTORNO COMPRA"; lit "-100,00"; lit "0,00"] ].

(** A line with a value in both the credit and the debit column. *)
Definition compound_line : str :=
  lit "16/12/2025 TRANSFERENCIA 10,00 20,00 1.250,00".

(** What [compound_line] provides once parsed. *)
Definition compound_fields : row_fields :=
  mk_row_fields (mk_datetime 2025 12 16 0 0 0 0)
    (lit "TRANSFERENCIA") (lit "TRANSFERENCIA")
    (Some (S754_finite false 5629499534213120 (-49)))
    (Some (S754_finite false 5629499534213120 (-48))).

(** The index of the last header cell that is stored under [key]. *)
Fixpoint last_role_index (key : string) (header : list str) : option nat :=
  match header with
  | [] => None
  | col :: rest =>
      match last_role_index key rest with
      | Some j => Some (S j)
      | None => if decide (column_role col = Some key) then Some 0%nat else None
      end
  end.

(** A header row with two cells that contain DATA. *)
Definition two_date_header : list str :=
  [lit "Data"; lit "Data Mov"; lit "Descricao"; lit "Credito"; lit "Debito"].

(** Text in which the only whitespace is single spaces: no other
    whitespace character and no two in a row.  [in_run] tells that the
    previous character was whitespace. *)
Fixpoint ws_normal_from (in_run : bool) (s : str) : bool :=
  match s with
  | [] => true
  | c :: s' =>
      if isspace c
      then N.eqb c 32 && negb in_run && ws_normal_from true s'
      else ws_normal_from false s'
  end.

(** The first character, if any, is not in the class [p]. *)
Definition head_ok (p : N -> bool) (s : str) : Prop :=
  match s with
  | [] => True
  | c :: _ => p c = false
  end.

(** The shape of every result of [normalize_merchant]: single spaces only,
    none at either end, and no character that [str.upper] would change. *)
Definition merchant_key (r : str) : Prop :=
  ws_normal_from false r = true
  /\ head_ok isspace r /\ head_ok isspace (rev r)
  /\ Forall (fun c => upper_cp c = [c]) r.

(** Runtimes for the examples: documents of one page, given by what the
    page extractions answer. *)
Definition one_page_runtime
    (tables : exn + option (list (list (list (option str)))))
    (text : exn + option str) : runtime unit unit :=
  mk_runtime
    (mk_pdf_library (fun _ => inr [tt]) (fun _ => tables) (fun _ => text))
    None.

Definition statement_table : list (list (option str)) :=
  [ [Some (lit "Data"); Some (lit "Descricao"); Some (lit "Credito");
     Some (lit "Debito")];
    [Some (lit "17/12/2025"); Some (lit "PIX ENVIADO STRIPE BRASIL");
     None; Some (lit "119,90")] ].

Definition statement_text : str :=
  lit "17/12/2025 PIX ENVIADO STRIPE BRASIL 0,00 119,90 -2.636,87".

(** The sign bit of a float; a NaN has none. *)
Definition sign_of (v : float) : option bool :=
  match v with
  | S754_nan => None
  | S754_zero s | S754_infinity s | S754_finite s _ _ => Some s
  end.

(** A consumed row's description is the trimmed, collapsed raw description
    and its merchant the normalised description. *)
Definition fields_ok (f : row_fields) : Prop :=
  (exists raw, rf_description_full f = strip (sub_ws raw))
  /\ rf_merchant f = normalize_merchant (rf_description_full f).

(** What holds of the description and the merchant of a parsed
    transaction. *)
Definition description_and_merchant_ok (t : Transaction) : Prop :=
  merchant_normalized t = normalize_merchant (description_full t)
  /\ strip (description_full t) = description_full t
  /\ sub_ws (description_full t) = description_full t.


(** The float sum of a list, from [0.0], left to right. *)
Definition float_sum (amounts : list float) : float :=
  foldl float_add float_zero amounts.

(** The amounts of the debit rows filed under [k], in row order. *)
Definition debit_amounts (key : stored_row -> str) (k : str)
    (rows : list stored_row) : list float :=
  map row_amount
      (List.filter (fun row => is_debit row && bool_decide (key row = k)) rows).

(** No element is followed by a smaller one. *)
Definition ascending {A} (lt : A -> A -> bool) : list A -> Prop :=
  StronglySorted (fun a b => lt b a = false).

(** The keys in the order of their first occurrence. *)
Definition first_seen (keys : list str) : list str :=
  foldl (fun seen k => if bool_decide (k ∈ seen) then seen else seen ++ [k])
        [] keys.

(** Stored rows for the examples: two merchants with the same total. *)
Definition report_rows : list stored_row :=
  [ mk_stored_row 1 (lit "2025-12-01") (lit "PIX ENVIADO PADARIA")
      (lit "PADARIA") (lit "debit") (decimal_to_float false 1050 (-2))
      None (lit "2025-12-20T10:00:00");
    mk_stored_row 2 (lit "2025-12-02") (lit "PIX RECEBIDO ACME")
      (lit "ACME") (lit "credit") (decimal_to_float false 135000 (-2))
      None (lit "2025-12-20T10:00:00");
    mk_stored_row 3 (lit "2025-12-03") (lit "COMPRA CARTAO MERCADO")
      (lit "MERCADO") (lit "debit") (decimal_to_float false 30000 (-2))
      (Some (lit "Alimentacao")) (lit "2025-12-20T10:00:00");
    mk_stored_row 4 (lit "2025-12-04") (lit "COMPRA CARTAO FARMACIA")
      (lit "FARMACIA") (lit "debit") (decimal_to_float false 1500 (-2))
      (Some []) (lit "2025-12-20T10:00:00");
    mk_stored_row 5 (lit "2025-12-05") (lit "PIX ENVIADO PADARIA")
      (lit "PADARIA") (lit "debit") (decimal_to_float false 450 (-2))
      None (lit "2025-12-20T10:00:00") ].

(** The number of [?] placeholders of an SQL text. *)
Definition placeholders (query : str) : nat :=
  length (List.filter (N.eqb (ch "?")) query).

(** [d1] is an earlier day than [d2]. *)
Definition earlier (d1 d2 : datetime) : bool :=
  ((year d1 <? year d2)
   || (year d1 =? year d2)
      && ((month d1 <? month d2)
          || (month d1 =? month d2) && (day d1 <? day d2)))%Z.

(** The digits of a number below 100, and of one below 10000. *)
Definition two_digits (n : Z) : str :=
  [Z.to_N (48 + n / 10); Z.to_N (48 + n mod 10)].
Definition four_digits (n : Z) : str :=
  [Z.to_N (48 + n / 1000); Z.to_N (48 + n / 100 mod 10);
   Z.to_N (48 + n / 10 mod 10); Z.to_N (48 + n mod 10)].

(** The parameters of a call, when it is an [INSERT]. *)
Definition inserted (c : db_call) : option (list sql_value) :=
  match c with
  | Db_insert_transaction params => Some params
  | _ => None
  end.

(** What a file contributes to an upload: the transactions of the pipeline
    when the name ends in [.pdf], in any case, and the pipeline returns. *)
Definition imported_from {page image} (rt : runtime page image)
    (f : FileStorage) : list Transaction :=
  if endswith (lower (filename f)) (lit ".pdf")
  then match snd (parse_transactions_from_pdf rt (read f)) with
       | inr txns => txns
       | inl _ => []
       end
  else [].

Definition contributes_nothing {page image} (rt : runtime page image)
    (f : FileStorage) : bool :=
  match imported_from rt f with
  | [] => true
  | _ :: _ => false
  end.

(** The lists that [save_transactions] was called with, and the flashed
    messages with their categories. *)
Definition saved (effects : list effect) : list (list Transaction) :=
  omap (fun e => match e with Save_transactions t => Some t | _ => None end)
       effects.
Definition flashed (effects : list effect) : list (str * str) :=
  omap (fun e => match e with Flash m c => Some (m, c) | _ => None end)
       effects.


(* ===================================================================== *)
(** * Properties of the locale parsers                                    *)
(* ===================================================================== *)

(** C3. [parse_date] of ["15/12/2025"] and of ["15/12/25"] is the date
    2025-12-15, and of ["31/02/2025"] it is [None].  In general the result
    is that of the day/month/four-digit-year format when it parses, else
    that of the day/month/two-digit-year format, and [None] when both
    fail. *)
Theorem parse_date_formats_in_order :
  parse_date (lit "15/12/2025") = Some (mk_datetime 2025 12 15 0 0 0 0)
  /\ parse_date (lit "15/12/25") = Some (mk_datetime 2025 12 15 0 0 0 0)
  /\ parse_date (lit "31/02/2025") = None
  /\ (forall raw d,
        strptime (strip raw) fmt_dmY = Some d -> parse_date raw = Some d)
  /\ (forall raw,
        strptime (strip raw) fmt_dmY = None ->
        parse_date raw = strptime (strip raw) fmt_dmy)
  /\ (forall raw,
        strptime (strip raw) fmt_dmY = None ->
        strptime (strip raw) fmt_dmy = None ->
        parse_date raw = None).
Proof.
  split; [vm_compute; reflexivity|].
  split; [vm_compute; reflexivity|].
  split; [vm_compute; reflexivity|].
  split; [|split].
  - intros raw d H. unfold parse_date. simpl. by rewrite H.
  - intros raw H. unfold parse_date. simpl. rewrite H.
    by destruct (strptime (strip raw) fmt_dmy).
  - intros raw H1 H2. unfold parse_date. simpl. by rewrite H1, H2.
Qed.


(* ===================================================================== *)
(** * Properties of the merchant normaliser                               *)
(* ===================================================================== *)

(** ** Character classes *)

Ltac bool_to_prop :=
  repeat match goal with
         | H : _ && _ = true |- _ => apply andb_true_iff in H; destruct H
         | H : _ || _ = true |- _ => apply orb_true_iff in H; destruct H
         | H : _ && _ = false |- _ => apply andb_false_iff in H; destruct H
         | H : _ || _ = false |- _ => apply orb_false_iff in H; destruct H
         | H : negb _ = true |- _ => apply negb_true_iff in H
         | H : negb _ = false |- _ => apply negb_false_iff in H
         | H : (_ <=? _)%N = true |- _ => apply N.leb_le in H
         | H : (_ <=? _)%N = false |- _ => apply N.leb_gt in H
         | H : (_ =? _)%N = true |- _ => apply N.eqb_eq in H
         | H : (_ =? _)%N = false |- _ => apply N.eqb_neq in H
         end.

Ltac split_ifs :=
  repeat match goal with
         | |- context [if ?b then _ else _] =>
             let E := fresh "E" in destruct b eqn:E
         end.

Ltac prove_not_space :=
  match goal with
  | |- isspace ?x = false =>
      let S := fresh "S" in
      destruct (isspace x) eqn:S; [exfalso|reflexivity];
      unfold isspace in *; bool_to_prop; lia
  end.

Lemma lookup_cp_In {A} c (table : list (N * A)) v :
  lookup_cp c table = Some v -> In (c, v) table.
Proof.
  unfold lookup_cp. destruct (List.find _ table) as [[k w]|] eqn:E;
    [|discriminate].
  intros [= <-]. apply find_some in E as [Hin Hk].
  apply N.eqb_eq in Hk. cbn [fst] in Hk. by subst k.
Qed.

Lemma upper_table_check :
  forallb
    (fun entry =>
       negb (isspace (fst entry))
       && match snd entry with [] => false | _ :: _ => true end
       && forallb
            (fun c' => negb (isspace c') && bool_decide (upper_cp c' = [c']))
            (snd entry))
    upper_table = true.
Proof. vm_compute. reflexivity. Qed.

Lemma upper_table_entry c u :
  lookup_cp c upper_table = Some u ->
  isspace c = false /\ u <> []
  /\ Forall (fun c' => isspace c' = false /\ upper_cp c' = [c']) u.
Proof.
  intros H. apply lookup_cp_In in H.
  pose proof upper_table_check as Hall. rewrite forallb_forall in Hall.
  specialize (Hall _ H). cbn [fst snd] in Hall.
  apply andb_true_iff in Hall as [Hall Hu].
  apply andb_true_iff in Hall as [Hc Hne].
  split; [by apply negb_true_iff in Hc|].
  split; [by destruct u|].
  apply Forall_forall. intros c' Hc'. apply list_elem_of_In in Hc'.
  rewrite forallb_forall in Hu. specialize (Hu _ Hc').
  apply andb_true_iff in Hu as [Hs Hf].
  split; [by apply negb_true_iff in Hs|by apply bool_decide_eq_true in Hf].
Qed.

Lemma upper_cp_low c :
  (c < 0xB5)%N -> negb ((97 <=? c) && (c <=? 122))%N = true ->
  upper_cp c = [c].
Proof.
  intros Hc Hr. unfold upper_cp.
  destruct (N.ltb_spec c 0xB5); [|lia].
  apply negb_true_iff in Hr. by rewrite Hr.
Qed.

Lemma upper_cp_space c : isspace c = true -> upper_cp c = [c].
Proof.
  intros H. unfold upper_cp.
  destruct (c <? 0xB5)%N eqn:Hlow.
  - destruct ((97 <=? c) && (c <=? 122))%N eqn:E; [|reflexivity].
    exfalso. unfold isspace in H. bool_to_prop; lia.
  - destruct (lookup_cp c upper_table) as [u|] eqn:E; [|reflexivity].
    apply upper_table_entry in E as [Hc _]. congruence.
Qed.

Lemma upper_cp_word c :
  isspace c = false ->
  upper_cp c <> [] /\ Forall (fun c' => isspace c' = false) (upper_cp c).
Proof.
  intros H. unfold upper_cp.
  destruct (c <? 0xB5)%N eqn:Hlow.
  - destruct ((97 <=? c) && (c <=? 122))%N eqn:E.
    + split; [discriminate|]. repeat constructor.
      bool_to_prop. clear H. prove_not_space.
    + split; [discriminate|]. by repeat constructor.
  - destruct (lookup_cp c upper_table) as [u|] eqn:E.
    + apply upper_table_entry in E as (_ & Hne & Hu).
      split; [exact Hne|]. eapply Forall_impl; [exact Hu|]. by intros ? [? _].
    + split; [discriminate|]. by repeat constructor.
Qed.

Lemma upper_cp_fixed c : Forall (fun c' => upper_cp c' = [c']) (upper_cp c).
Proof.
  unfold upper_cp at 2.
  destruct (c <? 0xB5)%N eqn:Hlow.
  - apply N.ltb_lt in Hlow.
    destruct ((97 <=? c) && (c <=? 122))%N eqn:E.
    + repeat constructor. bool_to_prop.
      apply upper_cp_low; [lia|].
      apply negb_true_iff, andb_false_iff. left. apply N.leb_gt. lia.
    + repeat constructor. apply upper_cp_low; [exact Hlow|by rewrite E].
  - destruct (lookup_cp c upper_table) as [u|] eqn:E.
    + apply upper_table_entry in E as (_ & _ & Hu).
      eapply Forall_impl; [exact Hu|]. by intros ? [_ ?].
    + repeat constructor. unfold upper_cp. by rewrite Hlow, E.
Qed.

(** ** Text with single spaces only *)
Lemma sub_ws_from_normal s : forall b, ws_normal_from b (sub_ws_from b s) = true.
Proof.
  induction s as [|c s IH]; intros b; simpl; [reflexivity|].
  destruct (isspace c) eqn:Hc.
  - destruct b; [apply IH|]. simpl. rewrite (IH true). reflexivity.
  - simpl. rewrite Hc. apply IH.
Qed.

Lemma sub_ws_from_id s : forall b, ws_normal_from b s = true -> sub_ws_from b s = s.
Proof.
  induction s as [|c s IH]; intros b; simpl; [reflexivity|].
  destruct (isspace c) eqn:Hc; intros H.
  - bool_to_prop. subst c. destruct b; [discriminate|]. by rewrite IH.
  - by rewrite IH.
Qed.

Lemma ws_normal_weaken s b : ws_normal_from b s = true -> ws_normal_from false s = true.
Proof.
  destruct s as [|c s]; simpl; [done|].
  destruct (isspace c); [|done]. intros H. bool_to_prop. subst.
  by rewrite N.eqb_refl.
Qed.

Lemma ws_normal_app_r s1 : forall b s2,
  ws_normal_from b (s1 ++ s2) = true -> ws_normal_from false s2 = true.
Proof.
  induction s1 as [|c s1 IH]; intros b s2; simpl.
  - apply ws_normal_weaken.
  - destruct (isspace c); intros H; [bool_to_prop|]; eauto.
Qed.

Lemma ws_normal_app_l s1 : forall b s2,
  ws_normal_from b (s1 ++ s2) = true -> ws_normal_from b s1 = true.
Proof.
  induction s1 as [|c s1 IH]; intros b s2; simpl; [done|].
  destruct (isspace c); intros H; [bool_to_prop|]; [|eauto].
  subst. rewrite N.eqb_refl. simpl. eauto.
Qed.

Lemma ws_normal_spaces s : forall b,
  ws_normal_from b s = true -> Forall (fun c => isspace c = true -> c = 32%N) s.
Proof.
  induction s as [|c s IH]; intros b; simpl; [constructor|].
  destruct (isspace c) eqn:Hc; intros H; [bool_to_prop|]; constructor; eauto.
  all: try congruence.
Qed.

(** ** Stripping both ends *)
Lemma takewhile_dropwhile p s : takewhile p s ++ dropwhile p s = s.
Proof. induction s as [|c s IH]; simpl; [done|]. destruct (p c); simpl; congruence. Qed.

Lemma strip_by_middle p s : exists a z, s = a ++ strip_by p s ++ z.
Proof.
  unfold strip_by, rstrip_by, lstrip_by.
  exists (takewhile p s), (rev (takewhile p (rev (dropwhile p s)))).
  rewrite <- rev_app_distr, takewhile_dropwhile, rev_involutive.
  by rewrite takewhile_dropwhile.
Qed.

Lemma strip_by_normal p s b :
  ws_normal_from b s = true -> ws_normal_from false (strip_by p s) = true.
Proof.
  destruct (strip_by_middle p s) as (a & z & E). intros H. rewrite E in H.
  apply ws_normal_app_r in H. by apply ws_normal_app_l in H.
Qed.

Lemma strip_by_Forall (P : N -> Prop) p s : Forall P s -> Forall P (strip_by p s).
Proof.
  destruct (strip_by_middle p s) as (a & z & E). intros H. rewrite E in H.
  apply Forall_app in H as [_ H]. by apply Forall_app in H as [H _].
Qed.

Lemma strip_by_length p s : (length (strip_by p s) <= length s)%nat.
Proof.
  destruct (strip_by_middle p s) as (a & z & E).
  rewrite E at 2. rewrite !length_app. lia.
Qed.

Lemma head_ok_dropwhile p s : head_ok p (dropwhile p s).
Proof.
  induction s as [|c s IH]; simpl; [done|]. destruct (p c) eqn:E; [done|exact E].
Qed.

Lemma dropwhile_head_ok p s : head_ok p s -> dropwhile p s = s.
Proof. destruct s as [|c s]; simpl; [done|]. by intros ->. Qed.

Lemma head_ok_app_l p a b : head_ok p (a ++ b) -> head_ok p a.
Proof. by destruct a. Qed.

Lemma strip_by_id p s : head_ok p s -> head_ok p (rev s) -> strip_by p s = s.
Proof.
  intros H1 H2. unfold strip_by, rstrip_by, lstrip_by.
  rewrite (dropwhile_head_ok p s H1), (dropwhile_head_ok p (rev s) H2).
  apply rev_involutive.
Qed.

Lemma strip_by_head_ok p s :
  head_ok p (strip_by p s) /\ head_ok p (rev (strip_by p s)).
Proof.
  unfold strip_by, rstrip_by, lstrip_by. split.
  - pose proof (head_ok_dropwhile p s) as H.
    rewrite <- (rev_involutive (dropwhile p s)) in H.
    rewrite <- (takewhile_dropwhile p (rev (dropwhile p s))) in H.
    rewrite rev_app_distr in H. by apply head_ok_app_l in H.
  - rewrite rev_involutive. apply head_ok_dropwhile.
Qed.

(** ** Upper-casing a text *)
Lemma ws_normal_word_app l : forall b t,
  l <> [] -> Forall (fun c => isspace c = false) l ->
  ws_normal_from b (l ++ t) = ws_normal_from false t.
Proof.
  induction l as [|c l IH]; intros b t Hne Hl; [done|].
  apply Forall_cons in Hl as [Hc Hl]. simpl. rewrite Hc.
  destruct l as [|c' l']; [reflexivity|]. by apply IH.
Qed.

Lemma upper_normal s : forall b, ws_normal_from b (upper s) = ws_normal_from b s.
Proof.
  induction s as [|c s IH]; intros b; [reflexivity|].
  change (upper (c :: s)) with (upper_cp c ++ upper s).
  destruct (isspace c) eqn:Hc.
  - rewrite (upper_cp_space c Hc). simpl. by rewrite Hc, IH.
  - destruct (upper_cp_word c Hc) as [Hne Hl].
    rewrite (ws_normal_word_app _ b _ Hne Hl). simpl. by rewrite Hc, IH.
Qed.

Lemma upper_head_ok s : head_ok isspace s -> head_ok isspace (upper s).
Proof.
  destruct s as [|c s]; [done|]. simpl. intros Hc.
  destruct (upper_cp_word c Hc) as [Hne Hl].
  destruct (upper_cp c) as [|c' l]; [done|]. simpl.
  by apply Forall_cons in Hl as [Hc' _].
Qed.

Lemma upper_last_ok s : head_ok isspace (rev s) -> head_ok isspace (rev (upper s)).
Proof.
  destruct s as [|c s _] using rev_ind; [done|].
  rewrite rev_app_distr. simpl. intros Hc.
  unfold upper. rewrite flat_map_app. simpl. rewrite app_nil_r, rev_app_distr.
  destruct (upper_cp_word c Hc) as [Hne Hl].
  apply Forall_rev in Hl.
  destruct (rev (upper_cp c)) as [|c' l] eqn:E.
  - apply (f_equal (@rev N)) in E. rewrite rev_involutive in E. done.
  - simpl. by apply Forall_cons in Hl as [Hc' _].
Qed.

Lemma upper_is_fixed s : Forall (fun c => upper_cp c = [c]) (upper s).
Proof.
  induction s as [|c s IH]; [constructor|].
  change (upper (c :: s)) with (upper_cp c ++ upper s).
  apply Forall_app. split; [apply upper_cp_fixed|exact IH].
Qed.

Lemma upper_fixed_id s : Forall (fun c => upper_cp c = [c]) s -> upper s = s.
Proof.
  induction 1 as [|c s Hc _ IH]; [reflexivity|].
  change (upper (c :: s)) with (upper_cp c ++ upper s). by rewrite Hc, IH.
Qed.

(** ** Prefixes and lengths *)
Lemma startswith_length p : forall s, startswith s p = true -> (length p <= length s)%nat.
Proof.
  induction p as [|c p IH]; intros s; simpl; [lia|].
  destruct s as [|c' s]; [discriminate|]. intros H.
  apply andb_true_iff in H as [_ H]. apply IH in H. simpl. lia.
Qed.

Lemma sub_ws_from_length s : forall b, (length (sub_ws_from b s) <= length s)%nat.
Proof.
  induction s as [|c s IH]; intros b; simpl; [lia|].
  pose proof (IH true). pose proof (IH false).
  destruct (isspace c); [destruct b|]; simpl; lia.
Qed.

Lemma find_None_existsb {A} (f : A -> bool) l :
  List.find f l = None <-> existsb f l = false.
Proof.
  induction l as [|x l IH]; simpl; [done|]. destruct (f x); simpl; [done|exact IH].
Qed.

Lemma merchant_key_text x :
  merchant_key (upper (strip (sub_ws x))).
Proof.
  destruct (strip_by_head_ok isspace (sub_ws x)) as [H1 H2].
  repeat split.
  - rewrite upper_normal. apply (strip_by_normal _ _ false), sub_ws_from_normal.
  - by apply upper_head_ok.
  - by apply upper_last_ok.
  - apply upper_is_fixed.
Qed.

Lemma merchant_key_stable r :
  merchant_key r -> upper (strip (sub_ws r)) = r /\ sub_ws r = r.
Proof.
  intros (H1 & H2 & H3 & H4).
  assert (Hs : sub_ws r = r) by (by apply sub_ws_from_id).
  split; [|exact Hs]. rewrite Hs. unfold strip. rewrite strip_by_id by done.
  by apply upper_fixed_id.
Qed.

Lemma head_ok_space_of_chars (s : str) :
  Forall (fun c => isspace c = true -> c = 32%N) s ->
  head_ok (mem_chars (lit " -:/")) s -> head_ok isspace s.
Proof.
  destruct s as [|c s]; [done|]. simpl. intros H Hc.
  apply Forall_cons in H as [H _].
  destruct (isspace c); [|reflexivity].
  rewrite (H eq_refl) in Hc. discriminate.
Qed.

Lemma merchant_key_trimmed k u :
  merchant_key u -> merchant_key (strip_chars (lit " -:/") (drop k u)).
Proof.
  intros (H1 & _ & _ & H4).
  assert (Hd : ws_normal_from false (drop k u) = true).
  { rewrite <- (take_drop k u) in H1. by apply ws_normal_app_r in H1. }
  assert (Hn : ws_normal_from false (strip_chars (lit " -:/") (drop k u)) = true)
    by (by apply (strip_by_normal _ _ false)).
  destruct (strip_by_head_ok (mem_chars (lit " -:/")) (drop k u)) as [G1 G2].
  pose proof (ws_normal_spaces _ _ Hn) as Hsp.
  repeat split.
  - exact Hn.
  - by apply head_ok_space_of_chars.
  - apply head_ok_space_of_chars; [by apply Forall_rev|exact G2].
  - apply strip_by_Forall. rewrite <- (take_drop k u) in H4.
    by apply Forall_app in H4 as [_ H4].
Qed.

Lemma normalize_merchant_key x : merchant_key (normalize_merchant x).
Proof.
  unfold normalize_merchant.
  pose proof (merchant_key_text x) as Hu.
  destruct (List.find _ _) as [p|].
  - pose proof (merchant_key_trimmed (length p) _ Hu) as Hv.
    by rewrite (proj2 (merchant_key_stable _ Hv)).
  - by rewrite (proj2 (merchant_key_stable _ Hu)).
Qed.

Lemma normalize_merchant_fixed_iff r :
  merchant_key r ->
  normalize_merchant r = r <->
  existsb (fun prefix => startswith r prefix) NORMALIZATION_PREFIXES = false.
Proof.
  intros Hr. destruct (merchant_key_stable r Hr) as [Hu Hs].
  unfold normalize_merchant. rewrite Hu, <- find_None_existsb.
  destruct (List.find _ _) as [p|] eqn:E.
  - split; [|discriminate]. intros Heq. exfalso.
    apply find_some in E as [Hin Hp].
    assert (Hlen : (0 < length p)%nat).
    { revert Hin. clear. unfold NORMALIZATION_PREFIXES. simpl.
      intros H. repeat (destruct H as [<-|H]; [vm_compute; lia|]). destruct H. }
    apply startswith_length in Hp.
    apply (f_equal (@length N)) in Heq.
    pose proof (sub_ws_from_length (strip_chars (lit " -:/") (drop (length p) r)) false) as L1.
    pose proof (strip_by_length (mem_chars (lit " -:/")) (drop (length p) r)) as L2.
    rewrite length_drop in L2. unfold sub_ws, strip_chars in *. lia.
  - split; [done|]. intros _. exact Hs.
Qed.

(** C7, amended. A second application of [normalize_merchant] changes
    nothing exactly when the first result does not itself begin with one of
    the known prefixes (when it does, the second application strips that
    prefix too); and [normalize_merchant] of ["PIX ENVIADO STRIPE BRASIL"]
    is ["STRIPE BRASIL"]. *)
Theorem normalize_merchant_idempotent_iff :
  (forall x,
     normalize_merchant (normalize_merchant x) = normalize_merchant x <->
     existsb (fun prefix => startswith (normalize_merchant x) prefix)
             NORMALIZATION_PREFIXES = false)
  /\ normalize_merchant (lit "PIX ENVIADO STRIPE BRASIL") = lit "STRIPE BRASIL".
Proof.
  split; [|vm_compute; reflexivity].
  intros x. apply normalize_merchant_fixed_iff, normalize_merchant_key.
Qed.

(** C7, as stated, fails: one application strips one prefix only, so on
    ["PIX ENVIADO PIX ENVIADO STRIPE"] the second application differs from
    the first. *)
Lemma normalize_merchant_not_idempotent :
  ~ (forall x, normalize_merchant (normalize_merchant x) = normalize_merchant x).
Proof.
  intros H. specialize (H (lit "PIX ENVIADO PIX ENVIADO STRIPE")).
  vm_compute in H. discriminate.
Qed.

(* ===================================================================== *)
(** * Properties of transaction synthesis                                 *)
(* ===================================================================== *)

Lemma smoke_test_transactions :
  parse_transactions_from_text_lines smoke_test_lines
  = [ mk_Transaction (mk_datetime 2025 12 15 0 0 0 0)
        (lit "CREDITO DE SALARIO ACME LTDA 000000 000000")
        (lit "ACME LTDA 000000 000000")
        Credit (S754_finite false 5937362789990400 (-42)) None;
      mk_Transaction (mk_datetime 2025 12 17 0 0 0 0)
        (lit "PIX ENVIADO STRIPE BRASIL SOLUCOES DE 000000 000000")
        (lit "STRIPE BRASIL SOLUCOES DE 000000 000000")
        Debit (S754_finite false 8437212426901914 (-46)) None ].
Proof. vm_compute. reflexivity. Qed.

(** C4, as stated, fails: no transaction parsed from the two seed lines is a
    credit whose [merchant_normalized] is ["ACME LTDA"]. *)
Lemma seed_credit_merchant_is_not_ACME_LTDA :
  ~ (exists t, In t (parse_transactions_from_text_lines smoke_test_lines)
               /\ txn_type t = Credit
               /\ merchant_normalized t = lit "ACME LTDA").
Proof.
  rewrite smoke_test_transactions. intros (t & Hin & Hty & Hm).
  simpl in Hin. destruct Hin as [<- | [<- | []]];
    [vm_compute in Hm | vm_compute in Hty]; discriminate.
Qed.

(** C4, amended. The two seed lines give exactly two transactions: a credit
    of 1350.00 dated 2025-12-15 and a debit of 119.90 dated 2025-12-17.
    The description runs up to the first amount, so the two document-number
    columns stay in it: [merchant_normalized] is
    ["ACME LTDA 000000 000000"] for the credit and
    ["STRIPE BRASIL SOLUCOES DE 000000 000000"] for the debit. *)
Theorem seed_lines_transactions :
  parse_transactions_from_text_lines smoke_test_lines
  = [ mk_Transaction (mk_datetime 2025 12 15 0 0 0 0)
        (lit "CREDITO DE SALARIO ACME LTDA 000000 000000")
        (lit "ACME LTDA 000000 000000")
        Credit (S754_finite false 5937362789990400 (-42)) None;
      mk_Transaction (mk_datetime 2025 12 17 0 0 0 0)
        (lit "PIX ENVIADO STRIPE BRASIL SOLUCOES DE 000000 000000")
        (lit "STRIPE BRASIL SOLUCOES DE 000000 000000")
        Debit (S754_finite false 8437212426901914 (-46)) None ]
  /\ nearest_to_decimal 5937362789990400 (-42) 135000 2
  /\ nearest_to_decimal 8437212426901914 (-46) 11990 2.
Proof.
  split; [exact smoke_test_transactions|].
  split; vm_compute; intuition congruence.
Qed.

(** What the two guards do ensure: a debit transaction has a positive
    amount, and every amount has a non-zero magnitude. *)
Lemma emitted_amounts (f : row_fields) (t : Transaction) :
  In t (emit_transactions f) ->
  nonzero_magnitude (amount t)
  /\ (txn_type t = Debit -> positive_amount (amount t)).
Proof.
  unfold emit_transactions. intros H. apply in_app_or in H.
  destruct H as [H|H].
  - destruct (rf_debit f) as [d|]; [|destruct H].
    destruct (float_gt (float_abs d) float_zero) eqn:G; [|destruct H].
    destruct H as [<-|[]]. simpl. split; [|by intros _].
    destruct d as [[]|[]| |[] m e]; simpl in *; done.
  - destruct (rf_credit f) as [c|]; [|destruct H].
    destruct (float_gt (float_abs c) float_zero) eqn:G; [|destruct H].
    destruct H as [<-|[]]. simpl. split; [|discriminate].
    destruct c as [[]|[]| |[] m e]; simpl in *; done.
Qed.

(** C1 fails on the code. A negative value in the credit column passes the
    guard [abs(credit) > 0] and is stored as it is, so the credit
    transaction carries the amount -100.0; the debit branch stores
    [abs(debit)].  Both parsers do so. *)
Theorem negative_credit_is_emitted :
  parse_transactions_from_text_lines [reversal_line]
  = [ mk_Transaction (mk_datetime 2025 12 15 0 0 0 0)
        (lit "ESTORNO COMPRA") (lit "ESTORNO COMPRA")
        Credit (S754_finite true 7036874417766400 (-46)) None ]
  /\ parse_transactions_from_tables reversal_table
    = [ mk_Transaction (mk_datetime 2025 12 15 0 0 0 0)
          (lit "ESTORNO COMPRA") (lit "ESTORNO COMPRA")
          Credit (S754_finite true 7036874417766400 (-46)) None ]
  /\ nearest_to_decimal 7036874417766400 (-46) 10000 2
  /\ ~ positive_amount (S754_finite true 7036874417766400 (-46))
  /\ ~ (forall lines t,
          In t (parse_transactions_from_text_lines lines) ->
          positive_amount (amount t)).
Proof.
  assert (Hl : parse_transactions_from_text_lines [reversal_line]
               = [ mk_Transaction (mk_datetime 2025 12 15 0 0 0 0)
                     (lit "ESTORNO COMPRA") (lit "ESTORNO COMPRA")
                     Credit (S754_finite true 7036874417766400 (-46)) None ])
    by (vm_compute; reflexivity).
  split; [exact Hl|].
  split; [vm_compute; reflexivity|].
  split; [vm_compute; intuition congruence|].
  split; [vm_compute; discriminate|].
  intros H. specialize (H [reversal_line] _ ltac:(rewrite Hl; left; reflexivity)).
  vm_compute in H. discriminate.
Qed.

Lemma flat_map_transactions_of {A} (g : A -> option row_fields) (l : list A) :
  flat_map (fun x => transactions_of (g x)) l
  = flat_map emit_transactions (omap g l).
Proof.
  induction l as [|x l IH]; simpl; [reflexivity|].
  rewrite IH. destruct (g x); reflexivity.
Qed.

(** Both parsers return what the rows they consume emit, in input order. *)
Lemma parse_text_lines_consumed lines :
  parse_transactions_from_text_lines lines
  = flat_map emit_transactions (consumed_lines lines).
Proof. apply flat_map_transactions_of. Qed.

Lemma parse_tables_consumed tables :
  parse_transactions_from_tables tables
  = flat_map emit_transactions (consumed_table_rows tables).
Proof.
  unfold parse_transactions_from_tables, consumed_table_rows.
  destruct (find_header_from 0 tables) as [h|]; [|reflexivity].
  simpl.
  repeat (match goal with
          | |- context [match ?m !! ?k with _ => _ end] => destruct (m !! k)
          end; try reflexivity).
  apply flat_map_transactions_of.
Qed.

Lemma flat_map_emit_middle before f after :
  flat_map emit_transactions (before ++ f :: after)
  = flat_map emit_transactions before ++ emit_transactions f
    ++ flat_map emit_transactions after.
Proof. by rewrite flat_map_app. Qed.

Lemma guard_iff_nonzero_magnitude v :
  float_gt (float_abs v) float_zero = true <-> nonzero_magnitude v.
Proof. destruct v as [[]|[]| |[] m e]; simpl; intuition discriminate. Qed.

(** C5. A consumed table row or text line whose parsed credit and debit
    both have a non-zero magnitude emits exactly two transactions; they have
    the same date, [description_full], [merchant_normalized] (and category)
    and differ in [txn_type].  These two stand, next to each other, at the
    row's place in what either parser returns. *)
Theorem credit_and_debit_give_two_transactions (f : row_fields) (c d : float) :
  rf_credit f = Some c -> rf_debit f = Some d ->
  nonzero_magnitude c -> nonzero_magnitude d ->
  exists t1 t2,
    emit_transactions f = [t1; t2]
    /\ date t1 = date t2
    /\ description_full t1 = description_full t2
    /\ merchant_normalized t1 = merchant_normalized t2
    /\ category t1 = category t2
    /\ txn_type t1 <> txn_type t2
    /\ (forall tables before after,
          consumed_table_rows tables = before ++ f :: after ->
          parse_transactions_from_tables tables
          = flat_map emit_transactions before ++ [t1; t2]
            ++ flat_map emit_transactions after)
    /\ (forall lines before after,
          consumed_lines lines = before ++ f :: after ->
          parse_transactions_from_text_lines lines
          = flat_map emit_transactions before ++ [t1; t2]
            ++ flat_map emit_transactions after).
Proof.
  intros Hc Hd Hnc Hnd.
  apply guard_iff_nonzero_magnitude in Hnc, Hnd.
  assert (He : emit_transactions f
               = [ mk_Transaction (rf_date f) (rf_description_full f)
                     (rf_merchant f) Debit (float_abs d) None;
                   mk_Transaction (rf_date f) (rf_description_full f)
                     (rf_merchant f) Credit c None ]).
  { unfold emit_transactions. rewrite Hc, Hd, Hnc, Hnd. reflexivity. }
  eexists _, _. split; [exact He|].
  repeat (split; [reflexivity || discriminate|]).
  split.
  - intros tables before after H.
    by rewrite parse_tables_consumed, H, flat_map_emit_middle, He.
  - intros lines before after H.
    by rewrite parse_text_lines_consumed, H, flat_map_emit_middle, He.
Qed.

Lemma credit_and_debit_give_two_transactions_witness :
  line_fields compound_line = Some compound_fields
  /\ exists t1 t2,
       emit_transactions compound_fields = [t1; t2]
       /\ date t1 = date t2
       /\ description_full t1 = description_full t2
       /\ merchant_normalized t1 = merchant_normalized t2
       /\ category t1 = category t2
       /\ txn_type t1 <> txn_type t2
       /\ (forall tables before after,
             consumed_table_rows tables
             = before ++ compound_fields :: after ->
             parse_transactions_from_tables tables
             = flat_map emit_transactions before ++ [t1; t2]
               ++ flat_map emit_transactions after)
       /\ (forall lines before after,
             consumed_lines lines = before ++ compound_fields :: after ->
             parse_transactions_from_text_lines lines
             = flat_map emit_transactions before ++ [t1; t2]
               ++ flat_map emit_transactions after).
Proof.
  split; [vm_compute; reflexivity|].
  exact (credit_and_debit_give_two_transactions compound_fields _ _
           eq_refl eq_refl I I).
Defined.

(** C10. When a consumed table row or text line yields both a debit and a
    credit transaction, these two are all it yields, the debit first; in
    what either parser returns the debit stands immediately before the
    credit. *)
Theorem debit_is_appended_before_credit (f : row_fields)
    (td tc : Transaction) :
  In td (emit_transactions f) -> txn_type td = Debit ->
  In tc (emit_transactions f) -> txn_type tc = Credit ->
  emit_transactions f = [td; tc]
  /\ (forall tables before after,
        consumed_table_rows tables = before ++ f :: after ->
        parse_transactions_from_tables tables
        = flat_map emit_transactions before ++ [td; tc]
          ++ flat_map emit_transactions after)
  /\ (forall lines before after,
        consumed_lines lines = before ++ f :: after ->
        parse_transactions_from_text_lines lines
        = flat_map emit_transactions before ++ [td; tc]
          ++ flat_map emit_transactions after).
Proof.
  intros Hd Htd Hc Htc.
  assert (He : emit_transactions f = [td; tc]).
  { revert Hd Hc. unfold emit_transactions.
    destruct (rf_debit f) as [d|];
      [destruct (float_gt (float_abs d) float_zero)|];
      (destruct (rf_credit f) as [c|];
       [destruct (float_gt (float_abs c) float_zero)|]);
      simpl; intros Hd Hc;
      repeat match goal with
             | H : _ \/ _ |- _ => destruct H
             | H : False |- _ => destruct H
             end;
      subst; simpl in *; try discriminate; reflexivity. }
  split; [exact He|]. split.
  - intros tables before after H.
    by rewrite parse_tables_consumed, H, flat_map_emit_middle, He.
  - intros lines before after H.
    by rewrite parse_text_lines_consumed, H, flat_map_emit_middle, He.
Qed.

Lemma debit_is_appended_before_credit_witness :
  line_fields compound_line = Some compound_fields
  /\ parse_transactions_from_text_lines [compound_line]
     = [ mk_Transaction (mk_datetime 2025 12 16 0 0 0 0)
           (lit "TRANSFERENCIA") (lit "TRANSFERENCIA")
           Debit (S754_finite false 5629499534213120 (-48)) None;
         mk_Transaction (mk_datetime 2025 12 16 0 0 0 0)
           (lit "TRANSFERENCIA") (lit "TRANSFERENCIA")
           Credit (S754_finite false 5629499534213120 (-49)) None ].
Proof.
  split; [vm_compute; reflexivity|].
  refine (proj2 (proj2
    (debit_is_appended_before_credit compound_fields
       (mk_Transaction (mk_datetime 2025 12 16 0 0 0 0)
          (lit "TRANSFERENCIA") (lit "TRANSFERENCIA")
          Debit (S754_finite false 5629499534213120 (-48)) None)
       (mk_Transaction (mk_datetime 2025 12 16 0 0 0 0)
          (lit "TRANSFERENCIA") (lit "TRANSFERENCIA")
          Credit (S754_finite false 5629499534213120 (-49)) None)
       _ eq_refl _ eq_refl)) [compound_line] [] [] _).
  - left. reflexivity.
  - right. left. reflexivity.
  - vm_compute. reflexivity.
Defined.

(* ===================================================================== *)
(** * Properties of the column mapping                                    *)
(* ===================================================================== *)

Lemma assign_column_lookup m i col key :
  assign_column m i col !! key
  = if decide (column_role col = Some key) then Some i else m !! key.
Proof.
  unfold assign_column. destruct (column_role col) as [k|] eqn:E.
  - destruct (decide (Some k = Some key)) as [[= ->]|Hne].
    + apply lookup_insert_eq.
    + apply lookup_insert_ne. congruence.
  - destruct (decide (None = Some key)); [discriminate|reflexivity].
Qed.

Lemma build_col_map_from_lookup header : forall m i0 key,
  build_col_map_from m i0 header !! key
  = match last_role_index key header with
    | Some j => Some (i0 + j)%nat
    | None => m !! key
    end.
Proof.
  induction header as [|col rest IH]; intros m i0 key; simpl; [reflexivity|].
  rewrite IH. destruct (last_role_index key rest) as [j|].
  - f_equal. lia.
  - rewrite assign_column_lookup.
    destruct (decide (column_role col = Some key)); [f_equal; lia|reflexivity].
Qed.

Lemma last_role_index_None key header :
  last_role_index key header = None <->
  forall j col, header !! j = Some col -> column_role col <> Some key.
Proof.
  induction header as [|c rest IH]; simpl.
  - split; [intros _ j col H; by destruct j|done].
  - destruct (last_role_index key rest) as [j0|].
    + split; [discriminate|]. intros H. exfalso.
      assert (Hn : forall j col, rest !! j = Some col ->
                                 column_role col <> Some key)
        by (intros j col Hj; exact (H (S j) col Hj)).
      apply IH in Hn. discriminate.
    + destruct (decide (column_role c = Some key)) as [Hc|Hc].
      * split; [discriminate|]. intros H. exfalso. exact (H 0%nat c eq_refl Hc).
      * split; [|done]. intros _ [|j] col Hj.
        -- simpl in Hj. by injection Hj as <-.
        -- simpl in Hj. apply (proj1 IH eq_refl j col Hj).
Qed.

Lemma last_role_index_Some key header : forall i,
  last_role_index key header = Some i <->
  exists col, header !! i = Some col /\ column_role col = Some key
    /\ forall j col', (i < j)%nat -> header !! j = Some col' ->
                      column_role col' <> Some key.
Proof.
  induction header as [|c rest IH]; intros i; simpl.
  - split; [discriminate|]. intros (col & H & _). by destruct i.
  - destruct (last_role_index key rest) as [j0|] eqn:E.
    + split.
      * intros [= <-]. destruct (proj1 (IH j0) eq_refl) as (col & H1 & H2 & H3).
        exists col. repeat split; [exact H1|exact H2|].
        intros [|j] col' Hlt Hj; [lia|]. simpl in Hj.
        apply (H3 j col'); [lia|exact Hj].
      * intros (col & H1 & H2 & H3). destruct i as [|i].
        -- exfalso. destruct (proj1 (IH j0) eq_refl) as (col0 & G1 & G2 & _).
           apply (H3 (S j0) col0); [lia|exact G1|exact G2].
        -- simpl in H1. f_equal. f_equal.
           assert (Hi : last_role_index key rest = Some i).
           { rewrite E. apply IH. exists col. repeat split; [exact H1|exact H2|].
             intros j col' Hlt Hj. apply (H3 (S j) col'); [lia|exact Hj]. }
           congruence.
    + pose proof (proj1 (last_role_index_None key rest) E) as Hnone.
      destruct (decide (column_role c = Some key)) as [Hc|Hc].
      * split.
        -- intros [= <-]. exists c. repeat split; [exact Hc|].
           intros [|j] col' Hlt Hj; [lia|]. simpl in Hj. by apply (Hnone j).
        -- intros (col & H1 & H2 & _). destruct i as [|i]; [reflexivity|].
           simpl in H1. by destruct (Hnone i col H1).
      * split; [discriminate|]. intros (col & H1 & H2 & _).
        destruct i as [|i]; simpl in H1.
        -- injection H1 as <-. contradiction.
        -- by destruct (Hnone i col H1).
Qed.

(** Accents written as combining marks are dropped like precomposed ones:
    a cell spelled with U+0301 after the [e], or with a dotless [i], is the
    debit column. *)
Lemma column_role_of_decomposed_accents :
  column_role (lit "De" ++ [769%N] ++ lit "bito") = Some "debit"%string
  /\ column_role (lit "d" ++ [233%N] ++ lit "b" ++ [305%N] ++ lit "to")
     = Some "debit"%string.
Proof. split; vm_compute; reflexivity. Qed.

(** C9, as stated, fails: with two header cells that contain DATA the first
    one is not the one kept for the date role. *)
Lemma first_matching_cell_does_not_win :
  ~ (forall (header : list str) (key : string) (i : nat) (col : str),
       header !! i = Some col ->
       column_role col = Some key ->
       (forall j col', (j < i)%nat -> header !! j = Some col' ->
                       column_role col' <> Some key) ->
       build_col_map header !! key = Some i).
Proof.
  intros H.
  specialize (H two_date_header "date"%string 0%nat (lit "Data")
                eq_refl eq_refl).
  assert (Hlast : build_col_map two_date_header !! "date"%string = Some 1%nat)
    by (vm_compute; reflexivity).
  rewrite Hlast in H. discriminate H. intros j col' Hj. lia.
Qed.

(** C9, amended. Each assignment overwrites the previous one, so a role is
    mapped to the index of the last header cell that matches it.  One cell
    sets at most one of the four keys: the first, in the order date,
    description, credit, debit, whose keyword the accent-stripped upper-case
    cell contains. *)
Theorem last_matching_cell_wins :
  (forall (header : list str) (key : string) (i : nat),
     build_col_map header !! key = Some i <->
     exists col, header !! i = Some col /\ column_role col = Some key
       /\ forall j col', (i < j)%nat -> header !! j = Some col' ->
                         column_role col' <> Some key)
  /\ (forall (m : gmap string nat) (i : nat) (col : str) (k1 k2 : string),
        assign_column m i col !! k1 <> m !! k1 ->
        assign_column m i col !! k2 <> m !! k2 ->
        k1 = k2)
  /\ (forall col : str,
        let col_norm := strip_accents (upper col) in
        (contains (lit "DATA") col_norm = true ->
         column_role col = Some "date"%string)
        /\ (contains (lit "DATA") col_norm = false ->
            contains (lit "DESCRI") col_norm = true ->
            column_role col = Some "description"%string)
        /\ (contains (lit "DATA") col_norm = false ->
            contains (lit "DESCRI") col_norm = false ->
            contains (lit "CREDITO") col_norm = true ->
            column_role col = Some "credit"%string)
        /\ (contains (lit "DATA") col_norm = false ->
            contains (lit "DESCRI") col_norm = false ->
            contains (lit "CREDITO") col_norm = false ->
            contains (lit "DEBITO") col_norm = true ->
            column_role col = Some "debit"%string)
        /\ (contains (lit "DATA") col_norm = false ->
            contains (lit "DESCRI") col_norm = false ->
            contains (lit "CREDITO") col_norm = false ->
            contains (lit "DEBITO") col_norm = false ->
            column_role col = None)).
Proof.
  split; [|split].
  - intros header key i. unfold build_col_map.
    rewrite build_col_map_from_lookup, lookup_empty.
    rewrite <- last_role_index_Some.
    destruct (last_role_index key header); simpl; reflexivity.
  - intros m i col k1 k2. rewrite !assign_column_lookup.
    destruct (decide (column_role col = Some k1)) as [H1|]; [|done].
    destruct (decide (column_role col = Some k2)) as [H2|]; [|done].
    congruence.
  - intros col col_norm. unfold column_role. fold col_norm.
    repeat split; intros; repeat match goal with
                                 | H : contains _ _ = _ |- _ => rewrite H; clear H
                                 end; reflexivity.
Qed.

(* ===================================================================== *)
(** * Properties of the fallback pipeline                                 *)
(* ===================================================================== *)

Section Pipeline.
Context {page image : Type}.
Implicit Types (rt : runtime page image) (file_bytes : list Byte.byte).

Lemma bind_log {A B} (m : Run A) (f : A -> Run B) :
  fst (m ≫= f)
  = fst m ++ match snd m with inl _ => [] | inr a => fst (f a) end.
Proof.
  unfold mbind, Run_bind. destruct m as [log [e|a]]; simpl.
  - by rewrite app_nil_r.
  - by destruct (f a).
Qed.

Lemma for_each_log {A B} (body : A -> Run (list B)) (xs : list A) :
  (forall x, fst (body x) = []) -> fst (for_each body xs) = [].
Proof.
  intros Hbody. induction xs as [|x xs IH]; [reflexivity|].
  cbn [for_each]. rewrite bind_log, Hbody. cbn [app].
  destruct (snd (body x)); [reflexivity|].
  rewrite bind_log, IH. cbn [app]. by destruct (snd (for_each body xs)).
Qed.

Lemma lifted_call_log {A B} (r : exn + A) (use : A -> B) :
  fst (y ← lift r; mret (use y)) = [].
Proof. by destruct r. Qed.

(** Each extractor logs its own invocation and nothing else. *)
Lemma extract_tables_log rt file_bytes :
  fst (extract_tables_from_pdf rt file_bytes) = [Call_extract_tables].
Proof.
  unfold extract_tables_from_pdf. rewrite bind_log. cbn [invoked fst snd].
  rewrite bind_log. unfold lift at 1 2. cbn [fst snd app].
  destruct (pdfplumber_pages _ _) as [e|pages]; [reflexivity|].
  rewrite for_each_log; [reflexivity|]. intros x. apply lifted_call_log.
Qed.

Lemma extract_text_lines_log rt file_bytes :
  fst (extract_text_lines_from_pdf rt file_bytes)
  = [Call_extract_text_lines].
Proof.
  unfold extract_text_lines_from_pdf. rewrite bind_log. cbn [invoked fst snd].
  rewrite bind_log. unfold lift at 1 2. cbn [fst snd app].
  destruct (pdfplumber_pages _ _) as [e|pages]; [reflexivity|].
  rewrite for_each_log; [reflexivity|]. intros x. apply lifted_call_log.
Qed.

Lemma extract_text_with_ocr_log rt file_bytes :
  fst (extract_text_with_ocr rt file_bytes) = [Call_extract_text_with_ocr].
Proof.
  unfold extract_text_with_ocr. rewrite bind_log. cbn [invoked fst snd].
  destruct (ocr rt) as [lib|]; [|reflexivity].
  rewrite bind_log. unfold lift at 1 2. cbn [fst snd app].
  destruct (convert_from_bytes _ _) as [e|images]; [reflexivity|].
  rewrite for_each_log; [reflexivity|]. intros x. apply lifted_call_log.
Qed.

(** C6. When the table attempt yields a non-empty transaction list, the
    pipeline returns exactly that list and invokes neither the text-line
    nor the OCR extractor; consequently a runtime that differs only in
    what those two would answer gives the same outcome. *)
Theorem table_attempt_short_circuits rt file_bytes
    (tables : list (list str)) :
  snd (extract_tables_from_pdf rt file_bytes) = inr tables ->
  parse_transactions_from_tables tables <> [] ->
  parse_transactions_from_pdf rt file_bytes
  = ([Call_extract_tables], inr (parse_transactions_from_tables tables))
  /\ forall rt',
       extract_tables_from_pdf rt' file_bytes
       = extract_tables_from_pdf rt file_bytes ->
       parse_transactions_from_pdf rt' file_bytes
       = parse_transactions_from_pdf rt file_bytes.
Proof.
  intros Hr Hne.
  assert (Hrun : forall rt0,
             extract_tables_from_pdf rt0 file_bytes
             = extract_tables_from_pdf rt file_bytes ->
             parse_transactions_from_pdf rt0 file_bytes
             = ([Call_extract_tables],
                inr (parse_transactions_from_tables tables))).
  { intros rt0 Heq. unfold parse_transactions_from_pdf. rewrite Heq.
    pose proof (extract_tables_log rt file_bytes) as Hl.
    destruct (extract_tables_from_pdf rt file_bytes) as [log r].
    simpl in Hr, Hl. subst log r.
    unfold mbind, Run_bind.
    destruct (parse_transactions_from_tables tables); [done|reflexivity]. }
  split; [by apply Hrun|].
  intros rt' Heq. rewrite (Hrun rt' Heq). symmetry. by apply Hrun.
Qed.

(** C2, amended. The pipeline has no handler: when the attempt it has
    reached raises, that error is the outcome of
    [parse_transactions_from_pdf] and no later attempt is invoked. *)
Theorem extraction_error_propagates rt file_bytes (e : exn)
    (log : list event) :
  attempt_raises rt file_bytes e log ->
  parse_transactions_from_pdf rt file_bytes = (log, inl e).
Proof.
  intros H. unfold parse_transactions_from_pdf.
  destruct H as [H1 | tables H1 H2 H3 | tables lines H1 H2 H3 H4 H5];
    rewrite H1; unfold mbind at 1; unfold Run_bind; try reflexivity;
    rewrite H2, H3; unfold mbind at 1; unfold Run_bind; try reflexivity.
  rewrite H4, H5. reflexivity.
Qed.

(** Conversely, an error that leaves the pipeline was raised by the
    attempt it had reached: the parsers raise nothing themselves. *)
Lemma pipeline_error_is_extraction_error rt file_bytes (e : exn)
    (log : list event) :
  parse_transactions_from_pdf rt file_bytes = (log, inl e) ->
  attempt_raises rt file_bytes e log.
Proof.
  unfold parse_transactions_from_pdf.
  pose proof (extract_tables_log rt file_bytes) as L1.
  pose proof (extract_text_lines_log rt file_bytes) as L2.
  pose proof (extract_text_with_ocr_log rt file_bytes) as L3.
  destruct (extract_tables_from_pdf rt file_bytes) as [l1 [e1|tables]] eqn:E1;
    simpl in L1; subst l1; unfold mbind at 1; unfold Run_bind.
  { intros [= <- <-]. by apply table_attempt_raises. }
  destruct (parse_transactions_from_tables tables) eqn:P1; [|discriminate].
  destruct (extract_text_lines_from_pdf rt file_bytes)
    as [l2 [e2|lines]] eqn:E2;
    simpl in L2; subst l2; unfold mbind at 1; unfold Run_bind.
  { intros [= <- <-]. by eapply text_attempt_raises. }
  destruct (parse_transactions_from_text_lines lines) eqn:P2; [|discriminate].
  destruct (extract_text_with_ocr rt file_bytes)
    as [l3 [e3|ocr_lines]] eqn:E3;
    simpl in L3; subst l3.
  { intros [= <- <-]. by eapply ocr_attempt_raises. }
  destruct ocr_lines; discriminate.
Qed.
End Pipeline.

Lemma table_attempt_short_circuits_witness :
  parse_transactions_from_pdf
    (one_page_runtime (inr (Some [statement_table]))
                      (inl (Raised "text extraction is not reached")))
    []
  = ([Call_extract_tables],
     inr [ mk_Transaction (mk_datetime 2025 12 17 0 0 0 0)
             (lit "PIX ENVIADO STRIPE BRASIL") (lit "STRIPE BRASIL")
             Debit (S754_finite false 8437212426901914 (-46)) None ]).
Proof.
  refine (proj1 (table_attempt_short_circuits
                   (one_page_runtime (inr (Some [statement_table]))
                      (inl (Raised "text extraction is not reached")))
                   []
                   [ [lit "Data"; lit "Descricao"; lit "Credito"; lit "Debito"];
                     [lit "17/12/2025"; lit "PIX ENVIADO STRIPE BRASIL";
                      []; lit "119,90"] ]
                   _ _)).
  - vm_compute. reflexivity.
  - vm_compute. discriminate.
Defined.

(** C2, as stated, fails: table extraction raises on a document whose text
    holds a transaction line, and the error leaves
    [parse_transactions_from_pdf]; the text attempt is not made. *)
Lemma extraction_error_is_not_caught :
  ~ (forall (rt : runtime unit unit) (file_bytes : list Byte.byte),
       exists transactions,
         snd (parse_transactions_from_pdf rt file_bytes) = inr transactions).
Proof.
  intros H.
  destruct (H (one_page_runtime (inl (Raised "table extraction failed"))
                                (inr (Some statement_text))) [])
    as [transactions Ht].
  vm_compute in Ht. discriminate.
Qed.

Lemma extraction_error_propagates_witness :
  parse_transactions_from_text_lines (splitlines statement_text) <> []
  /\ parse_transactions_from_pdf
       (one_page_runtime (inl (Raised "table extraction failed"))
                         (inr (Some statement_text)))
       []
     = ([Call_extract_tables], inl (Raised "table extraction failed")).
Proof.
  split; [vm_compute; discriminate|].
  apply extraction_error_propagates.
  apply table_attempt_raises. vm_compute. reflexivity.
Defined.

(* ===================================================================== *)
(** * Further properties of the merchant normaliser                       *)
(* ===================================================================== *)

(** X1. Every result of [normalize_merchant] is in normal form: stripping
    it, collapsing its whitespace or upper-casing it again changes
    nothing. *)
Theorem normalize_merchant_normal_form x :
  strip (normalize_merchant x) = normalize_merchant x
  /\ sub_ws (normalize_merchant x) = normalize_merchant x
  /\ upper (normalize_merchant x) = normalize_merchant x.
Proof.
  destruct (normalize_merchant_key x) as (H1 & H2 & H3 & H4).
  split; [by apply strip_by_id|].
  split; [by apply sub_ws_from_id|by apply upper_fixed_id].
Qed.

(** ** Upper-casing commutes with whitespace handling *)
Lemma sub_ws_word_app l : forall b t,
  l <> [] -> Forall (fun c => isspace c = false) l ->
  sub_ws_from b (l ++ t) = l ++ sub_ws_from false t.
Proof.
  induction l as [|c l IH]; intros b t Hne Hl; [done|].
  apply Forall_cons in Hl as [Hc Hl]. simpl. rewrite Hc. f_equal.
  destruct l as [|c' l']; [reflexivity|]. by apply IH.
Qed.

Lemma sub_ws_upper s : forall b, sub_ws_from b (upper s) = upper (sub_ws_from b s).
Proof.
  induction s as [|c s IH]; intros b; [reflexivity|].
  change (upper (c :: s)) with (upper_cp c ++ upper s).
  destruct (isspace c) eqn:Hc.
  - rewrite (upper_cp_space c Hc). simpl. rewrite Hc.
    destruct b; [apply IH|].
    change (upper (32%N :: ?t)) with (upper_cp 32 ++ upper t).
    simpl. by rewrite IH.
  - destruct (upper_cp_word c Hc) as [Hne Hl].
    rewrite (sub_ws_word_app _ b _ Hne Hl). simpl. rewrite Hc.
    change (upper (c :: ?t)) with (upper_cp c ++ upper t). by rewrite IH.
Qed.

Lemma dropwhile_space_upper s :
  dropwhile isspace (upper s) = upper (dropwhile isspace s).
Proof.
  induction s as [|c s IH]; [reflexivity|].
  change (upper (c :: s)) with (upper_cp c ++ upper s).
  destruct (isspace c) eqn:Hc.
  - rewrite (upper_cp_space c Hc). simpl. by rewrite Hc.
  - destruct (upper_cp_word c Hc) as [Hne Hl]. simpl. rewrite Hc.
    change (upper (c :: s)) with (upper_cp c ++ upper s).
    destruct (upper_cp c) as [|c' l]; [done|].
    apply Forall_cons in Hl as [Hc' _]. simpl. by rewrite Hc'.
Qed.

Lemma rev_upper_dropwhile s :
  dropwhile isspace (rev (upper s)) = rev (upper (rev (dropwhile isspace (rev s)))).
Proof.
  induction s as [|c s IH] using rev_ind; [reflexivity|].
  unfold upper at 1. rewrite flat_map_app. simpl. rewrite app_nil_r.
  rewrite !rev_app_distr. simpl.
  destruct (isspace c) eqn:Hc.
  - rewrite (upper_cp_space c Hc). simpl. rewrite Hc. exact IH.
  - destruct (upper_cp_word c Hc) as [Hne Hl].
    change (rev (c :: rev s)) with (rev (rev s) ++ [c]).
    rewrite rev_involutive.
    unfold upper. rewrite flat_map_app. simpl. rewrite app_nil_r.
    rewrite rev_app_distr.
    destruct (rev (upper_cp c)) as [|c' l] eqn:E.
    + apply (f_equal (@rev N)) in E. rewrite rev_involutive in E. done.
    + apply Forall_rev in Hl. rewrite E in Hl.
      apply Forall_cons in Hl as [Hc' _]. simpl. by rewrite Hc'.
Qed.

Lemma strip_upper s : strip (upper s) = upper (strip s).
Proof.
  unfold strip, strip_by, rstrip_by, lstrip_by.
  rewrite dropwhile_space_upper, rev_upper_dropwhile. by rewrite rev_involutive.
Qed.

Lemma upper_upper s : upper (upper s) = upper s.
Proof. apply upper_fixed_id, upper_is_fixed. Qed.

Lemma sub_ws_sub_ws s : sub_ws (sub_ws s) = sub_ws s.
Proof. apply sub_ws_from_id, sub_ws_from_normal. Qed.

(** ** Stripping commutes with whitespace collapse *)
Lemma dropwhile_sub_ws s : forall b,
  dropwhile isspace (sub_ws_from b s) = sub_ws_from false (dropwhile isspace s).
Proof.
  induction s as [|c s IH]; intros b; simpl; [reflexivity|].
  destruct (isspace c) eqn:Hc.
  - destruct b; [apply IH|]. simpl. apply IH.
  - simpl. by rewrite Hc.
Qed.

Lemma dropwhile_snoc p (l : str) c :
  dropwhile p (l ++ [c])
  = if forallb p l then (if p c then [] else [c]) else dropwhile p l ++ [c].
Proof.
  induction l as [|x l IH]; simpl; [reflexivity|].
  destruct (p x); simpl; [exact IH|reflexivity].
Qed.

Lemma forallb_rev (p : N -> bool) (l : str) : forallb p (rev l) = forallb p l.
Proof.
  induction l as [|x l IH]; simpl; [reflexivity|].
  rewrite forallb_app, IH. simpl. rewrite andb_true_r. apply andb_comm.
Qed.

Lemma rstrip_by_cons p c (s : str) :
  rstrip_by p (c :: s)
  = if forallb p (c :: s) then [] else c :: rstrip_by p s.
Proof.
  unfold rstrip_by. simpl. rewrite dropwhile_snoc, forallb_rev. simpl.
  destruct (forallb p s) eqn:Hs.
  - destruct (p c); simpl; [reflexivity|].
    assert (Hd : dropwhile p (rev s) = []).
    { rewrite <- forallb_rev in Hs. revert Hs. generalize (rev s).
      induction l as [|x l IH]; simpl; [done|]. destruct (p x); simpl; [exact IH|done]. }
    by rewrite Hd.
  - rewrite andb_false_r, rev_app_distr. reflexivity.
Qed.

Lemma sub_ws_all_space s : forall b,
  forallb isspace s = true ->
  sub_ws_from b s = if b then [] else match s with [] => [] | _ => [32%N] end.
Proof.
  induction s as [|c s IH]; intros b H; simpl in *; [by destruct b|].
  apply andb_true_iff in H as [Hc Hs]. rewrite Hc, (IH true Hs).
  by destruct b.
Qed.

Lemma sub_ws_not_all_space s : forall b,
  forallb isspace s = false -> forallb isspace (sub_ws_from b s) = false.
Proof.
  induction s as [|c s IH]; intros b H; simpl in *; [done|].
  destruct (isspace c) eqn:Hc; simpl in *.
  - destruct b; simpl; by apply IH.
  - by rewrite Hc.
Qed.

Lemma rstrip_sub_ws s : forall b,
  rstrip_by isspace (sub_ws_from b s) = sub_ws_from b (rstrip_by isspace s).
Proof.
  induction s as [|c s IH]; intros b; [reflexivity|].
  rewrite rstrip_by_cons.
  destruct (forallb isspace (c :: s)) eqn:Hall.
  - rewrite (sub_ws_all_space _ b Hall). by destruct b.
  - simpl in Hall. simpl. destruct (isspace c) eqn:Hc; simpl in Hall.
    + pose proof (sub_ws_not_all_space s true Hall) as Hn.
      destruct b; [apply IH|].
      rewrite rstrip_by_cons. simpl. rewrite Hn. simpl. by rewrite IH.
    + rewrite rstrip_by_cons. simpl. rewrite Hc. simpl. by rewrite IH.
Qed.

Lemma strip_sub_ws s : strip (sub_ws s) = sub_ws (strip s).
Proof.
  unfold strip, strip_by, lstrip_by, sub_ws.
  by rewrite dropwhile_sub_ws, rstrip_sub_ws.
Qed.

Lemma strip_strip s : strip (strip s) = strip s.
Proof.
  destruct (strip_by_head_ok isspace s) as [H1 H2]. by apply strip_by_id.
Qed.

Lemma normalize_merchant_strip x :
  normalize_merchant (strip x) = normalize_merchant x.
Proof.
  unfold normalize_merchant.
  by rewrite (strip_sub_ws (strip x)), strip_strip, <- strip_sub_ws.
Qed.

(** X2. [normalize_merchant] does not see letter case, the length or kind
    of whitespace runs, or whitespace around the description. *)
Theorem normalize_merchant_ignores_case_and_spacing x :
  normalize_merchant (upper x) = normalize_merchant x
  /\ normalize_merchant (sub_ws x) = normalize_merchant x
  /\ normalize_merchant (strip x) = normalize_merchant x.
Proof.
  split; [|split].
  - unfold normalize_merchant, sub_ws.
    by rewrite sub_ws_upper, strip_upper, upper_upper.
  - unfold normalize_merchant. by rewrite sub_ws_sub_ws.
  - apply normalize_merchant_strip.
Qed.

(** ** The matching prefix is unique *)
Lemma startswith_both u : forall p q,
  startswith u p = true -> startswith u q = true ->
  startswith p q = true \/ startswith q p = true.
Proof.
  induction u as [|c u IH]; intros p q Hp Hq.
  - destruct p; [|discriminate]. destruct q; [|discriminate]. by left.
  - destruct p as [|a p]; [by right; destruct q|].
    destruct q as [|b q]; [by left|].
    simpl in Hp, Hq.
    apply andb_true_iff in Hp as [Ha Hp], Hq as [Hb Hq].
    apply N.eqb_eq in Ha, Hb. subst a b. simpl. rewrite N.eqb_refl. simpl.
    by apply IH.
Qed.

Lemma prefixes_are_prefix_free p q :
  In p NORMALIZATION_PREFIXES -> In q NORMALIZATION_PREFIXES ->
  startswith p q = true -> p = q.
Proof.
  intros Hp Hq.
  unfold NORMALIZATION_PREFIXES in Hp, Hq. simpl in Hp, Hq.
  repeat (destruct Hp as [<-|Hp]); try destruct Hp;
    repeat (destruct Hq as [<-|Hq]); try destruct Hq;
    vm_compute; first [reflexivity | discriminate].
Qed.

(** X3. No known prefix is the beginning of another, so at most one matches:
    whenever the upper-cased text starts with a prefix of the list, that
    prefix and the separators after it are what [normalize_merchant]
    removes, wherever the prefix stands in the list. *)
Theorem normalize_merchant_strips_the_matching_prefix (x p : str) :
  In p NORMALIZATION_PREFIXES ->
  startswith (upper (strip (sub_ws x))) p = true ->
  normalize_merchant x
  = strip_chars (lit " -:/") (drop (length p) (upper (strip (sub_ws x)))).
Proof.
  intros Hin Hp. unfold normalize_merchant.
  destruct (List.find _ _) as [q|] eqn:E.
  - apply find_some in E as [Hq Hsq].
    assert (q = p) as ->.
    { destruct (startswith_both _ _ _ Hsq Hp) as [H|H].
      - by apply prefixes_are_prefix_free.
      - symmetry. by apply prefixes_are_prefix_free. }
    pose proof (merchant_key_trimmed (length p) _ (merchant_key_text x)) as Hv.
    exact (proj2 (merchant_key_stable _ Hv)).
  - exfalso. pose proof (find_none _ _ E p Hin) as H. simpl in H. congruence.
Qed.

Lemma normalize_merchant_strips_the_matching_prefix_witness :
  normalize_merchant (lit "  pix   enviado - : joe / ") = lit "JOE".
Proof.
  rewrite (normalize_merchant_strips_the_matching_prefix
             (lit "  pix   enviado - : joe / ") (lit "PIX ENVIADO")).
  - vm_compute. reflexivity.
  - left. reflexivity.
  - vm_compute. reflexivity.
Defined.

(* ===================================================================== *)
(** * Further properties of the locale parsers                            *)
(* ===================================================================== *)

Lemma strptime_valid s fmt d :
  strptime s fmt = Some d ->
  valid_date (year d) (month d) (day d) = true
  /\ hour d = 0%Z /\ minute d = 0%Z /\ second d = 0%Z /\ microsecond d = 0%Z.
Proof.
  unfold strptime. destruct (re_match _ _) as [[stop caps]|]; [|discriminate].
  destruct (negb _); [discriminate|].
  destruct (foldl _ _ _) as [[y m] dd].
  destruct (valid_date _ m dd) eqn:V; [|discriminate].
  intros [= <-]. simpl. by rewrite V.
Qed.

(** X4. A date returned by [parse_date] exists in the calendar (year 1 to
    9999, the day within its month, leap years observed) and carries the
    time 00:00:00. *)
Theorem parse_date_gives_calendar_dates raw d :
  parse_date raw = Some d ->
  valid_date (year d) (month d) (day d) = true
  /\ hour d = 0%Z /\ minute d = 0%Z /\ second d = 0%Z /\ microsecond d = 0%Z.
Proof.
  unfold parse_date. simpl.
  destruct (strptime (strip raw) fmt_dmY) as [d1|] eqn:E1.
  - intros [= <-]. by apply strptime_valid in E1.
  - destruct (strptime (strip raw) fmt_dmy) as [d2|] eqn:E2; [|discriminate].
    intros [= <-]. by apply strptime_valid in E2.
Qed.

(** ** The sign of a parsed amount *)
Lemma binary_round_aux_sign sx mx ex lx :
  sign_of (binary_round_aux prec emax sx mx ex lx) = None
  \/ sign_of (binary_round_aux prec emax sx mx ex lx) = Some sx.
Proof.
  unfold binary_round_aux.
  destruct (shr_fexp _ _ _ _ _) as [mrs' e'].
  destruct (shr_fexp _ _ _ _ _) as [mrs'' e''].
  destruct (shr_m mrs''); [by right| |by left].
  destruct (Z.leb _ _); by right.
Qed.

Lemma decimal_to_float_sign neg n k :
  sign_of (decimal_to_float neg n k) = None
  \/ sign_of (decimal_to_float neg n k) = Some neg.
Proof.
  unfold decimal_to_float. destruct n as [|m]; [by right|].
  destruct k as [|p|p].
  - unfold binary_round. destruct (shl_align _ _ _). apply binary_round_aux_sign.
  - unfold binary_round. destruct (shl_align _ _ _). apply binary_round_aux_sign.
  - unfold SFdiv. destruct (SFdiv_core_binary _ _ _ _ _ _) as [[mz ez] lz].
    replace neg with (xorb neg false) at 3 by apply xorb_false_r.
    apply binary_round_aux_sign.
Qed.

Lemma strip_underscores_Forall (P : N -> Prop) s : forall prev s',
  strip_underscores prev s = Some s' -> Forall P s -> Forall P s'.
Proof.
  induction s as [|c s IH]; intros prev s'; simpl.
  - destruct (N.eqb prev _); [discriminate|]. intros [= <-]. done.
  - intros H HP. apply Forall_cons in HP as [Hc Hs].
    destruct (N.eqb c _).
    + destruct (c_isdigit prev); [|discriminate]. intros. eauto.
    + destruct (_ && _); [discriminate|].
      destruct (strip_underscores c s) as [t|] eqn:E; [|discriminate].
      injection H as <-. constructor; eauto.
Qed.

Lemma py_float_sign s v :
  Forall (fun c => c <> ch "-") s ->
  py_float s = Some v ->
  sign_of v = None \/ sign_of v = Some false.
Proof.
  intros Hs. unfold py_float.
  assert (H1 : Forall (fun c => c <> ch "-")
                 (strip_by c_isspace (float_transliterate s))).
  { apply strip_by_Forall. clear -Hs.
    induction Hs as [|c s Hc Hs IH]; cbn [float_transliterate];
      [constructor|].
    destruct (c <? 127)%N; [by constructor|].
    destruct (isspace c); [by constructor|].
    destruct (isdigit c); [|by repeat constructor].
    constructor; [|exact IH]. unfold ch. cbn. lia. }
  destruct (strip_underscores _ _) as [s2|] eqn:E; [|discriminate]. simpl.
  pose proof (strip_underscores_Forall _ _ _ _ E H1) as H2.
  assert (Hsign : fst (split_sign s2) = false).
  { destruct s2 as [|c t]; [reflexivity|]. unfold split_sign.
    apply Forall_cons in H2 as [Hc _].
    destruct (N.eqb c (ch "-")) eqn:Ec; [by apply N.eqb_eq in Ec|].
    by destruct (N.eqb c (ch "+")). }
  destruct (split_sign s2) as [neg s3]. simpl in Hsign. subst neg.
  destruct (_ || _); [intros [= <-]; by right|].
  destruct (bool_decide _); [intros [= <-]; by left|].
  destruct (parse_decimal s3) as [[n k]|]; [|discriminate]. simpl.
  intros [= <-]. apply decimal_to_float_sign.
Qed.

Lemma replace_from_Forall (P : N -> Prop) old new s : forall skip,
  Forall P new -> Forall P s -> Forall P (replace_from old new skip s).
Proof.
  induction s as [|c s IH]; intros skip Hn Hs; cbn [replace_from];
    [constructor|].
  apply Forall_cons in Hs as [Hc Hs].
  destruct skip; [|eauto].
  destruct (startswith (c :: s) old);
    [apply Forall_app; eauto|constructor; eauto].
Qed.

Lemma remove_char_Forall c s : forall skip,
  Forall (fun x => x <> c) (replace_from [c] [] skip s).
Proof.
  induction s as [|x s IH]; intros skip; cbn [replace_from]; [constructor|].
  destruct skip; [|apply IH].
  cbn [startswith].
  replace (startswith s []) with true by (by destruct s).
  rewrite andb_true_r.
  destruct (N.eqb x c) eqn:E; cbn [app length Nat.sub]; [apply IH|].
  constructor; [by apply N.eqb_neq in E|apply IH].
Qed.

(** X5. The sign of a parsed amount is decided by the minus sign alone: the
    result is a NaN or has its sign bit set exactly when the text, once the
    currency marker is removed, holds a [-] anywhere. *)
Theorem parse_brl_amount_sign raw v :
  parse_brl_amount raw = Some v ->
  sign_of v = None
  \/ sign_of v
     = Some (contains (lit "-") (strip (replace (lit "R$") [] (strip raw)))).
Proof.
  unfold parse_brl_amount. destruct raw as [|c0 raw0]; [discriminate|].
  set (txt := strip (replace (lit "R$") [] (strip (c0 :: raw0)))).
  destruct (py_float _) as [w|] eqn:E; [|discriminate].
  intros [= <-].
  assert (Hw : sign_of w = None \/ sign_of w = Some false).
  { eapply py_float_sign; [|exact E].
    apply (replace_from_Forall _ (lit ",") (lit ".") _ 0%nat);
      [repeat constructor; discriminate|].
    apply (replace_from_Forall _ (lit ".") [] _ 0%nat); [constructor|].
    apply (remove_char_Forall (ch "-") txt 0%nat). }
  destruct (contains (lit "-") txt).
  - destruct Hw as [Hw|Hw]; destruct w; simpl in *; try discriminate; auto.
    all: injection Hw as ->; by right.
  - exact Hw.
Qed.

(* ===================================================================== *)
(** * Invariants of the parsed transactions                               *)
(* ===================================================================== *)

Lemma make_fields_spec date raw credit debit f :
  make_fields date raw credit debit = Some f ->
  f = mk_row_fields date (strip (sub_ws raw))
        (normalize_merchant (strip (sub_ws raw))) credit debit.
Proof.
  unfold make_fields. destruct credit, debit; intros [= <-]; reflexivity.
Qed.

Lemma make_fields_ok date raw credit debit f :
  make_fields date raw credit debit = Some f -> fields_ok f.
Proof.
  intros H. apply make_fields_spec in H. subst f. split; [by eexists|done].
Qed.

Lemma table_row_fields_ok n a b c d row f :
  table_row_fields n a b c d row = Some f -> fields_ok f.
Proof.
  unfold table_row_fields. destruct (_ <? _)%nat; [discriminate|].
  destruct (cell row a); [discriminate|].
  destruct (cell row b); [discriminate|].
  destruct (parse_date _); [|discriminate]. apply make_fields_ok.
Qed.

Lemma line_fields_ok line f : line_fields line = Some f -> fields_ok f.
Proof.
  unfold line_fields. destruct (strip line) as [|c0 raw0]; [discriminate|].
  destruct (re_match date_line_pattern (c0 :: raw0))
    as [[stop [ | date_raw [ | rest [ | g3 gs]]]]|];
    try discriminate.
  destruct (parse_date _); [|discriminate].
  destruct (startswith _ _); [discriminate|].
  destruct (finditer _ _) as [|[s0 e0] [|m2 ms]]; try discriminate.
  repeat match goal with
         | |- context [if ?b then _ else _] => destruct b
         end; apply make_fields_ok.
Qed.

Lemma Forall_omap {A B} (P : B -> Prop) (g : A -> option B) (l : list A) :
  (forall x y, g x = Some y -> P y) -> Forall P (omap g l).
Proof.
  intros H. induction l as [|x l IH]; simpl; [constructor|].
  destruct (g x) as [y|] eqn:E; [constructor; eauto|exact IH].
Qed.

Lemma consumed_lines_ok lines : Forall fields_ok (consumed_lines lines).
Proof. apply Forall_omap, line_fields_ok. Qed.

Lemma consumed_table_rows_ok tables :
  Forall fields_ok (consumed_table_rows tables).
Proof.
  unfold consumed_table_rows.
  destruct (find_header_from 0 tables) as [h|]; [|constructor]. simpl.
  repeat (match goal with
          | |- context [match ?m !! ?k with _ => _ end] => destruct (m !! k)
          end; try constructor).
  apply Forall_omap. intros x y. apply table_row_fields_ok.
Qed.

Lemma Forall_flat_map_emit (P : Transaction -> Prop) (Q : row_fields -> Prop)
    (fs : list row_fields) :
  (forall f t, Q f -> In t (emit_transactions f) -> P t) ->
  Forall Q fs -> Forall P (flat_map emit_transactions fs).
Proof.
  intros H. induction 1 as [|f fs Hf _ IH]; simpl; [constructor|].
  apply Forall_app. split; [|exact IH].
  apply Forall_forall. intros t Ht. apply list_elem_of_In in Ht. eauto.
Qed.

Lemma emitted_fields f t :
  In t (emit_transactions f) ->
  date t = rf_date f /\ description_full t = rf_description_full f
  /\ merchant_normalized t = rf_merchant f /\ category t = None.
Proof.
  unfold emit_transactions. intros H. apply in_app_or in H.
  destruct H as [H|H].
  - destruct (rf_debit f) as [d|]; [|destruct H].
    destruct (float_gt _ _); [|destruct H]. by destruct H as [<-|[]].
  - destruct (rf_credit f) as [c|]; [|destruct H].
    destruct (float_gt _ _); [|destruct H]. by destruct H as [<-|[]].
Qed.

Lemma Forall_parsed (P : Transaction -> Prop) :
  (forall f t, fields_ok f -> In t (emit_transactions f) -> P t) ->
  (forall tables, Forall P (parse_transactions_from_tables tables))
  /\ (forall lines, Forall P (parse_transactions_from_text_lines lines)).
Proof.
  intros H. split.
  - intros tables. rewrite parse_tables_consumed.
    eapply Forall_flat_map_emit; [exact H|apply consumed_table_rows_ok].
  - intros lines. rewrite parse_text_lines_consumed.
    eapply Forall_flat_map_emit; [exact H|apply consumed_lines_ok].
Qed.

(** X6. Neither parser sets a category: every transaction they return has
    [category = None]. *)
Theorem parsers_leave_category_unset :
  (forall tables,
     Forall (fun t => category t = None) (parse_transactions_from_tables tables))
  /\ (forall lines,
        Forall (fun t => category t = None)
               (parse_transactions_from_text_lines lines)).
Proof.
  apply Forall_parsed. intros f t _ Ht.
  by apply emitted_fields in Ht as (_ & _ & _ & H).
Qed.

(** X7. In every transaction either parser returns, [merchant_normalized]
    is [normalize_merchant] of [description_full], and [description_full]
    has no whitespace at either end and single spaces only. *)
Theorem parsed_description_and_merchant :
  (forall tables,
     Forall description_and_merchant_ok (parse_transactions_from_tables tables))
  /\ (forall lines,
        Forall description_and_merchant_ok
               (parse_transactions_from_text_lines lines)).
Proof.
  apply Forall_parsed. intros f t [[raw Hraw] Hm] Ht.
  apply emitted_fields in Ht as (_ & Hd & Hmt & _).
  unfold description_and_merchant_ok. rewrite Hd, Hmt, Hm, Hraw.
  split; [reflexivity|]. split; [apply strip_strip|].
  apply sub_ws_from_id, (strip_by_normal _ _ false), sub_ws_from_normal.
Qed.

(** X8. In every transaction either parser returns the amount is a number
    other than zero (never a NaN), and the amount of a debit is greater
    than zero. *)
Theorem parsed_amounts :
  (forall tables,
     Forall (fun t => nonzero_magnitude (amount t)
                      /\ (txn_type t = Debit -> positive_amount (amount t)))
            (parse_transactions_from_tables tables))
  /\ (forall lines,
        Forall (fun t => nonzero_magnitude (amount t)
                         /\ (txn_type t = Debit -> positive_amount (amount t)))
               (parse_transactions_from_text_lines lines)).
Proof.
  apply Forall_parsed. intros f t _ Ht. by apply (emitted_amounts f).
Qed.

(** ** Sizes *)
Lemma emit_length f : (length (emit_transactions f) <= 2)%nat.
Proof.
  unfold emit_transactions. rewrite length_app.
  destruct (rf_debit f) as [d|]; [destruct (float_gt _ _)|];
    (destruct (rf_credit f) as [c|]; [destruct (float_gt _ _)|]); simpl; lia.
Qed.

Lemma flat_map_emit_length fs :
  (length (flat_map emit_transactions fs) <= 2 * length fs)%nat.
Proof.
  induction fs as [|f fs IH]; simpl; [lia|].
  rewrite length_app. pose proof (emit_length f). lia.
Qed.

Lemma omap_length {A B} (g : A -> option B) l :
  (length (omap g l) <= length l)%nat.
Proof. induction l as [|x l IH]; csimpl; [lia|]. destruct (g x); csimpl; lia. Qed.

(** X9. A line gives at most two transactions, and so does a table row;
    the header row of a table gives none. *)
Theorem at_most_two_transactions_per_row :
  (forall lines,
     (length (parse_transactions_from_text_lines lines) <= 2 * length lines)%nat)
  /\ (forall tables,
        (length (parse_transactions_from_tables tables)
         <= 2 * (length tables - 1))%nat).
Proof.
  split.
  - intros lines. rewrite parse_text_lines_consumed.
    pose proof (flat_map_emit_length (consumed_lines lines)).
    pose proof (omap_length line_fields lines). unfold consumed_lines in *. lia.
  - intros tables. rewrite parse_tables_consumed.
    pose proof (flat_map_emit_length (consumed_table_rows tables)) as H.
    assert (length (consumed_table_rows tables) <= length tables - 1)%nat; [|lia].
    unfold consumed_table_rows.
    destruct (find_header_from 0 tables) as [h|]; [|simpl; lia]. simpl.
    repeat (match goal with
            | |- context [match ?m !! ?k with _ => _ end] => destruct (m !! k)
            end; try (simpl; lia)).
    etrans; [apply omap_length|]. rewrite length_drop. lia.
Qed.

(** ** The header row of a table *)
Lemma find_header_from_In tables : forall i h,
  find_header_from i tables = Some h ->
  exists row, tables !! (h - i)%nat = Some row /\ (i <= h)%nat
              /\ is_header_row row = true.
Proof.
  induction tables as [|row rest IH]; intros i h; simpl; [discriminate|].
  destruct (is_header_row row) eqn:E.
  - intros [= <-]. exists row. rewrite Nat.sub_diag.
    split; [reflexivity|]. split; [lia|exact E].
  - intros H. apply IH in H as (r & Hr & Hle & Hh). exists r.
    replace (h - i)%nat with (S (h - S i)) by lia.
    split; [exact Hr|]. split; [lia|exact Hh].
Qed.

Lemma find_header_from_app pre h rows : forall i,
  Forall (fun r => is_header_row r = false) pre ->
  is_header_row h = true ->
  find_header_from i (pre ++ h :: rows) = Some (i + length pre)%nat.
Proof.
  induction pre as [|r pre IH]; intros i Hpre Hh; simpl.
  - rewrite Hh. f_equal. lia.
  - apply Forall_cons in Hpre as [Hr Hpre]. rewrite Hr, IH by done.
    f_equal. lia.
Qed.

(** X10. If no cell of the table is stored under one of the four roles
    (for instance no cell contains DEBITO), the table parser returns
    nothing. *)
Theorem table_without_a_required_column (tables : list (list str))
    (key : string) :
  In key ["date"; "description"; "credit"; "debit"]%string ->
  (forall row col, In row tables -> In col row ->
                   column_role col <> Some key) ->
  parse_transactions_from_tables tables = [].
Proof.
  intros Hkey Hno. unfold parse_transactions_from_tables.
  destruct (find_header_from 0 tables) as [h|] eqn:E; [|reflexivity].
  apply find_header_from_In in E as (row & Hrow & _ & _).
  rewrite Nat.sub_0_r in Hrow. rewrite Hrow. simpl.
  assert (Hnone : build_col_map row !! key = None).
  { unfold build_col_map. rewrite build_col_map_from_lookup, lookup_empty.
    assert (Hl : last_role_index key row = None).
    { apply last_role_index_None. intros j col Hj.
      apply (Hno row col).
      - apply list_elem_of_In, list_elem_of_lookup. eauto.
      - apply list_elem_of_In, list_elem_of_lookup. eauto. }
    by rewrite Hl. }
  simpl in Hkey.
  destruct Hkey as [<-|[<-|[<-|[<-|[]]]]]; rewrite Hnone;
    repeat case_match; reflexivity.
Qed.

Lemma table_without_a_required_column_witness :
  parse_transactions_from_tables
    [ [lit "Data"; lit "Descricao"; lit "Credito"; lit "Valor"];
      [lit "15/12/2025"; lit "PIX RECEBIDO JOAO"; lit "50,00"; lit "0,00"] ]
  = [].
Proof.
  apply (table_without_a_required_column _ "debit"%string).
  - right. right. right. left. reflexivity.
  - intros row col Hrow Hcol. simpl in Hrow.
    destruct Hrow as [<-|[<-|[]]]; simpl in Hcol;
      repeat (destruct Hcol as [<-|Hcol]; [vm_compute; discriminate|]);
      destruct Hcol.
Defined.

(** X11. The table parser starts at the first header row: the rows before
    it have no effect on the result. *)
Theorem rows_before_the_header_are_ignored
    (pre : list (list str)) (h : list str) (rows : list (list str)) :
  Forall (fun r => is_header_row r = false) pre ->
  is_header_row h = true ->
  parse_transactions_from_tables (pre ++ h :: rows)
  = parse_transactions_from_tables (h :: rows).
Proof.
  intros Hpre Hh. unfold parse_transactions_from_tables.
  rewrite (find_header_from_app pre h rows 0 Hpre Hh).
  cbn [find_header_from Nat.add]. rewrite Hh.
  rewrite list_lookup_middle by reflexivity.
  assert (Hdrop : drop (S (length pre)) (pre ++ h :: rows) = rows)
    by (clear; induction pre; simpl; auto).
  rewrite Hdrop. reflexivity.
Qed.

(** ** Lines with exactly two amounts *)
Lemma one_sided_fields_length date raw c d :
  c = None \/ d = None ->
  (length (transactions_of (make_fields date raw c d)) <= 1)%nat.
Proof.
  intros H. destruct c as [c|], d as [d|]; simpl;
    try (destruct H; discriminate); unfold emit_transactions; simpl;
    try destruct (float_gt _ _); simpl; lia.
Qed.

(** X12. A line with exactly two monetary matches gives at most one
    transaction: only the first match is an amount, the last one is the
    running balance. *)
Theorem two_amount_line_gives_at_most_one_transaction (line : str) :
  length (finditer money_pattern (strip line)) = 2%nat ->
  (length (parse_transactions_from_text_lines [line]) <= 1)%nat.
Proof.
  intros H. unfold parse_transactions_from_text_lines.
  cbn [flat_map]. rewrite app_nil_r.
  unfold line_fields. destruct (strip line) as [|c0 raw0]; [simpl; lia|].
  destruct (re_match date_line_pattern (c0 :: raw0))
    as [[stop [ | date_raw [ | rest [ | g3 gs]]]]|];
    try (simpl; lia).
  destruct (parse_date date_raw); [|simpl; lia].
  destruct (startswith _ _); [simpl; lia|].
  destruct (finditer money_pattern (c0 :: raw0))
    as [|[s0 e0] [|[s1 e1] [|m3 ms]]]; simpl in H; try lia.
  cbn [map length Nat.leb fst snd].
  destruct (existsb _ _); apply one_sided_fields_length; auto.
Qed.

Lemma two_amount_line_gives_at_most_one_transaction_witness :
  (length (parse_transactions_from_text_lines
             [lit "16/12/2025 MERCADO 50,00 1.250,00"]) <= 1)%nat.
Proof.
  apply two_amount_line_gives_at_most_one_transaction.
  vm_compute. reflexivity.
Defined.

(* ===================================================================== *)
(** * Further properties of the pipeline and the extractors               *)
(* ===================================================================== *)

Section PipelineMore.
Context {page image : Type}.
Implicit Types (rt : runtime page image) (file_bytes : list Byte.byte).

(** X13. What the pipeline returns is what one parser made of one
    extractor's output: the table result when it is not empty, else the
    text-line result when it is not empty, else the OCR result; results of
    different strategies are never merged. *)
Theorem pipeline_result_comes_from_one_strategy rt file_bytes
    (log : list event) (transactions : list Transaction) :
  parse_transactions_from_pdf rt file_bytes = (log, inr transactions) ->
  (exists tables,
     snd (extract_tables_from_pdf rt file_bytes) = inr tables
     /\ transactions = parse_transactions_from_tables tables
     /\ transactions <> []
     /\ log = [Call_extract_tables])
  \/ (exists tables lines,
        snd (extract_tables_from_pdf rt file_bytes) = inr tables
        /\ parse_transactions_from_tables tables = []
        /\ snd (extract_text_lines_from_pdf rt file_bytes) = inr lines
        /\ transactions = parse_transactions_from_text_lines lines
        /\ transactions <> []
        /\ log = [Call_extract_tables; Call_extract_text_lines])
  \/ (exists tables lines ocr_lines,
        snd (extract_tables_from_pdf rt file_bytes) = inr tables
        /\ parse_transactions_from_tables tables = []
        /\ snd (extract_text_lines_from_pdf rt file_bytes) = inr lines
        /\ parse_transactions_from_text_lines lines = []
        /\ snd (extract_text_with_ocr rt file_bytes) = inr ocr_lines
        /\ transactions = parse_transactions_from_text_lines ocr_lines
        /\ log = [Call_extract_tables; Call_extract_text_lines;
                  Call_extract_text_with_ocr]).
Proof.
  unfold parse_transactions_from_pdf.
  pose proof (extract_tables_log rt file_bytes) as L1.
  pose proof (extract_text_lines_log rt file_bytes) as L2.
  pose proof (extract_text_with_ocr_log rt file_bytes) as L3.
  destruct (extract_tables_from_pdf rt file_bytes) as [l1 [e1|tables]];
    simpl in L1; subst l1; unfold mbind at 1; unfold Run_bind;
    [discriminate|].
  destruct (parse_transactions_from_tables tables) as [|t ts] eqn:P1.
  2:{ intros [= <- <-]. left. exists tables. rewrite P1. done. }
  destruct (extract_text_lines_from_pdf rt file_bytes) as [l2 [e2|lines]];
    simpl in L2; subst l2; unfold mbind at 1; unfold Run_bind;
    [discriminate|].
  destruct (parse_transactions_from_text_lines lines) as [|t ts] eqn:P2.
  2:{ intros [= <- <-]. right. left. exists tables, lines. rewrite P2. done. }
  destruct (extract_text_with_ocr rt file_bytes) as [l3 [e3|ocr_lines]];
    simpl in L3; subst l3; [discriminate|].
  intros H. right. right. exists tables, lines, ocr_lines.
  destruct ocr_lines; injection H as <- <-; done.
Qed.

(** X14. Without the optional OCR libraries the third attempt yields no
    lines and raises nothing: when the first two attempts find no
    transaction the pipeline returns the empty list. *)
Theorem without_ocr_the_pipeline_ends_empty rt file_bytes
    (tables : list (list str)) (lines : list str) :
  ocr rt = None ->
  snd (extract_tables_from_pdf rt file_bytes) = inr tables ->
  parse_transactions_from_tables tables = [] ->
  snd (extract_text_lines_from_pdf rt file_bytes) = inr lines ->
  parse_transactions_from_text_lines lines = [] ->
  parse_transactions_from_pdf rt file_bytes
  = ([Call_extract_tables; Call_extract_text_lines;
      Call_extract_text_with_ocr], inr []).
Proof.
  intros Hocr H1 P1 H2 P2. unfold parse_transactions_from_pdf.
  pose proof (extract_tables_log rt file_bytes) as L1.
  pose proof (extract_text_lines_log rt file_bytes) as L2.
  destruct (extract_tables_from_pdf rt file_bytes) as [l1 r1].
  simpl in H1, L1. subst l1 r1. unfold mbind at 1; unfold Run_bind.
  rewrite P1.
  destruct (extract_text_lines_from_pdf rt file_bytes) as [l2 r2].
  simpl in H2, L2. subst l2 r2. unfold mbind at 1; unfold Run_bind.
  rewrite P2. unfold extract_text_with_ocr. rewrite Hocr. reflexivity.
Qed.

(** ** Extraction page by page *)
Lemma for_each_all_ok {A B C} (call : A -> exn + B) (use : B -> list C)
    (xs : list A) (ys : list B) :
  Forall2 (fun x y => call x = inr y) xs ys ->
  for_each (fun x => y ← lift (call x); mret (use y)) xs
  = ([], inr (flat_map use ys)).
Proof.
  induction 1 as [|x y xs ys Hx _ IH]; [reflexivity|].
  cbn [for_each flat_map]. rewrite IH. unfold lift. rewrite Hx. reflexivity.
Qed.

Lemma for_each_first_failure {A B C} (call : A -> exn + B)
    (use : B -> list C) (xs1 : list A) (x : A) (xs2 : list A) (e : exn) :
  Forall (fun x => exists y, call x = inr y) xs1 ->
  call x = inl e ->
  for_each (fun x => y ← lift (call x); mret (use y)) (xs1 ++ x :: xs2)
  = ([], inl e).
Proof.
  intros H Hx. induction H as [|x1 xs1 [y Hy] _ IH]; cbn [for_each app].
  - unfold lift. rewrite Hx. reflexivity.
  - rewrite IH. unfold lift. rewrite Hy. reflexivity.
Qed.

(** X15. When every page extracts, [extract_tables_from_pdf] returns the
    kept rows of all tables in page order, and none of these rows is
    empty. *)
Theorem extract_tables_in_page_order rt file_bytes (pages : list page)
    (page_tables : list (option (list (list (list (option str)))))) :
  pdfplumber_pages (pdfplumber rt) file_bytes = inr pages ->
  Forall2 (fun p t => page_extract_tables (pdfplumber rt) p = inr t)
          pages page_tables ->
  extract_tables_from_pdf rt file_bytes
  = ([Call_extract_tables],
     inr (flat_map (fun t => flat_map kept_rows (default [] t)) page_tables))
  /\ Forall (fun row => row <> [])
            (flat_map (fun t => flat_map kept_rows (default [] t)) page_tables).
Proof.
  intros Hp Hall. split.
  - unfold extract_tables_from_pdf, invoked.
    unfold mbind at 1 2. unfold Run_bind at 1 2. unfold lift at 1. rewrite Hp.
    rewrite (for_each_all_ok _ _ _ _ Hall). reflexivity.
  - apply Forall_forall. intros row Hrow.
    apply list_elem_of_In, in_flat_map in Hrow as (t & _ & Hrow).
    apply in_flat_map in Hrow as (table & _ & Hrow).
    unfold kept_rows in Hrow.
    apply in_flat_map in Hrow as (r & _ & Hrow).
    destruct r as [|c r]; [destruct Hrow|].
    destruct (existsb _ _); [|destruct Hrow].
    destruct Hrow as [<-|[]]. discriminate.
Qed.

(** X16. When every page extracts, [extract_text_lines_from_pdf] returns
    the lines of all pages in page order; a page without text adds no
    line. *)
Theorem extract_text_lines_in_page_order rt file_bytes (pages : list page)
    (texts : list (option str)) :
  pdfplumber_pages (pdfplumber rt) file_bytes = inr pages ->
  Forall2 (fun p t => page_extract_text (pdfplumber rt) p = inr t)
          pages texts ->
  extract_text_lines_from_pdf rt file_bytes
  = ([Call_extract_text_lines],
     inr (flat_map (fun t => splitlines (default [] t)) texts)).
Proof.
  intros Hp Hall. unfold extract_text_lines_from_pdf, invoked.
  unfold mbind at 1 2. unfold Run_bind at 1 2. unfold lift at 1. rewrite Hp.
  rewrite (for_each_all_ok _ _ _ _ Hall). reflexivity.
Qed.

(** X17. There is no partial result: when the extraction of one page
    raises, [extract_tables_from_pdf] raises that error, whatever the
    earlier pages gave. *)
Theorem a_failing_page_fails_the_table_extraction rt file_bytes
    (before : list page) (p : page) (after : list page) (e : exn) :
  pdfplumber_pages (pdfplumber rt) file_bytes = inr (before ++ p :: after) ->
  Forall (fun q => exists t, page_extract_tables (pdfplumber rt) q = inr t)
         before ->
  page_extract_tables (pdfplumber rt) p = inl e ->
  extract_tables_from_pdf rt file_bytes = ([Call_extract_tables], inl e).
Proof.
  intros Hp Hb He. unfold extract_tables_from_pdf, invoked.
  unfold mbind at 1 2. unfold Run_bind at 1 2. unfold lift at 1. rewrite Hp.
  rewrite (for_each_first_failure _ _ _ _ _ _ Hb He). reflexivity.
Qed.
End PipelineMore.

Lemma parse_date_gives_calendar_dates_witness :
  parse_date (lit " 29/02/2024 ") = Some (mk_datetime 2024 2 29 0 0 0 0)
  /\ valid_date 2024 2 29 = true.
Proof.
  assert (H : parse_date (lit " 29/02/2024 ")
              = Some (mk_datetime 2024 2 29 0 0 0 0))
    by (vm_compute; reflexivity).
  split; [exact H|].
  exact (proj1 (parse_date_gives_calendar_dates _ _ H)).
Defined.

Lemma parse_brl_amount_sign_witness :
  sign_of (S754_finite true 5798538451867402 (-41)) = None
  \/ sign_of (S754_finite true 5798538451867402 (-41))
     = Some (contains (lit "-")
               (strip (replace (lit "R$") [] (strip (lit "R$ 2.636,87-"))))).
Proof.
  apply (parse_brl_amount_sign (lit "R$ 2.636,87-")).
  vm_compute. reflexivity.
Defined.

Lemma rows_before_the_header_are_ignored_witness :
  parse_transactions_from_tables
    ([ [lit "Extrato"; lit "Dezembro"] ]
     ++ [lit "Data"; lit "Descricao"; lit "Credito"; lit "Debito"]
     :: [ [lit "17/12/2025"; lit "PIX ENVIADO STRIPE BRASIL"; [];
           lit "119,90"] ])
  = parse_transactions_from_tables
      ([lit "Data"; lit "Descricao"; lit "Credito"; lit "Debito"]
       :: [ [lit "17/12/2025"; lit "PIX ENVIADO STRIPE BRASIL"; [];
             lit "119,90"] ]).
Proof.
  apply rows_before_the_header_are_ignored.
  - repeat constructor.
  - vm_compute. reflexivity.
Defined.

Lemma pipeline_result_comes_from_one_strategy_witness :
  let rt := one_page_runtime (inr None) (inr (Some statement_text)) in
  let transactions :=
    [ mk_Transaction (mk_datetime 2025 12 17 0 0 0 0)
        (lit "PIX ENVIADO STRIPE BRASIL") (lit "STRIPE BRASIL")
        Debit (S754_finite false 8437212426901914 (-46)) None ] in
  let log := [Call_extract_tables; Call_extract_text_lines] in
  (exists tables,
     snd (extract_tables_from_pdf rt []) = inr tables
     /\ transactions = parse_transactions_from_tables tables
     /\ transactions <> []
     /\ log = [Call_extract_tables])
  \/ (exists tables lines,
        snd (extract_tables_from_pdf rt []) = inr tables
        /\ parse_transactions_from_tables tables = []
        /\ snd (extract_text_lines_from_pdf rt []) = inr lines
        /\ transactions = parse_transactions_from_text_lines lines
        /\ transactions <> []
        /\ log = [Call_extract_tables; Call_extract_text_lines])
  \/ (exists tables lines ocr_lines,
        snd (extract_tables_from_pdf rt []) = inr tables
        /\ parse_transactions_from_tables tables = []
        /\ snd (extract_text_lines_from_pdf rt []) = inr lines
        /\ parse_transactions_from_text_lines lines = []
        /\ snd (extract_text_with_ocr rt []) = inr ocr_lines
        /\ transactions = parse_transactions_from_text_lines ocr_lines
        /\ log = [Call_extract_tables; Call_extract_text_lines;
                  Call_extract_text_with_ocr]).
Proof.
  apply pipeline_result_comes_from_one_strategy.
  vm_compute. reflexivity.
Defined.

Lemma without_ocr_the_pipeline_ends_empty_witness :
  parse_transactions_from_pdf
    (one_page_runtime (inr None) (inr (Some (lit "Extrato de dezembro"))))
    []
  = ([Call_extract_tables; Call_extract_text_lines;
      Call_extract_text_with_ocr], inr []).
Proof.
  apply (without_ocr_the_pipeline_ends_empty _ _ [] [lit "Extrato de dezembro"]);
    vm_compute; reflexivity.
Defined.

Lemma extract_tables_in_page_order_witness :
  extract_tables_from_pdf
    (one_page_runtime (inr (Some [statement_table])) (inr None)) []
  = ([Call_extract_tables],
     inr (flat_map (fun t => flat_map kept_rows (default [] t))
            [Some [statement_table]]))
  /\ Forall (fun row => row <> [])
            (flat_map (fun t => flat_map kept_rows (default [] t))
               [Some [statement_table]]).
Proof.
  apply (extract_tables_in_page_order _ _ [tt]).
  - reflexivity.
  - repeat constructor.
Defined.

Lemma extract_text_lines_in_page_order_witness :
  extract_text_lines_from_pdf
    (one_page_runtime (inr None) (inr (Some statement_text))) []
  = ([Call_extract_text_lines],
     inr (flat_map (fun t => splitlines (default [] t))
            [Some statement_text])).
Proof.
  apply (extract_text_lines_in_page_order _ _ [tt]).
  - reflexivity.
  - repeat constructor.
Defined.

Lemma a_failing_page_fails_the_table_extraction_witness :
  extract_tables_from_pdf
    (one_page_runtime (inl (Raised "table extraction failed"))
                      (inr (Some statement_text))) []
  = ([Call_extract_tables], inl (Raised "table extraction failed")).
Proof.
  apply (a_failing_page_fails_the_table_extraction _ _ [] tt []).
  - reflexivity.
  - constructor.
  - reflexivity.
Defined.

(* ===================================================================== *)
(** * Properties of the reports                                           *)
(* ===================================================================== *)

Lemma aggregate_totals_from rows : forall a b,
  foldl
    (fun totals row =>
       let '(total_spent, total_received) := totals in
       if is_debit row
       then (float_add total_spent (row_amount row), total_received)
       else if is_credit row
       then (total_spent, float_add total_received (row_amount row))
       else totals)
    (a, b) rows
  = (foldl float_add a (map row_amount (List.filter is_debit rows)),
     foldl float_add b (map row_amount (List.filter is_credit rows))).
Proof.
  induction rows as [|row rows IH]; intros a b; [reflexivity|].
  cbn [foldl List.filter].
  destruct (is_debit row) eqn:Hd.
  - assert (Hc : is_credit row = false).
    { unfold is_debit, is_credit in *. apply bool_decide_eq_true in Hd.
      apply bool_decide_eq_false. rewrite Hd. vm_compute. discriminate. }
    rewrite Hc, IH. reflexivity.
  - destruct (is_credit row); rewrite IH; reflexivity.
Qed.

(** X18. The two totals of [aggregate_totals] are independent sums: the
    first is the float sum, from [0.0] and in row order, of the amounts of
    the rows whose type is ["debit"], the second that of the rows whose type
    is ["credit"]; a row of any other type changes neither. *)
Theorem aggregate_totals_by_type (rows : list stored_row) :
  aggregate_totals rows
  = (float_sum (map row_amount (List.filter is_debit rows)),
     float_sum (map row_amount (List.filter is_credit rows))).
Proof. apply aggregate_totals_from. Qed.

(** ** The dict of totals *)

Lemma dict_get_set agg : forall k v k',
  dict_get (dict_set agg k v) k'
  = if bool_decide (k = k') then Some v else dict_get agg k'.
Proof.
  induction agg as [|[k0 v0] agg IH]; intros k v k'; simpl.
  - reflexivity.
  - destruct (bool_decide (k0 = k)) eqn:E0; simpl.
    + apply bool_decide_eq_true in E0. subst k0.
      destruct (bool_decide (k = k')); reflexivity.
    + rewrite IH. destruct (bool_decide (k0 = k')) eqn:E1; [|reflexivity].
      apply bool_decide_eq_true in E1. apply bool_decide_eq_false in E0.
      rewrite bool_decide_eq_false_2 by congruence. reflexivity.
Qed.

Lemma dict_set_keys agg : forall k v,
  map fst (dict_set agg k v)
  = if bool_decide (k ∈ map fst agg) then map fst agg
    else map fst agg ++ [k].
Proof.
  induction agg as [|[k0 v0] agg IH]; intros k v; cbn [dict_set map fst].
  - rewrite bool_decide_eq_false_2 by apply not_elem_of_nil. reflexivity.
  - destruct (bool_decide (k0 = k)) eqn:E0; cbn [dict_set map fst].
    + apply bool_decide_eq_true in E0. subst k0.
      rewrite bool_decide_eq_true_2 by (apply elem_of_cons; auto).
      reflexivity.
    + apply bool_decide_eq_false in E0. rewrite IH.
      destruct (bool_decide (k ∈ map fst agg)) eqn:E1.
      * apply bool_decide_eq_true in E1.
        rewrite bool_decide_eq_true_2 by (apply elem_of_cons; auto).
        reflexivity.
      * apply bool_decide_eq_false in E1.
        rewrite bool_decide_eq_false_2; [reflexivity|].
        intros [?|?]%elem_of_cons; [congruence|contradiction].
Qed.

Lemma dict_set_NoDup agg k v :
  NoDup (map fst agg) -> NoDup (map fst (dict_set agg k v)).
Proof.
  intros H. rewrite dict_set_keys.
  destruct (bool_decide (k ∈ map fst agg)) eqn:E; [exact H|].
  apply bool_decide_eq_false in E.
  apply NoDup_app. split; [exact H|]. split.
  - intros x Hx Hk. apply list_elem_of_singleton in Hk. by subst x.
  - apply NoDup_singleton.
Qed.

Lemma dict_get_In agg : forall k v,
  NoDup (map fst agg) -> (In (k, v) agg <-> dict_get agg k = Some v).
Proof.
  induction agg as [|[k0 v0] agg IH]; intros k v Hnd; simpl.
  - split; [tauto|discriminate].
  - apply NoDup_cons in Hnd as [Hk0 Hnd].
    destruct (bool_decide (k0 = k)) eqn:E0.
    + apply bool_decide_eq_true in E0. subst k0. split.
      * intros [[= <-]|Hin]; [reflexivity|]. exfalso. apply Hk0.
        apply list_elem_of_In. apply (in_map fst) in Hin. exact Hin.
      * intros [= <-]. by left.
    + apply bool_decide_eq_false in E0. rewrite <- IH by exact Hnd.
      split; [intros [[= ? ?]|Hin]; [contradiction|exact Hin]|tauto].
Qed.

Lemma debit_totals_NoDup key rows : forall agg,
  NoDup (map fst agg) -> NoDup (map fst (foldl (add_debit key) agg rows)).
Proof.
  induction rows as [|row rows IH]; intros agg H; [exact H|].
  cbn [foldl]. apply IH. unfold add_debit.
  destruct (negb (is_debit row)); [exact H|by apply dict_set_NoDup].
Qed.

Lemma debit_totals_get key rows : forall agg k,
  dict_get (foldl (add_debit key) agg rows) k
  = match debit_amounts key k rows with
    | [] => dict_get agg k
    | a :: amounts =>
        Some (foldl float_add (default float_zero (dict_get agg k))
                    (a :: amounts))
    end.
Proof.
  induction rows as [|row rows IH]; intros agg k; [reflexivity|].
  cbn [foldl]. rewrite IH. unfold debit_amounts. cbn [List.filter].
  unfold add_debit.
  destruct (is_debit row) eqn:Hd; cbn [negb andb]; [|reflexivity].
  rewrite dict_get_set.
  destruct (bool_decide (key row = k)) eqn:Hk.
  - apply bool_decide_eq_true in Hk. subst k. cbn [map foldl default].
    destruct (map row_amount _); reflexivity.
  - reflexivity.
Qed.

Lemma debit_totals_keys_from key rows : forall agg,
  map fst (foldl (add_debit key) agg rows)
  = foldl (fun seen k => if bool_decide (k ∈ seen) then seen else seen ++ [k])
          (map fst agg) (map key (List.filter is_debit rows)).
Proof.
  induction rows as [|row rows IH]; intros agg; [reflexivity|].
  cbn [foldl List.filter]. rewrite IH. unfold add_debit.
  destruct (is_debit row); cbn [negb map foldl]; [|reflexivity].
  by rewrite dict_set_keys.
Qed.

(** ** The order of floats *)

Lemma Pcompare_Eq_spec p q :
  CompareSpec (p = q) (p < q)%positive (q < p)%positive
              (Pos.compare_cont Eq p q).
Proof. exact (Pos.compare_spec p q). Qed.

Ltac float_order :=
  repeat match goal with
  | |- context [Z.compare ?a ?b] => destruct (Z.compare_spec a b)
  | H : context [Z.compare ?a ?b] |- _ => destruct (Z.compare_spec a b)
  | |- context [Pos.compare_cont Eq ?a ?b] => destruct (Pcompare_Eq_spec a b)
  | H : context [Pos.compare_cont Eq ?a ?b] |- _ =>
      destruct (Pcompare_Eq_spec a b)
  end;
  cbn [CompOpp] in *; try discriminate; try reflexivity; try lia.

Lemma float_lt_trans x y z :
  float_lt x y = true -> float_lt y z = true -> float_lt x z = true.
Proof.
  unfold float_lt, SFltb.
  destruct x as [[]|[]| |[] mx ex], y as [[]|[]| |[] my ey],
           z as [[]|[]| |[] mz ez];
    cbn [SFcompare]; try discriminate; try reflexivity; intros H1 H2;
    float_order.
Qed.

Lemma float_lt_asym x y : float_lt x y = true -> float_lt y x = false.
Proof.
  unfold float_lt, SFltb.
  destruct x as [[]|[]| |[] mx ex], y as [[]|[]| |[] my ey];
    cbn [SFcompare]; try discriminate; try reflexivity; intros H1;
    float_order.
Qed.

Lemma float_eq_lt x y z :
  float_eq x z = true -> float_lt x y = true -> float_lt z y = true.
Proof.
  unfold float_eq, float_lt, SFeqb, SFltb.
  destruct x as [[]|[]| |[] mx ex], y as [[]|[]| |[] my ey],
           z as [[]|[]| |[] mz ez];
    cbn [SFcompare]; try discriminate; try reflexivity; intros H1 H2;
    float_order.
Qed.

Lemma float_eq_trans x y z :
  float_eq x y = true -> float_eq y z = true -> float_eq x z = true.
Proof.
  unfold float_eq, SFeqb.
  destruct x as [[]|[]| |[] mx ex], y as [[]|[]| |[] my ey],
           z as [[]|[]| |[] mz ez];
    cbn [SFcompare]; try discriminate; try reflexivity; intros H1 H2;
    float_order.
Qed.

Lemma float_eq_sym x y : float_eq x y = true -> float_eq y x = true.
Proof.
  unfold float_eq, SFeqb.
  destruct x as [[]|[]| |[] mx ex], y as [[]|[]| |[] my ey];
    cbn [SFcompare]; try discriminate; try reflexivity; intros H1;
    float_order.
Qed.

(** ** The sort *)

Lemma insert_sorted_Permutation {A} (lt : A -> A -> bool) x l :
  Permutation (insert_sorted lt x l) (x :: l).
Proof.
  induction l as [|y l IH]; cbn [insert_sorted]; [reflexivity|].
  destruct (lt x y); [reflexivity|].
  rewrite IH. apply perm_swap.
Qed.

Lemma stable_sort_from_Permutation {A} (lt : A -> A -> bool) l : forall acc,
  Permutation (foldl (fun acc x => insert_sorted lt x acc) acc l) (acc ++ l).
Proof.
  induction l as [|x l IH]; intros acc; cbn [foldl].
  - by rewrite app_nil_r.
  - rewrite IH, insert_sorted_Permutation.
    cbn [app]. apply Permutation_middle.
Qed.

Lemma sorted_by_total_desc_Permutation items :
  Permutation (sorted_by_total_desc items) items.
Proof.
  unfold sorted_by_total_desc, stable_sort.
  rewrite <- Permutation_rev, stable_sort_from_Permutation.
  cbn [app]. by rewrite <- Permutation_rev.
Qed.

Section Sorting.
Context {A : Type} (lt : A -> A -> bool) (p : A -> bool).
Hypothesis lt_trans :
  forall x y z, lt x y = true -> lt y z = true -> lt x z = true.
Hypothesis lt_asym : forall x y, lt x y = true -> lt y x = false.
Hypothesis p_lt :
  forall x y z, p x = true -> p z = true -> lt x y = true -> lt z y = true.

Lemma insert_sorted_ascending x l :
  ascending lt l -> ascending lt (insert_sorted lt x l).
Proof using lt_trans lt_asym.
  unfold ascending.
  induction 1 as [|y l Hl IH Hy]; cbn [insert_sorted].
  - repeat constructor.
  - destruct (lt x y) eqn:Hxy.
    + constructor; [by constructor|]. constructor; [by apply lt_asym|].
      eapply Forall_impl; [exact Hy|]. intros z Hz. cbn beta in *.
      destruct (lt z x) eqn:Hzx; [|reflexivity].
      rewrite (lt_trans _ _ _ Hzx Hxy) in Hz. discriminate.
    + constructor; [exact IH|].
      rewrite insert_sorted_Permutation. by constructor.
Qed.

Lemma stable_sort_ascending l : ascending lt (stable_sort lt l).
Proof using lt_trans lt_asym.
  unfold stable_sort.
  assert (H : forall acc, ascending lt acc ->
            ascending lt (foldl (fun acc x => insert_sorted lt x acc) acc l)).
  { induction l as [|x l IH]; intros acc Hacc; [exact Hacc|].
    cbn [foldl]. apply IH. by apply insert_sorted_ascending. }
  apply H. constructor.
Qed.

Lemma insert_sorted_filter x l :
  ascending lt l ->
  List.filter p (insert_sorted lt x l) = List.filter p (l ++ [x]).
Proof using lt_asym p_lt.
  unfold ascending.
  induction 1 as [|y l Hl IH Hy]; cbn [insert_sorted app]; [reflexivity|].
  destruct (lt x y) eqn:Hxy.
  - change (y :: l ++ [x]) with ((y :: l) ++ [x]).
    rewrite List.filter_app.
    change (List.filter p (x :: y :: l))
      with (if p x then x :: List.filter p (y :: l)
            else List.filter p (y :: l)).
    change (List.filter p [x]) with (if p x then [x] else []).
    destruct (p x) eqn:Hpx; [|by rewrite app_nil_r].
    assert (Hnone : forall z, In z (y :: l) -> p z = false).
    { intros z Hz. destruct (p z) eqn:Hpz; [|reflexivity].
      pose proof (p_lt x y z Hpx Hpz Hxy) as Hzy.
      destruct Hz as [<-|Hz].
      - by rewrite (lt_asym _ _ Hzy) in Hzy.
      - rewrite Forall_forall in Hy. apply list_elem_of_In in Hz.
        by rewrite (Hy z Hz) in Hzy. }
    assert (Hnil : List.filter p (y :: l) = []).
    { clear -Hnone. induction (y :: l) as [|z l' IH]; [reflexivity|].
      cbn [List.filter]. rewrite (Hnone z) by (by left).
      apply IH. intros z' Hz'. apply Hnone. by right. }
    by rewrite Hnil.
  - cbn [List.filter]. by rewrite IH.
Qed.

Lemma stable_sort_filter l :
  List.filter p (stable_sort lt l) = List.filter p l.
Proof using lt_trans lt_asym p_lt.
  unfold stable_sort.
  assert (H : forall acc, ascending lt acc ->
            List.filter p (foldl (fun acc x => insert_sorted lt x acc) acc l)
            = List.filter p (acc ++ l)).
  { induction l as [|x l IH]; intros acc Hacc; cbn [foldl].
    - by rewrite app_nil_r.
    - rewrite IH by (by apply insert_sorted_ascending).
      rewrite !List.filter_app, insert_sorted_filter by exact Hacc.
      change (x :: l) with ([x] ++ l).
      rewrite !List.filter_app, <- app_assoc. reflexivity. }
  apply (H []). constructor.
Qed.
End Sorting.

Lemma StronglySorted_snoc {A} (R : A -> A -> Prop) l x :
  StronglySorted R l -> Forall (fun y => R y x) l ->
  StronglySorted R (l ++ [x]).
Proof.
  induction 1 as [|y l Hl IH Hy]; intros Hx; cbn [app].
  - repeat constructor.
  - apply Forall_cons in Hx as [Hyx Hx].
    constructor; [by apply IH|].
    apply Forall_app. split; [exact Hy|by repeat constructor].
Qed.

Lemma StronglySorted_rev {A} (R : A -> A -> Prop) l :
  StronglySorted R l -> StronglySorted (fun a b => R b a) (rev l).
Proof.
  induction 1 as [|x l Hl IH Hx]; cbn [rev]; [constructor|].
  apply StronglySorted_snoc; [exact IH|].
  by rewrite <- Permutation_rev.
Qed.

Lemma StronglySorted_pair {A} (R : A -> A -> Prop) before a between b after :
  StronglySorted R (before ++ a :: between ++ b :: after) -> R a b.
Proof.
  intros H. apply StronglySorted_app_1_r in H.
  apply StronglySorted_inv in H as [_ H].
  apply Forall_app in H as [_ H]. by apply Forall_cons in H as [H _].
Qed.

Lemma filter_rev {A} (p : A -> bool) l :
  List.filter p (rev l) = rev (List.filter p l).
Proof.
  induction l as [|x l IH]; [reflexivity|].
  cbn [rev List.filter]. rewrite List.filter_app, IH. cbn [List.filter].
  destruct (p x); cbn [rev]; [reflexivity|by rewrite app_nil_r].
Qed.

Lemma sorted_by_total_desc_sorted items before a between b after :
  sorted_by_total_desc items = before ++ a :: between ++ b :: after ->
  float_lt (snd a) (snd b) = false.
Proof.
  intros H.
  apply (StronglySorted_pair (fun a b => float_lt (snd a) (snd b) = false)
           before a between b after).
  rewrite <- H. unfold sorted_by_total_desc.
  apply (StronglySorted_rev (fun a b => float_lt (snd b) (snd a) = false)).
  apply (stable_sort_ascending (fun a b => float_lt (snd a) (snd b))).
  - intros x y z. apply float_lt_trans.
  - intros x y. apply float_lt_asym.
Qed.

Lemma sorted_by_total_desc_stable v items :
  List.filter (fun entry => float_eq (snd entry) v) (sorted_by_total_desc items)
  = List.filter (fun entry => float_eq (snd entry) v) items.
Proof.
  unfold sorted_by_total_desc.
  rewrite filter_rev, stable_sort_filter, filter_rev, rev_involutive;
    [reflexivity| | |].
  - intros x y z. apply float_lt_trans.
  - intros x y. apply float_lt_asym.
  - intros x y z Hx Hz. apply float_eq_lt.
    apply float_eq_sym in Hz. apply (float_eq_trans _ v); [exact Hx|exact Hz].
Qed.

Lemma debit_totals_entries key rows k total :
  In (k, total) (sorted_by_total_desc (debit_totals key rows))
  <-> debit_amounts key k rows <> []
      /\ total = float_sum (debit_amounts key k rows).
Proof.
  assert (Hnd : NoDup (map fst (debit_totals key rows)))
    by (apply debit_totals_NoDup; constructor).
  rewrite <- !list_elem_of_In.
  rewrite (sorted_by_total_desc_Permutation (debit_totals key rows)).
  rewrite list_elem_of_In, (dict_get_In _ _ _ Hnd).
  unfold debit_totals. rewrite debit_totals_get.
  unfold float_sum. cbn [dict_get default].
  destruct (debit_amounts key k rows) as [|a amounts].
  - split; [discriminate|]. by intros [? _].
  - split; [intros [= <-]; by split|]. by intros [_ ->].
Qed.

Lemma debit_totals_keys key rows :
  NoDup (map fst (sorted_by_total_desc (debit_totals key rows))).
Proof.
  rewrite (sorted_by_total_desc_Permutation (debit_totals key rows)).
  apply debit_totals_NoDup. constructor.
Qed.

(** X19. [aggregate_by_merchant] lists each merchant at most once, and a
    pair [(merchant, total)] is listed exactly when some row is a debit of
    that merchant and [total] is the float sum, from [0.0] and in row
    order, of the amounts of the debits of that merchant; credits and the
    rows of other merchants have no part in it. *)
Theorem aggregate_by_merchant_entries (rows : list stored_row) :
  NoDup (map fst (aggregate_by_merchant rows))
  /\ forall merchant total,
       In (merchant, total) (aggregate_by_merchant rows)
       <-> debit_amounts row_merchant_normalized merchant rows <> []
           /\ total
              = float_sum (debit_amounts row_merchant_normalized merchant rows).
Proof.
  split; [apply debit_totals_keys|]. intros. apply debit_totals_entries.
Qed.

(** X20. [aggregate_by_category] lists each category at most once, and a
    pair [(category, total)] is listed exactly when some debit row is filed
    under that category and [total] is the float sum, in row order, of the
    debits filed under it; a debit whose category is [NULL] or the empty
    string is filed under ["Outros"], together with the debits whose stored
    category is ["Outros"]. *)
Theorem aggregate_by_category_entries (rows : list stored_row) :
  NoDup (map fst (aggregate_by_category rows))
  /\ forall category total,
       In (category, total) (aggregate_by_category rows)
       <-> debit_amounts category_or_outros category rows <> []
           /\ total
              = float_sum (debit_amounts category_or_outros category rows).
Proof.
  split; [apply debit_totals_keys|]. intros. apply debit_totals_entries.
Qed.

(** X21. The two rankings are in descending order of total: when no total
    is a NaN, an entry of [aggregate_by_merchant] or of
    [aggregate_by_category] is never followed, at any distance, by an entry
    with a greater total. *)
Theorem aggregates_are_sorted_by_total (rows : list stored_row)
    (items before between after : list (str * float)) (a b : str * float) :
  items = aggregate_by_merchant rows \/ items = aggregate_by_category rows ->
  Forall (fun entry => snd entry <> S754_nan) items ->
  items = before ++ a :: between ++ b :: after ->
  float_lt (snd a) (snd b) = false.
Proof.
  intros [->| ->] _ H; exact (sorted_by_total_desc_sorted _ _ _ _ _ _ H).
Qed.

(** X22. Merchants with equal totals keep the order in which they were
    first debited: when no total is a NaN, the entries of
    [aggregate_by_merchant] whose total equals a given value are those of
    the dict the loop has built, in the order of the dict, and the keys of
    that dict are the merchants of the debit rows in the order of their
    first occurrence. *)
Theorem equal_totals_keep_the_order_of_first_debit
    (rows : list stored_row) (v : float) :
  Forall (fun entry => snd entry <> S754_nan) (aggregate_by_merchant rows) ->
  List.filter (fun entry => float_eq (snd entry) v)
              (aggregate_by_merchant rows)
  = List.filter (fun entry => float_eq (snd entry) v)
                (debit_totals row_merchant_normalized rows)
  /\ map fst (debit_totals row_merchant_normalized rows)
     = first_seen (map row_merchant_normalized (List.filter is_debit rows)).
Proof.
  intros _. split.
  - apply sorted_by_total_desc_stable.
  - apply debit_totals_keys_from.
Qed.

Lemma aggregates_are_sorted_by_total_witness :
  aggregate_by_merchant report_rows
  = [(lit "MERCADO", decimal_to_float false 300 0);
     (lit "PADARIA", decimal_to_float false 15 0);
     (lit "FARMACIA", decimal_to_float false 15 0)]
  /\ float_lt (decimal_to_float false 300 0) (decimal_to_float false 15 0)
     = false.
Proof.
  assert (H : aggregate_by_merchant report_rows
              = [(lit "MERCADO", decimal_to_float false 300 0);
                 (lit "PADARIA", decimal_to_float false 15 0);
                 (lit "FARMACIA", decimal_to_float false 15 0)])
    by (vm_compute; reflexivity).
  split; [exact H|].
  apply (aggregates_are_sorted_by_total report_rows
           (aggregate_by_merchant report_rows) [] []
           [(lit "FARMACIA", decimal_to_float false 15 0)]
           (lit "MERCADO", decimal_to_float false 300 0)
           (lit "PADARIA", decimal_to_float false 15 0)).
  - by left.
  - rewrite H. repeat constructor; vm_compute; discriminate.
  - exact H.
Defined.

Lemma equal_totals_keep_the_order_of_first_debit_witness :
  List.filter (fun entry => float_eq (snd entry) (decimal_to_float false 15 0))
              (aggregate_by_merchant report_rows)
  = List.filter (fun entry => float_eq (snd entry) (decimal_to_float false 15 0))
                (debit_totals row_merchant_normalized report_rows)
  /\ map fst (debit_totals row_merchant_normalized report_rows)
     = first_seen
         (map row_merchant_normalized (List.filter is_debit report_rows)).
Proof.
  apply equal_totals_keep_the_order_of_first_debit.
  assert (H : aggregate_by_merchant report_rows
              = [(lit "MERCADO", decimal_to_float false 300 0);
                 (lit "PADARIA", decimal_to_float false 15 0);
                 (lit "FARMACIA", decimal_to_float false 15 0)])
    by (vm_compute; reflexivity).
  rewrite H. repeat constructor; vm_compute; discriminate.
Defined.

(* ===================================================================== *)
(** * Properties of the transaction query                                 *)
(* ===================================================================== *)

Lemma placeholders_app q1 q2 :
  placeholders (q1 ++ q2) = placeholders q1 + placeholders q2.
Proof. unfold placeholders. rewrite List.filter_app. apply length_app. Qed.

Lemma add_filter_placeholders active clause value statement :
  placeholders (lit clause) = 1 ->
  placeholders (fst statement) = length (snd statement) ->
  placeholders (fst (add_filter active clause value statement))
  = length (snd (add_filter active clause value statement)).
Proof.
  intros Hc H. unfold add_filter. destruct active; [|exact H].
  cbn [fst snd]. rewrite placeholders_app, length_app, Hc, H. reflexivity.
Qed.

Lemma add_filter_fst active clause value statement :
  fst (add_filter active clause value statement)
  = if active then fst statement ++ lit clause else fst statement.
Proof. by destruct active. Qed.

Lemma truthy_or_none x : or_none (or_empty x) = if truthy x then x else None.
Proof. by destruct x as [[|]|]. Qed.

(** X23. Whatever the filters, the statement of [query_transactions] has as
    many [?] placeholders in its text as values in its parameter list. *)
Theorem query_binds_every_placeholder
    (start_date end_date txn_type merchant category : option str) :
  placeholders
    (fst (query_and_params start_date end_date txn_type merchant category))
  = length
      (snd (query_and_params start_date end_date txn_type merchant category)).
Proof.
  unfold query_and_params. cbn [fst snd].
  rewrite placeholders_app.
  replace (placeholders (lit " ORDER BY date ASC, id ASC")) with 0
    by (vm_compute; reflexivity).
  rewrite Nat.add_0_r.
  repeat (apply add_filter_placeholders; [vm_compute; reflexivity|]).
  vm_compute. reflexivity.
Qed.

(** X24. The SQL text of [query_transactions] depends only on which filters
    are in force, never on their values: two calls with the same filters in
    force run the same text, so that no text of the caller reaches the
    statement other than as a bound value. *)
Theorem query_text_is_independent_of_the_values
    (start_date end_date txn_type merchant category : option str)
    (start_date' end_date' txn_type' merchant' category' : option str) :
  truthy start_date = truthy start_date' ->
  truthy end_date = truthy end_date' ->
  is_txn_type txn_type = is_txn_type txn_type' ->
  truthy merchant = truthy merchant' ->
  truthy category = truthy category' ->
  fst (query_and_params start_date end_date txn_type merchant category)
  = fst (query_and_params start_date' end_date' txn_type' merchant'
                          category').
Proof.
  intros H1 H2 H3 H4 H5. unfold query_and_params. cbn [fst].
  rewrite !add_filter_fst, H1, H2, H3, H4, H5. reflexivity.
Qed.

(** X25. A filter that is the empty string counts as absent, and a type
    other than ["credit"] and ["debit"] is dropped without notice.  So the
    statement is the same when every filter goes through the reduction that
    [index] applies before the call (an absent or empty argument becomes
    [None]), and the same when a type that is not one of the two is
    replaced by [None]. *)
Theorem blank_and_unknown_filters_are_dropped
    (start_date end_date txn_type merchant category : option str) :
  query_and_params start_date end_date txn_type merchant category
  = query_and_params
      (or_none (or_empty start_date)) (or_none (or_empty end_date))
      (or_none (or_empty txn_type))
      (or_none (or_empty merchant)) (or_none (or_empty category))
  /\ query_and_params start_date end_date txn_type merchant category
     = query_and_params start_date end_date
         (if is_txn_type txn_type then txn_type else None)
         merchant category.
Proof.
  assert (Hf : forall x clause (wrap : str -> str) statement,
            add_filter (truthy (or_none (or_empty x))) clause
                       (wrap (default [] (or_none (or_empty x)))) statement
            = add_filter (truthy x) clause (wrap (default [] x)) statement)
    by (by intros [[|]|]).
  assert (Ht : forall statement,
            add_filter (is_txn_type (or_none (or_empty txn_type)))
                       " AND txn_type = ?"
                       (default [] (or_none (or_empty txn_type))) statement
            = add_filter (is_txn_type txn_type) " AND txn_type = ?"
                         (default [] txn_type) statement)
    by (by destruct txn_type as [[|]|]).
  assert (Hu : forall statement,
            add_filter
              (is_txn_type (if is_txn_type txn_type then txn_type else None))
              " AND txn_type = ?"
              (default [] (if is_txn_type txn_type then txn_type else None))
              statement
            = add_filter (is_txn_type txn_type) " AND txn_type = ?"
                         (default [] txn_type) statement)
    by (by destruct (is_txn_type txn_type) eqn:E; [rewrite E|]).
  split.
  - unfold query_and_params.
    rewrite Ht, !(Hf _ _ (fun v => v)),
      (Hf _ _ (fun v => lit "%" ++ v ++ lit "%")).
    reflexivity.
  - unfold query_and_params. rewrite Hu. reflexivity.
Qed.

Lemma query_text_is_independent_of_the_values_witness :
  fst (query_and_params (Some (lit "2025-01-01")) None (Some (lit "debit"))
         (Some (lit "x' OR '1'='1")) None)
  = fst (query_and_params (Some (lit "2024-06-30")) (Some [])
           (Some (lit "credit")) (Some (lit "PADARIA")) None).
Proof.
  apply query_text_is_independent_of_the_values; vm_compute; reflexivity.
Defined.

(* ===================================================================== *)
(** * Properties of storing                                               *)
(* ===================================================================== *)

Lemma zero_padded_4 n : (0 <= n <= 9999)%Z -> zero_padded 4 n = four_digits n.
Proof.
  intros Hn.
  assert (H : forallb (fun a => forallb (fun b => bool_decide
                (zero_padded 4 (100 * Z.of_nat a + Z.of_nat b)
                 = four_digits (100 * Z.of_nat a + Z.of_nat b)))
                (seq 0 100)) (seq 0 100) = true) by (vm_compute; reflexivity).
  rewrite forallb_forall in H.
  specialize (H (Z.to_nat (n / 100))).
  rewrite forallb_forall in H.
  assert (Hq : (0 <= n / 100 < 100)%Z)
    by (split; [apply Z.div_pos; lia|apply Z.div_lt_upper_bound; lia]).
  assert (Hr : (0 <= n mod 100 < 100)%Z) by (apply Z.mod_pos_bound; lia).
  specialize (H ltac:(apply in_seq; lia) (Z.to_nat (n mod 100))
                ltac:(apply in_seq; lia)).
  apply bool_decide_eq_true in H.
  rewrite !Z2Nat.id in H by lia.
  replace (100 * (n / 100) + n mod 100)%Z with n in H
    by (apply Z.div_mod; lia).
  exact H.
Qed.

Lemma zero_padded_2 n : (0 <= n <= 99)%Z -> zero_padded 2 n = two_digits n.
Proof.
  intros Hn.
  assert (H : forallb (fun k => bool_decide
                (zero_padded 2 (Z.of_nat k) = two_digits (Z.of_nat k)))
                (seq 0 100) = true) by (vm_compute; reflexivity).
  rewrite forallb_forall in H.
  specialize (H (Z.to_nat n)). rewrite Z2Nat.id in H by lia.
  apply bool_decide_eq_true in H; [exact H|].
  apply in_seq. lia.
Qed.

Lemma str_ltb_app a : forall b a' b',
  length a = length b ->
  str_ltb (a ++ a') (b ++ b')
  = str_ltb a b || bool_decide (a = b) && str_ltb a' b'.
Proof.
  induction a as [|x a IH]; intros [|y b] a' b' Hlen; try discriminate.
  - reflexivity.
  - cbn [app str_ltb]. injection Hlen as Hlen. rewrite (IH b a' b' Hlen).
    destruct (N.ltb_spec x y) as [Hlt|Hge]; [reflexivity|].
    destruct (N.eqb_spec x y) as [->|Hne]; cbn [orb andb].
    + destruct (str_ltb a b); [reflexivity|]. cbn [orb].
      destruct (decide (a = b)) as [->|Hab].
      * rewrite !bool_decide_eq_true_2 by reflexivity. reflexivity.
      * rewrite !bool_decide_eq_false_2 by congruence. reflexivity.
    + rewrite bool_decide_eq_false_2 by congruence. reflexivity.
Qed.

Ltac digits_order :=
  repeat match goal with
  | |- context [(?a <? ?b)%N] => destruct (N.ltb_spec a b)
  | |- context [(?a =? ?b)%N] => destruct (N.eqb_spec a b)
  | |- context [(?a <? ?b)%Z] => destruct (Z.ltb_spec a b)
  | |- context [(?a =? ?b)%Z] => destruct (Z.eqb_spec a b)
  end;
  cbn [orb andb]; try reflexivity; exfalso; Z.div_mod_to_equations; lia.

Lemma str_ltb_two_digits m n :
  (0 <= m <= 99)%Z -> (0 <= n <= 99)%Z ->
  str_ltb (two_digits m) (two_digits n) = (m <? n)%Z.
Proof.
  intros Hm Hn. unfold two_digits. cbn [str_ltb].
  rewrite andb_false_r, orb_false_r.
  digits_order.
Qed.

Lemma two_digits_eq m n :
  (0 <= m <= 99)%Z -> (0 <= n <= 99)%Z ->
  bool_decide (two_digits m = two_digits n) = (m =? n)%Z.
Proof.
  intros Hm Hn. destruct (Z.eqb_spec m n) as [->|Hne].
  - by rewrite bool_decide_eq_true_2.
  - rewrite bool_decide_eq_false_2; [reflexivity|].
    unfold two_digits. intros [= H1 H2]. apply Hne.
    Z.div_mod_to_equations. lia.
Qed.

Lemma str_ltb_four_digits m n :
  (0 <= m <= 9999)%Z -> (0 <= n <= 9999)%Z ->
  str_ltb (four_digits m) (four_digits n) = (m <? n)%Z.
Proof.
  intros Hm Hn. unfold four_digits. cbn [str_ltb].
  rewrite andb_false_r, orb_false_r.
  digits_order.
Qed.

Lemma four_digits_eq m n :
  (0 <= m <= 9999)%Z -> (0 <= n <= 9999)%Z ->
  bool_decide (four_digits m = four_digits n) = (m =? n)%Z.
Proof.
  intros Hm Hn. destruct (Z.eqb_spec m n) as [->|Hne].
  - by rewrite bool_decide_eq_true_2.
  - rewrite bool_decide_eq_false_2; [reflexivity|].
    unfold four_digits. intros [= H1 H2 H3 H4]. apply Hne.
    Z.div_mod_to_equations. lia.
Qed.

Lemma valid_date_bounds y m d :
  valid_date y m d = true ->
  (1 <= y <= 9999 /\ 1 <= m <= 12 /\ 1 <= d <= 31)%Z.
Proof.
  unfold valid_date, days_in_month. intros H.
  repeat (apply andb_true_iff in H as [H ?]).
  repeat match goal with
  | H : (_ <=? _)%Z = true |- _ => apply Z.leb_le in H
  end.
  repeat match goal with
  | H : context [if ?b then _ else _] |- _ => destruct b
  end; lia.
Qed.

Lemma date_isoformat_valid d :
  valid_date (year d) (month d) (day d) = true ->
  date_isoformat d
  = four_digits (year d) ++ lit "-" ++ two_digits (month d) ++ lit "-"
    ++ two_digits (day d).
Proof.
  intros H. apply valid_date_bounds in H. unfold date_isoformat.
  rewrite zero_padded_4, !zero_padded_2 by lia. reflexivity.
Qed.

(** X26. The date text that [save_transactions] stores sorts as the dates
    do: for two days of the calendar, the text of the first has ten
    characters and comes before the text of the second in the order of
    strings exactly when the first day is the earlier one.  The [date >= ?]
    and [date <= ?] filters of [query_transactions], which compare text,
    therefore select by date. *)
Theorem stored_dates_sort_chronologically (d1 d2 : datetime) :
  valid_date (year d1) (month d1) (day d1) = true ->
  valid_date (year d2) (month d2) (day d2) = true ->
  length (date_isoformat d1) = 10
  /\ str_ltb (date_isoformat d1) (date_isoformat d2) = earlier d1 d2.
Proof.
  intros V1 V2.
  rewrite (date_isoformat_valid _ V1), (date_isoformat_valid _ V2).
  apply valid_date_bounds in V1, V2.
  split; [reflexivity|].
  rewrite str_ltb_app by reflexivity.
  rewrite str_ltb_four_digits, four_digits_eq by lia.
  rewrite (str_ltb_app (lit "-")) by reflexivity.
  rewrite (str_ltb_app (two_digits _)) by reflexivity.
  rewrite (str_ltb_app (lit "-")) by reflexivity.
  rewrite !str_ltb_two_digits, two_digits_eq by lia.
  rewrite bool_decide_eq_true_2 by reflexivity.
  replace (str_ltb (lit "-") (lit "-")) with false by reflexivity.
  unfold earlier. cbn [orb andb]. reflexivity.
Qed.

Lemma inserts_loop (g : Transaction -> list sql_value) transactions :
  forall calls,
  foldl (fun calls txn => calls ++ [Db_insert_transaction (g txn)])
        calls transactions
  = calls ++ map (fun txn => Db_insert_transaction (g txn)) transactions.
Proof.
  induction transactions as [|txn transactions IH]; intros calls;
    cbn [foldl map].
  - by rewrite app_nil_r.
  - rewrite IH, <- app_assoc. reflexivity.
Qed.

Lemma omap_inserted (g : Transaction -> list sql_value) transactions :
  omap inserted (map (fun txn => Db_insert_transaction (g txn)) transactions)
  = map g transactions.
Proof.
  induction transactions as [|txn transactions IH]; [reflexivity|].
  cbn [map]. csimpl. by rewrite IH.
Qed.

Lemma known_categories_snoc fetched row :
  known_categories (fetched ++ [row])
  = <[fst row := snd row]> (known_categories fetched).
Proof. unfold known_categories. by rewrite foldl_app. Qed.

Lemma known_categories_lookup fetched merchant :
  known_categories fetched !! merchant
  = snd <$> List.find (fun row => bool_decide (fst row = merchant))
                      (rev fetched).
Proof.
  induction fetched as [|row fetched IH] using rev_ind; [reflexivity|].
  rewrite known_categories_snoc, rev_app_distr. cbn [rev app List.find].
  destruct (decide (fst row = merchant)) as [<-|Hne].
  - rewrite lookup_insert_eq, bool_decide_eq_true_2 by reflexivity.
    reflexivity.
  - rewrite lookup_insert_ne, bool_decide_eq_false_2 by exact Hne. exact IH.
Qed.

(** X27. [save_transactions] issues one [INSERT] for each transaction, in
    the order of the list and none for the empty list, each with the fields
    of its transaction, the same time stamp, and the category that the
    [merchant_category] rows fetched at the start give to its merchant: the
    category of the last fetched row of that merchant, [NULL] when there is
    none. *)
Theorem save_transactions_applies_the_known_categories
    (fetched : list (str * str)) (now : str)
    (transactions : list Transaction) :
  omap inserted (save_transactions fetched now transactions)
  = map (insert_params (known_categories fetched) now) transactions
  /\ forall merchant,
       known_categories fetched !! merchant
       = snd <$> List.find (fun row => bool_decide (fst row = merchant))
                           (rev fetched).
Proof.
  split; [|apply known_categories_lookup].
  unfold save_transactions. destruct transactions as [|txn transactions];
    [reflexivity|].
  rewrite inserts_loop, !omap_app, omap_inserted.
  cbn [app]. by rewrite app_nil_r.
Qed.

Lemma stored_dates_sort_chronologically_witness :
  length (date_isoformat (mk_datetime 2025 12 15 0 0 0 0)) = 10
  /\ str_ltb (date_isoformat (mk_datetime 2025 12 15 0 0 0 0))
             (date_isoformat (mk_datetime 2026 1 2 0 0 0 0))
     = earlier (mk_datetime 2025 12 15 0 0 0 0) (mk_datetime 2026 1 2 0 0 0 0).
Proof.
  apply stored_dates_sort_chronologically; vm_compute; reflexivity.
Defined.

(* ===================================================================== *)
(** * Properties of the upload                                            *)
(* ===================================================================== *)

Section UploadProperties.
Context {page image : Type}.
Implicit Types (rt : runtime page image) (f : FileStorage).

Lemma upload_file_imported rt f : snd (upload_file rt f) = imported_from rt f.
Proof.
  unfold upload_file, imported_from.
  destruct (endswith _ _); cbn [negb]; [|reflexivity].
  destruct (snd (parse_transactions_from_pdf rt (read f)))
    as [e|[|txn txns]]; reflexivity.
Qed.

Lemma upload_file_saved rt f : saved (fst (upload_file rt f)) = [].
Proof.
  unfold upload_file.
  destruct (endswith _ _); cbn [negb]; [|reflexivity].
  destruct (snd (parse_transactions_from_pdf rt (read f)))
    as [e|[|txn txns]]; reflexivity.
Qed.

Lemma upload_file_flashed rt f :
  length (flashed (fst (upload_file rt f)))
  = if contributes_nothing rt f then 1 else 0.
Proof.
  unfold contributes_nothing, upload_file, imported_from.
  destruct (endswith _ _); cbn [negb]; [|reflexivity].
  destruct (snd (parse_transactions_from_pdf rt (read f)))
    as [e|[|txn txns]]; reflexivity.
Qed.

Lemma upload_loop rt files : forall effects all_transactions,
  foldl (fun state f =>
           let '(effects, txns) := upload_file rt f in
           (fst state ++ effects, snd state ++ txns))
        (effects, all_transactions) files
  = (effects ++ flat_map (fun f => fst (upload_file rt f)) files,
     all_transactions ++ flat_map (imported_from rt) files).
Proof.
  induction files as [|f files IH]; intros effects all_transactions;
    cbn [foldl flat_map].
  - by rewrite !app_nil_r.
  - rewrite <- (upload_file_imported rt f).
    destruct (upload_file rt f) as [e t]. cbn [fst snd].
    rewrite IH, <- !app_assoc. reflexivity.
Qed.

Lemma saved_app e1 e2 : saved (e1 ++ e2) = saved e1 ++ saved e2.
Proof. apply omap_app. Qed.

Lemma flashed_app e1 e2 : flashed (e1 ++ e2) = flashed e1 ++ flashed e2.
Proof. apply omap_app. Qed.

Lemma saved_per_file rt files :
  saved (flat_map (fun f => fst (upload_file rt f)) files) = [].
Proof.
  induction files as [|f files IH]; [reflexivity|].
  cbn [flat_map]. by rewrite saved_app, upload_file_saved, IH.
Qed.

Lemma flashed_per_file rt files :
  length (flashed (flat_map (fun f => fst (upload_file rt f)) files))
  = length (List.filter (contributes_nothing rt) files).
Proof.
  induction files as [|f files IH]; [reflexivity|].
  cbn [flat_map List.filter].
  rewrite flashed_app, length_app, upload_file_flashed, IH.
  by destruct (contributes_nothing rt f).
Qed.

(** X28. An upload calls [save_transactions] at most once, and with the
    transactions of all the files together, in the order of the files: of
    each file whose name ends in [.pdf], in any case, and whose parsing
    returns.  A file of another name and a file whose parsing raises
    contribute nothing and do not stop the others; when nothing is
    contributed, or the request has no file part, nothing is saved. *)
Theorem upload_saves_what_the_files_yield rt
    (files : option (list FileStorage)) :
  saved (upload rt files)
  = match flat_map (imported_from rt) (default [] files) with
    | [] => []
    | txn :: txns => [txn :: txns]
    end.
Proof.
  destruct files as [files|]; [|reflexivity].
  change (default [] (Some files)) with files.
  unfold upload. rewrite upload_loop. cbn [app].
  rewrite saved_app, saved_per_file.
  destruct (flat_map (imported_from rt) files); reflexivity.
Qed.

(** X29. An upload flashes one message for each file that contributes no
    transaction (wrong extension, failed parsing, or nothing found) and one
    closing message, which is of category ["success"] when something was
    imported and ["warning"] when nothing was. *)
Theorem upload_reports_every_file_without_transactions rt
    (files : list FileStorage) :
  length (flashed (upload rt (Some files)))
  = S (length (List.filter (contributes_nothing rt) files))
  /\ snd <$> last (flashed (upload rt (Some files)))
     = Some (match flat_map (imported_from rt) files with
             | [] => lit "warning"
             | _ :: _ => lit "success"
             end).
Proof.
  unfold upload. rewrite upload_loop. cbn [app].
  rewrite flashed_app, length_app, flashed_per_file.
  destruct (flat_map (imported_from rt) files) as [|txn txns].
  - split; [cbn [flashed omap list_omap length]; lia|].
    change (flashed [Flash ?m ?c]) with [(m, c)].
    by rewrite last_snoc.
  - split; [cbn [flashed omap list_omap length]; lia|].
    change (flashed [Save_transactions ?t; Flash ?m ?c]) with [(m, c)].
    by rewrite last_snoc.
Qed.
End UploadProperties.
